(** * USBFS control-endpoint driver of the DFU bootloader

    A shallow embedding of [examples/dfu-bootloader/usbfs.c]: the EP0
    transfer engine, the setup dispatch table, the FIFO reader and the
    interrupt entry point, as state-passing functions over a model of the
    register block.  Every access to a device register is recorded in a
    log, in program order, so that statements about what the driver arms,
    and when, can be made on the log. *)

From Stdlib Require Import ZArith List Bool Lia String Ascii.
Import ListNotations.
Local Open Scope Z_scope.

(** ** Fixed-width integers *)

Definition u8 (x : Z) : Z := x mod 2 ^ 8.
Definition u16 (x : Z) : Z := x mod 2 ^ 16.
Definition u32 (x : Z) : Z := x mod 2 ^ 32.

(** ** The register block

    [USBFS->...] and [DBG->...] of the source.  Endpoint registers are
    indexed as the arrays [DIEP[i]] and [DOEP[i]] are. *)

Inductive reg : Type :=
| GRSTCTL | GINTF | GRSTATP | DCFG | DCTL | DSTAT
| DAEPINT | DAEPINTEN | DOEPINTEN | DIEPINTEN
| DIEP_CTL (i : nat) | DIEP_INTF (i : nat) | DIEP_LEN (i : nat)
| DOEP_CTL (i : nat) | DOEP_INTF (i : nat) | DOEP_LEN (i : nat)
| DFIFO0
| DBG_KEY | DBG_CMD.

Definition reg_eq_dec (a b : reg) : {a = b} + {a <> b}.
Proof. decide equality; apply Nat.eq_dec. Defined.

Definition reg_eqb (a b : reg) : bool :=
  if reg_eq_dec a b then true else false.

(** The bit-field macros of [gd32vf103/usbfs.h] and [gd32vf103/dbg.h].
    The headers are not part of the sources at hand, so the driver is
    embedded over any assignment of values to the macros it uses. *)

Class RegisterMap : Type := {
  USBFS_DIEPLEN_PCNT : Z -> Z;
  USBFS_DIEPCTL_EPEN : Z;
  USBFS_DIEPCTL_CNAK : Z;
  USBFS_DIEPCTL_SNAK : Z;
  USBFS_DIEPCTL_STALL : Z;
  USBFS_DIEPCTL_EPTYPE_CONTROL : Z;
  USBFS_DIEP0CTL_MPL_64B : Z;
  USBFS_DIEPINTF_IEPNE : Z;
  USBFS_DIEPINTF_EPTXFUD : Z;
  USBFS_DIEPINTF_CITO : Z;
  USBFS_DIEPINTF_EPDIS : Z;
  USBFS_DIEPINTF_TF : Z;
  USBFS_DOEPLEN_STPCNT : Z -> Z;
  USBFS_DOEPLEN_PCNT : Z -> Z;
  USBFS_DOEPLEN_TLEN : Z -> Z;
  USBFS_DOEPLEN_TLEN_Msk : Z;
  USBFS_DOEPCTL_EPEN : Z;
  USBFS_DOEPCTL_CNAK : Z;
  USBFS_DOEPCTL_SNAK : Z;
  USBFS_DOEPCTL_STALL : Z;
  USBFS_DOEPCTL_EPTYPE_CONTROL : Z;
  USBFS_DOEP0CTL_MPL_64B : Z;
  USBFS_DOEPINTF_BTBSTP : Z;
  USBFS_DOEPINTF_EPRXFOVR : Z;
  USBFS_DOEPINTF_STPF : Z;
  USBFS_DOEPINTF_EPDIS : Z;
  USBFS_DOEPINTF_TF : Z;
  USBFS_GRSTCTL_TXFNUM : Z -> Z;
  USBFS_GRSTCTL_TXFF : Z;
  USBFS_DCFG_DAR_Msk : Z;
  USBFS_DCFG_DAR : Z -> Z;
  USBFS_DAEPINTEN_OEPIE : Z -> Z;
  USBFS_DAEPINTEN_IEPIE : Z -> Z;
  USBFS_DOEPINTEN_STPFEN : Z;
  USBFS_DOEPINTEN_TFEN : Z;
  USBFS_DIEPINTEN_TFEN : Z;
  USBFS_DCTL_CGINAK : Z;
  USBFS_DSTAT_ES_Msk : Z;
  USBFS_DSTAT_ES_FULL : Z;
  USBFS_GINTF_RXFNEIF : Z;
  USBFS_GINTF_OEPIF : Z;
  USBFS_GINTF_IEPIF : Z;
  USBFS_GINTF_SP : Z;
  USBFS_GINTF_WKUPIF : Z;
  USBFS_GINTF_RST : Z;
  USBFS_GINTF_ENUMF : Z;
  USBFS_GRSTAT_EPNUM_Msk : Z;
  USBFS_GRSTAT_BCOUNT_Msk : Z;
  USBFS_GRSTAT_BCOUNT_Pos : Z;
  USBFS_GRSTAT_RPCKST_Msk : Z;
  USBFS_GRSTAT_RPCKST_STP : Z;
  DBG_KEY_UNLOCK : Z;
  DBG_CMD_RESET : Z
}.

(** ** Setup packets

    [struct usb_setup_packet]: eight bytes, little endian; [request] is
    the 16-bit view the source takes of the first two bytes. *)

Record usb_setup_packet : Type := {
  bmRequestType : Z;
  bRequest : Z;
  wValue : Z;
  wIndex : Z;
  wLength : Z
}.

Definition request (p : usb_setup_packet) : Z :=
  Z.lor (bmRequestType p) (Z.shiftl (bRequest p) 8).

(** ** The class bridge

    [dfu.h] and the DFU state machine behind it are external to the file.
    A pointer to constant bytes, as handed out through [const void **data],
    is the list of the bytes readable from it.  The DFU handlers own a
    state of their own and the exported flag [usbfs_reboot_on_ack]; the
    driver's [static] objects are out of their reach. *)

Definition dfu_handler (W : Type) : Type :=
  usb_setup_packet -> list Z -> W -> bool -> (Z * list Z) * (W * bool).

Class DfuBridge : Type := {
  dfu_world : Type;
  DFU_INTERFACE : Z;
  DFU_TRANSFERSIZE : Z;
  dfu_detach : dfu_handler dfu_world;
  dfu_dnload : dfu_handler dfu_world;
  dfu_upload : dfu_handler dfu_world;
  dfu_getstatus : dfu_handler dfu_world;
  dfu_clrstatus : dfu_handler dfu_world;
  dfu_getstate : dfu_handler dfu_world;
  dfu_abort : dfu_handler dfu_world
}.

(** ** Bytes in memory *)

Definition le16 (x : Z) : list Z := [Z.land x 0xFF; Z.land (Z.shiftr x 8) 0xFF].

(** The two bytes of a 16-bit field inside a descriptor's byte array. *)
Definition USB_WORD (x : Z) : list Z := le16 x.

Definition le32 (w : Z) : list Z :=
  [Z.land w 0xFF; Z.land (Z.shiftr w 8) 0xFF;
   Z.land (Z.shiftr w 16) 0xFF; Z.land (Z.shiftr w 24) 0xFF].

Definition byte_at (mem : list Z) (i : nat) : Z := nth i mem 0.

Definition half_at (mem : list Z) (i : nat) : Z :=
  Z.lor (byte_at mem i) (Z.shiftl (byte_at mem (S i)) 8).

Fixpoint poke (mem : list Z) (i : nat) (bs : list Z) : list Z :=
  match i, mem with
  | O, _ =>
      match bs, mem with
      | b :: bs', _ :: mem' => b :: poke mem' O bs'
      | _, _ => mem
      end
  | S i', x :: mem' => x :: poke mem' i' bs
  | S _, [] => []
  end.

(** Whether the four bytes at byte offset [off] lie inside the object
    [mem]. *)
Definition inside32 (mem : list Z) (off : Z) : bool :=
  (0 <=? off) && (off + 4 <=? Z.of_nat (List.length mem)).

(** [*p = w] for a [uint32_t *p] at byte offset [off] inside the object
    [mem]. *)
Definition store32 (mem : list Z) (off : Z) (w : Z) : list Z :=
  poke mem (Z.to_nat off) (le32 w).

(** [n] bytes read through a [const unsigned char *]; past the end of the
    modelled object the bytes read as zero. *)
Fixpoint read_bytes (n : nat) (p : list Z) : list Z :=
  match n with
  | O => []
  | S n' =>
      match p with
      | [] => 0 :: read_bytes n' []
      | b :: p' => b :: read_bytes n' p'
      end
  end.

(** ** Device state *)

(** One access to a device register, as the bus sees it. *)
Inductive event : Type :=
| Load (r : reg) (v : Z)
| Store (r : reg) (v : Z).

(** [usbfs_state].  [ep0out] points into [usbfs_outbuf] and is kept as a
    byte offset from its start; [ep0in] points to constant data and is the
    list of bytes readable from it. *)
Record usbfs_state_t : Type := {
  ep0out : Z;
  ep0in : list Z;
  bytes : Z
}.

Section Driver.

Context {R : RegisterMap} {B : DfuBridge}.

(** The register block as the driver finds it, the driver's own objects and
    the state of the class bridge.

    - [regs]: the value each register holds;
    - [rxfifo]: the packets waiting in the receive FIFO, each with the
      status word that [GRSTATP] pops for it and its payload in words;
    - [rxwords]: the payload words of the packet popped last that are
      still to be read from the FIFO data port;
    - [flush_busy]: how many more reads of [GRSTCTL] show a flush in
      progress;
    - [usbfs_outbuf]: the bytes of the union of the setup packet and
      [v[2]], followed by [data[DFU_TRANSFERSIZE]]. *)
Record machine : Type := {
  regs : reg -> Z;
  rxfifo : list (Z * list Z);
  rxwords : list Z;
  flush_busy : nat;
  log : list event;
  usbfs_state : usbfs_state_t;
  usbfs_outbuf : list Z;
  usbfs_status : Z;
  usbfs_reboot_on_ack : bool;
  dfu : dfu_world
}.

Definition set_regs (f : reg -> Z) (m : machine) : machine :=
  {| regs := f; rxfifo := rxfifo m; rxwords := rxwords m;
     flush_busy := flush_busy m; log := log m;
     usbfs_state := usbfs_state m; usbfs_outbuf := usbfs_outbuf m;
     usbfs_status := usbfs_status m;
     usbfs_reboot_on_ack := usbfs_reboot_on_ack m; dfu := dfu m |}.

Definition set_rx (q : list (Z * list Z)) (ws : list Z) (m : machine) : machine :=
  {| regs := regs m; rxfifo := q; rxwords := ws;
     flush_busy := flush_busy m; log := log m;
     usbfs_state := usbfs_state m; usbfs_outbuf := usbfs_outbuf m;
     usbfs_status := usbfs_status m;
     usbfs_reboot_on_ack := usbfs_reboot_on_ack m; dfu := dfu m |}.

Definition set_flush_busy (n : nat) (m : machine) : machine :=
  {| regs := regs m; rxfifo := rxfifo m; rxwords := rxwords m;
     flush_busy := n; log := log m;
     usbfs_state := usbfs_state m; usbfs_outbuf := usbfs_outbuf m;
     usbfs_status := usbfs_status m;
     usbfs_reboot_on_ack := usbfs_reboot_on_ack m; dfu := dfu m |}.

Definition set_log (l : list event) (m : machine) : machine :=
  {| regs := regs m; rxfifo := rxfifo m; rxwords := rxwords m;
     flush_busy := flush_busy m; log := l;
     usbfs_state := usbfs_state m; usbfs_outbuf := usbfs_outbuf m;
     usbfs_status := usbfs_status m;
     usbfs_reboot_on_ack := usbfs_reboot_on_ack m; dfu := dfu m |}.

Definition set_usbfs_state (s : usbfs_state_t) (m : machine) : machine :=
  {| regs := regs m; rxfifo := rxfifo m; rxwords := rxwords m;
     flush_busy := flush_busy m; log := log m;
     usbfs_state := s; usbfs_outbuf := usbfs_outbuf m;
     usbfs_status := usbfs_status m;
     usbfs_reboot_on_ack := usbfs_reboot_on_ack m; dfu := dfu m |}.

Definition set_usbfs_outbuf (b : list Z) (m : machine) : machine :=
  {| regs := regs m; rxfifo := rxfifo m; rxwords := rxwords m;
     flush_busy := flush_busy m; log := log m;
     usbfs_state := usbfs_state m; usbfs_outbuf := b;
     usbfs_status := usbfs_status m;
     usbfs_reboot_on_ack := usbfs_reboot_on_ack m; dfu := dfu m |}.

Definition set_bridge (w : dfu_world) (r : bool) (m : machine) : machine :=
  {| regs := regs m; rxfifo := rxfifo m; rxwords := rxwords m;
     flush_busy := flush_busy m; log := log m;
     usbfs_state := usbfs_state m; usbfs_outbuf := usbfs_outbuf m;
     usbfs_status := usbfs_status m;
     usbfs_reboot_on_ack := r; dfu := w |}.

Definition upd (r : reg) (v : Z) (f : reg -> Z) : reg -> Z :=
  fun r' => if reg_eqb r r' then v else f r'.

(** *** What the register block does on an access

    The part of the hardware the control flow of the driver depends on:
    - [GINTF] shows [RXFNEIF] exactly while a packet waits in the receive
      FIFO;
    - reading [GRSTATP] pops the status of the next packet and makes its
      payload readable, word by word, from the FIFO data port;
    - [GRSTCTL] shows [TXFF] until the flush is over;
    - interrupt flag registers are cleared by writing ones;
    - every other register reads back what was written to it. *)

Definition hw_load (r : reg) (m : machine) : Z * machine :=
  match r with
  | GINTF =>
      (match rxfifo m with
       | [] => Z.land (regs m GINTF) (Z.lnot USBFS_GINTF_RXFNEIF)
       | _ :: _ => Z.lor (regs m GINTF) USBFS_GINTF_RXFNEIF
       end, m)
  | GRSTATP =>
      match rxfifo m with
      | [] => (regs m GRSTATP, m)
      | (s, ws) :: q => (s, set_rx q ws m)
      end
  | DFIFO0 =>
      match rxwords m with
      | [] => (0, m)
      | w :: ws => (w, set_rx (rxfifo m) ws m)
      end
  | GRSTCTL =>
      match flush_busy m with
      | O => (Z.land (regs m GRSTCTL) (Z.lnot USBFS_GRSTCTL_TXFF), m)
      | S n => (Z.lor (regs m GRSTCTL) USBFS_GRSTCTL_TXFF, set_flush_busy n m)
      end
  | _ => (regs m r, m)
  end.

Definition hw_store (r : reg) (v : Z) (m : machine) : machine :=
  match r with
  | GINTF | DIEP_INTF _ | DOEP_INTF _ =>
      set_regs (upd r (Z.land (regs m r) (Z.lnot v)) (regs m)) m
  | GRSTATP | DFIFO0 => m
  | _ => set_regs (upd r v (regs m)) m
  end.

(** *** The monad of the driver

    A function of the driver runs on a machine and either returns, or
    triggers the system reset and does not return, or spins in a loop
    longer than the hardware model allows for, or stores through [ep0out]
    outside [usbfs_outbuf].  The source does not check the pointer, so such
    a store goes to whatever lies next to the buffer; which object that is
    the source does not say, and the run is followed no further. *)

Inductive outcome (A : Type) : Type :=
| Ret (a : A) (m : machine)
| SystemReset (m : machine)
| Diverge (m : machine)
| OutOfBounds (m : machine).

Arguments Ret {A} a m.
Arguments SystemReset {A} m.
Arguments Diverge {A} m.
Arguments OutOfBounds {A} m.

Definition M (A : Type) : Type := machine -> outcome A.

Definition ret {A : Type} (a : A) : M A := fun m => Ret a m.

Definition bind {A C : Type} (c : M A) (k : A -> M C) : M C :=
  fun m =>
    match c m with
    | Ret a m' => k a m'
    | SystemReset m' => SystemReset m'
    | Diverge m' => Diverge m'
    | OutOfBounds m' => OutOfBounds m'
    end.

Notation "x <- c ;; k" := (bind c (fun x => k))
  (at level 61, c at next level, right associativity).
Notation "' pat <- c ;; k" := (bind c (fun x => match x with pat => k end))
  (at level 61, pat pattern, c at next level, right associativity).
Notation "c ;; k" := (bind c (fun _ => k))
  (at level 61, right associativity).

Definition load (r : reg) : M Z :=
  fun m => let (v, m') := hw_load r m in
           Ret v (set_log (log m' ++ [Load r v]) m').

Definition store (r : reg) (v : Z) : M unit :=
  fun m => Ret tt (set_log (log m ++ [Store r v]) (hw_store r v m)).

(** [r |= v] *)
Definition set_bits (r : reg) (v : Z) : M unit :=
  x <- load r ;; store r (Z.lor x v).

(** [r &= ~v] *)
Definition clear_bits (r : reg) (v : Z) : M unit :=
  x <- load r ;; store r (Z.land x (Z.lnot v)).

Definition get_state : M usbfs_state_t := fun m => Ret (usbfs_state m) m.

Definition put_state (s : usbfs_state_t) : M unit :=
  fun m => Ret tt (set_usbfs_state s m).

Definition set_ep0out (o : Z) : M unit :=
  s <- get_state ;;
  put_state {| ep0out := o; ep0in := ep0in s; bytes := bytes s |}.

Definition set_ep0in (p : list Z) : M unit :=
  s <- get_state ;;
  put_state {| ep0out := ep0out s; ep0in := p; bytes := bytes s |}.

Definition set_bytes (n : Z) : M unit :=
  s <- get_state ;;
  put_state {| ep0out := ep0out s; ep0in := ep0in s; bytes := n |}.

(** [system_reset]: the point after [DBG->CMD = DBG_CMD_RESET], which the
    source marks as never reached. *)
Definition system_reset {A : Type} : M A := fun m => SystemReset m.

(** ** usbfs_outbuf *)

Definition outbuf_v : Z := 0.
Definition outbuf_data : Z := 8.

(** [usbfs_outbuf.setup] *)
Definition setup_of (mem : list Z) : usb_setup_packet :=
  {| bmRequestType := byte_at mem 0;
     bRequest := byte_at mem 1;
     wValue := half_at mem 2;
     wIndex := half_at mem 4;
     wLength := half_at mem 6 |}.

Definition get_setup : M usb_setup_packet :=
  fun m => Ret (setup_of (usbfs_outbuf m)) m.

(** [usbfs_outbuf.data], as a pointer to its first byte *)
Definition get_outbuf_data : M (list Z) :=
  fun m => Ret (skipn 8 (usbfs_outbuf m)) m.

(** [*p = w] through a pointer [p] into [usbfs_outbuf], kept as the byte
    offset [off]: inside the buffer the store changes the four bytes, and
    outside of it the run has left the buffer. *)
Definition store_outbuf (off : Z) (w : Z) : M unit :=
  fun m =>
    if inside32 (usbfs_outbuf m) off
    then Ret tt (set_usbfs_outbuf (store32 (usbfs_outbuf m) off w) m)
    else OutOfBounds m.

(** [*usbfs_state.ep0out++ = w] *)
Definition push_ep0out (w : Z) : M unit :=
  s <- get_state ;;
  store_outbuf (ep0out s) w ;;
  set_ep0out (ep0out s + 4).

(** ** EP0 transfer engine *)

(** The loop of [usbfs_ep0in_transfer] that packs the bytes between [p]
    and [end] into words, first byte lowest, and writes them to the
    transmit FIFO. *)
Fixpoint push_fifo (bs : list Z) : M unit :=
  match bs with
  | [] => ret tt
  | [b0] => store DFIFO0 b0
  | [b0; b1] => store DFIFO0 (Z.lor b0 (Z.shiftl b1 8))
  | [b0; b1; b2] =>
      store DFIFO0 (Z.lor (Z.lor b0 (Z.shiftl b1 8)) (Z.shiftl b2 16))
  | b0 :: b1 :: b2 :: b3 :: rest =>
      store DFIFO0
        (Z.lor (Z.lor (Z.lor b0 (Z.shiftl b1 8)) (Z.shiftl b2 16))
               (Z.shiftl b3 24)) ;;
      push_fifo rest
  end.

Definition usbfs_ep0in_transfer : M unit :=
  s <- get_state ;;
  let n := bytes s in
  let p := ep0in s in
  let n := if n >? 64 then 64 else n in
  store (DIEP_LEN 0) (Z.lor (USBFS_DIEPLEN_PCNT 1) n) ;;
  set_bits (DIEP_CTL 0) (Z.lor USBFS_DIEPCTL_EPEN USBFS_DIEPCTL_CNAK) ;;
  push_fifo (read_bytes (Z.to_nat n) p).

Definition usbfs_ep0in_transfer_empty : M unit := usbfs_ep0in_transfer.

Definition usbfs_ep0in_stall : M unit :=
  set_bits (DIEP_CTL 0) USBFS_DIEPCTL_STALL.

Definition usbfs_ep0out_prepare_setup : M unit :=
  store (DOEP_LEN 0)
    (Z.lor (Z.lor (USBFS_DOEPLEN_STPCNT 3) (USBFS_DOEPLEN_PCNT 0))
           (USBFS_DOEPLEN_TLEN 0)) ;;
  set_bits (DOEP_CTL 0) (Z.lor USBFS_DOEPCTL_EPEN USBFS_DOEPCTL_STALL).

Definition usbfs_ep0out_prepare_out : M unit :=
  store (DOEP_LEN 0)
    (Z.lor (Z.lor (USBFS_DOEPLEN_STPCNT 3) (USBFS_DOEPLEN_PCNT 1))
           (USBFS_DOEPLEN_TLEN 64)) ;;
  set_bits (DOEP_CTL 0) (Z.lor USBFS_DOEPCTL_EPEN USBFS_DOEPCTL_CNAK).

(** ** Descriptors

    The descriptor structures are packed and little endian, so each object
    is the list of its bytes. *)

Definition usbfs_descriptor_device : list Z :=
  [18; 0x01] ++ le16 0x0200 ++ [0x00; 0x00; 0x00; 64] ++
  le16 0x1d50 ++ le16 0x613e ++ le16 0x0200 ++ [1; 2; 3; 1].

Definition usbfs_descriptor_configuration1 : list Z :=
  [9; 0x02] ++ le16 (9 + 9 + 9) ++ [1; 1; 0; 0x80; 250] ++
  [9; 0x04; u8 DFU_INTERFACE; 0; 0; 0xFE; 0x01; 0x02; 4] ++
  [9; 0x21; 0x0f] ++ USB_WORD 500 ++ USB_WORD DFU_TRANSFERSIZE ++
  USB_WORD 0x0101.

(** [usbfs_descriptor_configuration1.wTotalLength] and
    [&usbfs_descriptor_configuration1.bConfigurationValue] *)
Definition configuration1_wTotalLength : Z :=
  half_at usbfs_descriptor_configuration1 2.
Definition configuration1_bConfigurationValue : list Z :=
  skipn 5 usbfs_descriptor_configuration1.

Definition codepoints (s : string) : list Z :=
  flat_map (fun c => le16 (Z.of_nat (nat_of_ascii c))) (list_ascii_of_string s).

Definition usbfs_descriptor_string0 : list Z := [4; 0x03] ++ le16 0x0409.
Definition usbfs_descriptor_manufacturer : list Z :=
  [16; 0x03] ++ codepoints "Labitat".
Definition usbfs_descriptor_product : list Z :=
  [20; 0x03] ++ codepoints "GD32VF103".
Definition usbfs_descriptor_serial : list Z :=
  [26; 0x03] ++ codepoints "000000000001".
Definition usbfs_descriptor_dfu : list Z :=
  [20; 0x03] ++ codepoints "GeckoBoot".

Definition usbfs_descriptor_string : list (list Z) :=
  [usbfs_descriptor_string0; usbfs_descriptor_manufacturer;
   usbfs_descriptor_product; usbfs_descriptor_serial; usbfs_descriptor_dfu].

(** ** Standard request handlers

    A handler gets the setup packet and the current value of [*data]; it
    returns its [int] and the value it leaves in [*data]. *)

Definition handler : Type := usb_setup_packet -> list Z -> M (Z * list Z).

Definition usbfs_handle_get_status_device : handler :=
  fun p data m => Ret (2, le16 (usbfs_status m)) m.

Definition usbfs_handle_set_address : handler :=
  fun p data =>
    x <- load DCFG ;;
    store DCFG (Z.lor (Z.land x (Z.lnot USBFS_DCFG_DAR_Msk))
                      (USBFS_DCFG_DAR (wValue p))) ;;
    ret (0, data).

Definition usbfs_handle_get_descriptor_device (data : list Z) (index : Z)
  : Z * list Z :=
  if negb (index =? 0) then (-1, data)
  else (Z.of_nat (List.length usbfs_descriptor_device), usbfs_descriptor_device).

Definition usbfs_handle_get_descriptor_configuration (data : list Z) (index : Z)
  : Z * list Z :=
  if negb (index =? 0) then (-1, data)
  else (configuration1_wTotalLength, usbfs_descriptor_configuration1).

Definition usbfs_handle_get_descriptor_string (data : list Z) (index : Z)
  : Z * list Z :=
  if index >=? Z.of_nat (List.length usbfs_descriptor_string) then (-1, data)
  else
    let desc := nth (Z.to_nat index) usbfs_descriptor_string [] in
    (byte_at desc 0, desc).

Definition usbfs_handle_get_descriptor : handler :=
  fun p data =>
    let type := u8 (Z.shiftr (wValue p) 8) in
    let index := u8 (Z.land (wValue p) 0xFF) in
    ret (if type =? 0x01 then usbfs_handle_get_descriptor_device data index
         else if type =? 0x02 then
           usbfs_handle_get_descriptor_configuration data index
         else if type =? 0x03 then
           usbfs_handle_get_descriptor_string data index
         else (-1, data)).

Definition usbfs_handle_get_configuration : handler :=
  fun p data => ret (1, configuration1_bConfigurationValue).

Definition usbfs_handle_set_configuration : handler :=
  fun p data =>
    if negb (wValue p =? byte_at usbfs_descriptor_configuration1 5)
    then ret (-1, data)
    else ret (0, data).

Definition usbfs_handle_set_interface0 : handler :=
  fun p data =>
    if negb (wValue p =? 0) then ret (-1, data) else ret (0, data).

Definition usbfs_handle_clear_feature_endpoint : handler :=
  fun p data => ret (-1, data).

(** A handler of the class bridge, called through the table. *)
Definition bridge (f : dfu_handler dfu_world) : handler :=
  fun p data m =>
    let '(res, (w, r)) := f p data (dfu m) (usbfs_reboot_on_ack m) in
    Ret res (set_bridge w r m).

(** ** Setup dispatch table *)

(** [struct usb_setup_handler]: [idx] and [len] are 8 bits wide, which is
    where the [-1] of the table becomes the [0xFF] the scan tests for. *)
Record usb_setup_handler : Type := {
  req : Z;
  idx : Z;
  len : Z;
  fn : handler
}.

Definition usbfs_setup_handlers : list usb_setup_handler :=
  [ {| req := 0x0080; idx := u8 0; len := u8 (-1); fn := usbfs_handle_get_status_device |};
    {| req := 0x0500; idx := u8 0; len := u8 0; fn := usbfs_handle_set_address |};
    {| req := 0x0680; idx := u8 (-1); len := u8 (-1); fn := usbfs_handle_get_descriptor |};
    {| req := 0x0880; idx := u8 0; len := u8 (-1); fn := usbfs_handle_get_configuration |};
    {| req := 0x0900; idx := u8 0; len := u8 0; fn := usbfs_handle_set_configuration |};
    {| req := 0x0102; idx := u8 0; len := u8 0; fn := usbfs_handle_clear_feature_endpoint |};
    {| req := 0x0b01; idx := u8 DFU_INTERFACE; len := u8 0; fn := usbfs_handle_set_interface0 |};
    {| req := 0x0021; idx := u8 DFU_INTERFACE; len := u8 0; fn := bridge dfu_detach |};
    {| req := 0x0121; idx := u8 DFU_INTERFACE; len := u8 (-1); fn := bridge dfu_dnload |};
    {| req := 0x02a1; idx := u8 DFU_INTERFACE; len := u8 (-1); fn := bridge dfu_upload |};
    {| req := 0x03a1; idx := u8 DFU_INTERFACE; len := u8 (-1); fn := bridge dfu_getstatus |};
    {| req := 0x0421; idx := u8 DFU_INTERFACE; len := u8 0; fn := bridge dfu_clrstatus |};
    {| req := 0x05a1; idx := u8 DFU_INTERFACE; len := u8 (-1); fn := bridge dfu_getstate |};
    {| req := 0x0621; idx := u8 DFU_INTERFACE; len := u8 0; fn := bridge dfu_abort |} ].

(** The loop of [usbfs_setup_handler_run] over the rules from [h] to the
    end of the array, and what follows the loop. *)
Fixpoint setup_handler_scan (hs : list usb_setup_handler)
  (p : usb_setup_packet) (data : list Z) : M (Z * list Z) :=
  let i := u8 (wIndex p) in
  match hs with
  | [] => ret (-1, data)
  | h :: hs' =>
      if (req h =? request p) && ((idx h =? 0xFF) || (idx h =? i)) then
        if negb (len h =? 0xFF) && negb (len h =? wLength p)
        then ret (-1, data)
        else fn h p data
      else setup_handler_scan hs' p data
  end.

Definition usbfs_setup_handler_run : handler :=
  setup_handler_scan usbfs_setup_handlers.

(** ** Setup stage *)

Definition flag_set (flags mask : Z) : bool := negb (Z.land flags mask =? 0).

(** [ARRAY_SIZE(usbfs_outbuf.data)] *)
Definition outbuf_data_size : Z := DFU_TRANSFERSIZE.

(** The end of [usbfs_handle_setup], reached by every path that does not
    return earlier. *)
Definition usbfs_handle_setup_stall : M unit :=
  usbfs_ep0in_stall ;;
  usbfs_ep0out_prepare_setup.

Definition usbfs_handle_setup : M unit :=
  p <- get_setup ;;
  set_bytes 0 ;;
  if flag_set (bmRequestType p) 0x80 then
    '(r, data) <- usbfs_setup_handler_run p [] ;;
    if r >=? 0 then
      let r := if r >? wLength p then wLength p else r in
      set_ep0in data ;;
      set_bytes r ;;
      usbfs_ep0in_transfer ;;
      usbfs_ep0out_prepare_out
    else usbfs_handle_setup_stall
  else if wLength p =? 0 then
    '(r, _) <- usbfs_setup_handler_run p [] ;;
    if r =? 0 then
      usbfs_ep0in_transfer_empty ;;
      usbfs_ep0out_prepare_setup
    else usbfs_handle_setup_stall
  else if wLength p <=? outbuf_data_size then
    usbfs_ep0out_prepare_out ;;
    set_bytes (wLength p)
  else usbfs_handle_setup_stall.

(** ** EP0 events *)

Definition get_reboot_on_ack : M bool :=
  fun m => Ret (usbfs_reboot_on_ack m) m.

Definition usbfs_handle_ep0 : M unit :=
  oflags <- load (DOEP_INTF 0) ;;
  iflags <- load (DIEP_INTF 0) ;;
  store (DOEP_INTF 0) oflags ;;
  store (DIEP_INTF 0) iflags ;;
  if flag_set oflags USBFS_DOEPINTF_STPF then usbfs_handle_setup
  else
    s <- get_state ;;
    let n := bytes s in
    if n =? 0 then
      reboot <- get_reboot_on_ack ;;
      if reboot then
        store DBG_KEY DBG_KEY_UNLOCK ;;
        store DBG_CMD DBG_CMD_RESET ;;
        system_reset
      else ret tt
    else if flag_set iflags USBFS_DIEPINTF_TF then
      if n >? 64 then
        set_ep0in (skipn 64 (ep0in s)) ;;
        set_bytes (n - 64) ;;
        usbfs_ep0in_transfer
      else set_bytes 0
    else if flag_set oflags USBFS_DOEPINTF_TF then
      l <- load (DOEP_LEN 0) ;;
      let n := u32 (64 - Z.land l USBFS_DOEPLEN_TLEN_Msk) in
      s <- get_state ;;
      if bytes s >? n then
        set_bytes (bytes s - n) ;;
        usbfs_ep0out_prepare_out
      else
        data <- get_outbuf_data ;;
        set_bytes 0 ;;
        p <- get_setup ;;
        '(r, _) <- usbfs_setup_handler_run p data ;;
        (if r =? 0 then usbfs_ep0in_transfer_empty else usbfs_ep0in_stall) ;;
        usbfs_ep0out_prepare_setup
    else ret tt.

Definition usbfs_handle_endpoints : M unit :=
  flags <- load DAEPINT ;;
  if flag_set flags 0x10001 then usbfs_handle_ep0 else ret tt.

(** ** FIFO reader *)

Definition diverge {A : Type} : M A := fun m => Diverge m.

(** [for (; len > 8; len -= 4) (void)USBFS->DFIFO[0][0];] *)
Fixpoint drop_stale (fuel : nat) (n : Z) : M Z :=
  if n >? 8 then
    match fuel with
    | O => diverge
    | S fuel' => _ <- load DFIFO0 ;; drop_stale fuel' (n - 4)
    end
  else ret n.

(** [while (1) { *ep0out++ = DFIFO; if (len <= 4) break; len -= 4; }] *)
Fixpoint read_out (fuel : nat) (n : Z) : M unit :=
  match fuel with
  | O => diverge
  | S fuel' =>
      w <- load DFIFO0 ;;
      push_ep0out w ;;
      if n <=? 4 then ret tt else read_out fuel' (n - 4)
  end.

Definition usbfs_handle_rxdata : M unit :=
  grstat <- load GRSTATP ;;
  let ep := Z.land grstat USBFS_GRSTAT_EPNUM_Msk in
  if negb (ep =? 0) then ret tt
  else
    let n := Z.shiftr (Z.land grstat USBFS_GRSTAT_BCOUNT_Msk)
                      USBFS_GRSTAT_BCOUNT_Pos in
    if n =? 0 then ret tt
    else if Z.land grstat USBFS_GRSTAT_RPCKST_Msk =? USBFS_GRSTAT_RPCKST_STP then
      _ <- drop_stale (Z.to_nat n) n ;;
      set_ep0out outbuf_v ;;
      w <- load DFIFO0 ;;
      push_ep0out w ;;
      w <- load DFIFO0 ;;
      push_ep0out w
    else read_out (Z.to_nat n) n.

(** ** Connection life cycle *)

Definition usbfs_suspend : M unit := ret tt.

Definition usbfs_wakeup : M unit := ret tt.

(** [while ((USBFS->GRSTCTL & USBFS_GRSTCTL_TXFF)) /* wait */;] *)
Fixpoint wait_txff (fuel : nat) : M unit :=
  match fuel with
  | O => diverge
  | S fuel' =>
      v <- load GRSTCTL ;;
      if flag_set v USBFS_GRSTCTL_TXFF then wait_txff fuel' else ret tt
  end.

Definition get_flush_busy : M nat := fun m => Ret (flush_busy m) m.

(** [mtimer_udelay] only lets time pass. *)
Definition mtimer_udelay (us : Z) : M unit := ret tt.

Definition usbfs_txfifos_flush : M unit :=
  set_bits GRSTCTL (Z.lor (USBFS_GRSTCTL_TXFNUM 0x10) USBFS_GRSTCTL_TXFF) ;;
  busy <- get_flush_busy ;;
  wait_txff (S busy) ;;
  mtimer_udelay 3.

Fixpoint for_each (eps : list nat) (body : nat -> M unit) : M unit :=
  match eps with
  | [] => ret tt
  | i :: eps' => body i ;; for_each eps' body
  end.

Definition diepintf_all : Z :=
  Z.lor (Z.lor (Z.lor (Z.lor USBFS_DIEPINTF_IEPNE USBFS_DIEPINTF_EPTXFUD)
                      USBFS_DIEPINTF_CITO) USBFS_DIEPINTF_EPDIS)
        USBFS_DIEPINTF_TF.

Definition doepintf_all : Z :=
  Z.lor (Z.lor (Z.lor (Z.lor USBFS_DOEPINTF_BTBSTP USBFS_DOEPINTF_EPRXFOVR)
                      USBFS_DOEPINTF_STPF) USBFS_DOEPINTF_EPDIS)
        USBFS_DOEPINTF_TF.

Definition usbfs_ep_reset : M unit :=
  store (DIEP_CTL 0)
    (Z.lor (Z.lor USBFS_DIEPCTL_STALL USBFS_DIEPCTL_EPTYPE_CONTROL)
           USBFS_DIEP0CTL_MPL_64B) ;;
  store (DIEP_INTF 0) diepintf_all ;;
  for_each [1; 2; 3]%nat (fun i =>
    store (DIEP_CTL i) USBFS_DIEPCTL_SNAK ;;
    store (DIEP_INTF i) diepintf_all ;;
    store (DIEP_LEN i) 0) ;;
  store (DOEP_CTL 0)
    (Z.lor (Z.lor USBFS_DOEPCTL_STALL USBFS_DOEPCTL_EPTYPE_CONTROL)
           USBFS_DOEP0CTL_MPL_64B) ;;
  store (DOEP_INTF 0) doepintf_all ;;
  for_each [1; 2; 3]%nat (fun i =>
    store (DOEP_CTL i) USBFS_DOEPCTL_SNAK ;;
    store (DOEP_INTF i) doepintf_all ;;
    store (DOEP_LEN i) 0).

Definition usbfs_reset : M unit :=
  usbfs_txfifos_flush ;;
  usbfs_ep_reset ;;
  clear_bits DCFG USBFS_DCFG_DAR_Msk ;;
  store DAEPINTEN (Z.lor (USBFS_DAEPINTEN_OEPIE 1) (USBFS_DAEPINTEN_IEPIE 1)) ;;
  store DOEPINTEN (Z.lor USBFS_DOEPINTEN_STPFEN USBFS_DOEPINTEN_TFEN) ;;
  store DIEPINTEN USBFS_DIEPINTEN_TFEN ;;
  set_bytes 0.

Definition usbfs_enumdone : M unit :=
  set_bits DCTL USBFS_DCTL_CGINAK ;;
  v <- load DSTAT ;;
  if Z.land v USBFS_DSTAT_ES_Msk =? USBFS_DSTAT_ES_FULL
  then usbfs_ep0out_prepare_setup
  else ret tt.

(** ** Interrupt entry point *)

(** [while ((flags & USBFS_GINTF_RXFNEIF)) { usbfs_handle_rxdata();
    flags = USBFS->GINTF; }], returning the flags it ends with. *)
Fixpoint drain_rx (fuel : nat) (flags : Z) : M Z :=
  if flag_set flags USBFS_GINTF_RXFNEIF then
    match fuel with
    | O => diverge
    | S fuel' =>
        usbfs_handle_rxdata ;;
        flags' <- load GINTF ;;
        drain_rx fuel' flags'
    end
  else ret flags.

Definition get_pending : M nat := fun m => Ret (List.length (rxfifo m)) m.

(** [USBFS_IRQHandler] after the endpoint events: suspend, wake-up, bus
    reset and the end of enumeration, [flags] being the flags the receive
    loop has read last. *)
Definition usbfs_irq_lifecycle (flags : Z) : M unit :=
  if flag_set flags USBFS_GINTF_SP then
    usbfs_suspend ;;
    store GINTF USBFS_GINTF_SP
  else
    (if flag_set flags USBFS_GINTF_WKUPIF then
       usbfs_wakeup ;;
       store GINTF USBFS_GINTF_WKUPIF
     else ret tt) ;;
    (if flag_set flags USBFS_GINTF_RST then
       usbfs_reset ;;
       store GINTF USBFS_GINTF_RST
     else ret tt) ;;
    (if flag_set flags USBFS_GINTF_ENUMF then
       usbfs_enumdone ;;
       store GINTF USBFS_GINTF_ENUMF
     else ret tt).

(** [USBFS_IRQHandler] from the end of the receive loop on. *)
Definition usbfs_irq_events (flags : Z) : M unit :=
  (if flag_set flags (Z.lor USBFS_GINTF_OEPIF USBFS_GINTF_IEPIF)
   then usbfs_handle_endpoints else ret tt) ;;
  usbfs_irq_lifecycle flags.

Definition USBFS_IRQHandler : M unit :=
  pending <- get_pending ;;
  flags <- load GINTF ;;
  flags <- drain_rx pending flags ;;
  usbfs_irq_events flags.

End Driver.

Arguments Ret {B A} a m.
Arguments SystemReset {B A} m.
Arguments Diverge {B A} m.
Arguments OutOfBounds {B A} m.

(** ** Hardware events

    What the controller does between two runs of the interrupt handler. *)

Section Events.

Context {R : RegisterMap} {B : DfuBridge}.

(** The packet armed on the IN endpoint 0 has gone out. *)
Definition hw_in_complete (m : machine) : machine :=
  set_regs (upd (DIEP_INTF 0) USBFS_DIEPINTF_TF
           (upd (DOEP_INTF 0) 0 (regs m))) m.

(** An OUT packet has been received on endpoint 0 and taken out of the
    FIFO; [residual] is what is left of the armed transfer length. *)
Definition hw_out_complete (residual : Z) (m : machine) : machine :=
  set_regs (upd (DOEP_INTF 0) USBFS_DOEPINTF_TF
           (upd (DIEP_INTF 0) 0
           (upd (DOEP_LEN 0) residual (regs m)))) m.

(** A received packet enters the receive FIFO. *)
Definition hw_receive (status : Z) (ws : list Z) (m : machine) : machine :=
  set_rx (rxfifo m ++ [(status, ws)]) (rxwords m) m.

(** The setup stage is over: endpoint 0 raises its SETUP flag. *)
Definition hw_setup_complete (m : machine) : machine :=
  set_regs (upd (DOEP_INTF 0) USBFS_DOEPINTF_STPF
           (upd (DIEP_INTF 0) 0
           (upd DAEPINT 0x10000
           (upd GINTF USBFS_GINTF_OEPIF (regs m))))) m.

(** [k] rounds of: the armed IN packet goes out, the driver handles the
    endpoint event. *)
Fixpoint in_stage (k : nat) (m : machine) : outcome unit :=
  match k with
  | O => Ret tt m
  | S k' =>
      match usbfs_handle_ep0 (hw_in_complete m) with
      | Ret _ m' => in_stage k' m'
      | o => o
      end
  end.

(** The transfer lengths the driver has programmed for IN endpoint 0. *)
Fixpoint armed_in (evs : list event) : list Z :=
  match evs with
  | [] => []
  | Store (DIEP_LEN O) v :: evs' => v :: armed_in evs'
  | _ :: evs' => armed_in evs'
  end.

(** The packet sizes of an IN data stage of [n] bytes, counted down as
    the source does, [fuel] bounding the number of packets. *)
Fixpoint chunks (fuel : nat) (n : Z) : list Z :=
  match fuel with
  | O => []
  | S fuel' => if n >? 64 then 64 :: chunks fuel' (n - 64) else [n]
  end.

Definition in_packets (n : Z) : list Z := chunks (S (Z.to_nat (n / 64))) n.

(** The bytes of a setup packet as they lie in [usbfs_outbuf]. *)
Definition setup_bytes (p : usb_setup_packet) : list Z :=
  [bmRequestType p; bRequest p] ++ le16 (wValue p) ++ le16 (wIndex p) ++
  le16 (wLength p).

Definition with_setup (p : usb_setup_packet) (m : machine) : machine :=
  set_usbfs_outbuf (poke (usbfs_outbuf m) 0 (setup_bytes p)) m.

Definition with_bytes (n : Z) (m : machine) : machine :=
  set_usbfs_state {| ep0out := ep0out (usbfs_state m);
                     ep0in := ep0in (usbfs_state m);
                     bytes := n |} m.

(** The driver after start-up: nothing armed, nothing received. *)
Definition idle (w : dfu_world) : machine :=
  {| regs := fun _ => 0; rxfifo := []; rxwords := []; flush_busy := O;
     log := [];
     usbfs_state := {| ep0out := 0; ep0in := []; bytes := 0 |};
     usbfs_outbuf := repeat 0 (Z.to_nat (8 + DFU_TRANSFERSIZE));
     usbfs_status := 0; usbfs_reboot_on_ack := false; dfu := w |}.

End Events.

(** ** A concrete platform

    The bit positions of the GD32VF103 user manual, and a class bridge that
    counts how often it is called, to run the driver on concrete inputs. *)

Definition gd32vf103 : RegisterMap := {|
  USBFS_DIEPLEN_PCNT := fun x => Z.shiftl x 19;
  USBFS_DIEPCTL_EPEN := Z.shiftl 1 31;
  USBFS_DIEPCTL_CNAK := Z.shiftl 1 26;
  USBFS_DIEPCTL_SNAK := Z.shiftl 1 27;
  USBFS_DIEPCTL_STALL := Z.shiftl 1 21;
  USBFS_DIEPCTL_EPTYPE_CONTROL := Z.shiftl 0 18;
  USBFS_DIEP0CTL_MPL_64B := 0;
  USBFS_DIEPINTF_IEPNE := Z.shiftl 1 6;
  USBFS_DIEPINTF_EPTXFUD := Z.shiftl 1 4;
  USBFS_DIEPINTF_CITO := Z.shiftl 1 3;
  USBFS_DIEPINTF_EPDIS := Z.shiftl 1 1;
  USBFS_DIEPINTF_TF := Z.shiftl 1 0;
  USBFS_DOEPLEN_STPCNT := fun x => Z.shiftl x 29;
  USBFS_DOEPLEN_PCNT := fun x => Z.shiftl x 19;
  USBFS_DOEPLEN_TLEN := fun x => x;
  USBFS_DOEPLEN_TLEN_Msk := 0x7F;
  USBFS_DOEPCTL_EPEN := Z.shiftl 1 31;
  USBFS_DOEPCTL_CNAK := Z.shiftl 1 26;
  USBFS_DOEPCTL_SNAK := Z.shiftl 1 27;
  USBFS_DOEPCTL_STALL := Z.shiftl 1 21;
  USBFS_DOEPCTL_EPTYPE_CONTROL := Z.shiftl 0 18;
  USBFS_DOEP0CTL_MPL_64B := 0;
  USBFS_DOEPINTF_BTBSTP := Z.shiftl 1 6;
  USBFS_DOEPINTF_EPRXFOVR := Z.shiftl 1 4;
  USBFS_DOEPINTF_STPF := Z.shiftl 1 3;
  USBFS_DOEPINTF_EPDIS := Z.shiftl 1 1;
  USBFS_DOEPINTF_TF := Z.shiftl 1 0;
  USBFS_GRSTCTL_TXFNUM := fun x => Z.shiftl x 6;
  USBFS_GRSTCTL_TXFF := Z.shiftl 1 5;
  USBFS_DCFG_DAR_Msk := Z.shiftl 0x7F 4;
  USBFS_DCFG_DAR := fun x => Z.shiftl x 4;
  USBFS_DAEPINTEN_OEPIE := fun x => Z.shiftl x 16;
  USBFS_DAEPINTEN_IEPIE := fun x => x;
  USBFS_DOEPINTEN_STPFEN := Z.shiftl 1 3;
  USBFS_DOEPINTEN_TFEN := Z.shiftl 1 0;
  USBFS_DIEPINTEN_TFEN := Z.shiftl 1 0;
  USBFS_DCTL_CGINAK := Z.shiftl 1 8;
  USBFS_DSTAT_ES_Msk := Z.shiftl 3 1;
  USBFS_DSTAT_ES_FULL := Z.shiftl 3 1;
  USBFS_GINTF_RXFNEIF := Z.shiftl 1 4;
  USBFS_GINTF_OEPIF := Z.shiftl 1 19;
  USBFS_GINTF_IEPIF := Z.shiftl 1 18;
  USBFS_GINTF_SP := Z.shiftl 1 11;
  USBFS_GINTF_WKUPIF := Z.shiftl 1 31;
  USBFS_GINTF_RST := Z.shiftl 1 12;
  USBFS_GINTF_ENUMF := Z.shiftl 1 13;
  USBFS_GRSTAT_EPNUM_Msk := 0xF;
  USBFS_GRSTAT_BCOUNT_Msk := Z.shiftl 0x7FF 4;
  USBFS_GRSTAT_BCOUNT_Pos := 4;
  USBFS_GRSTAT_RPCKST_Msk := Z.shiftl 0xF 17;
  USBFS_GRSTAT_RPCKST_STP := Z.shiftl 6 17;
  DBG_KEY_UNLOCK := 0x4B5A6978;
  DBG_CMD_RESET := 1
|}.

(** A bridge handler that succeeds without data and counts the call. *)
Definition counting_ok : dfu_handler nat :=
  fun p data calls reboot => ((0, data), (S calls, reboot)).

(** DFU_UPLOAD of the counting bridge: a block of as many bytes as the host
    asks for. *)
Definition counting_upload : dfu_handler nat :=
  fun p data calls reboot =>
    ((wLength p, repeat 0xA5 (Z.to_nat (wLength p))), (S calls, reboot)).

(** DFU_DETACH of the counting bridge asks for the reboot. *)
Definition counting_detach : dfu_handler nat :=
  fun p data calls reboot => ((0, data), (S calls, true)).

Definition counting_bridge : DfuBridge := {|
  dfu_world := nat;
  DFU_INTERFACE := 0;
  DFU_TRANSFERSIZE := 1024;
  dfu_detach := counting_detach;
  dfu_dnload := counting_ok;
  dfu_upload := counting_upload;
  dfu_getstatus := counting_ok;
  dfu_clrstatus := counting_ok;
  dfu_getstate := counting_ok;
  dfu_abort := counting_ok
|}.

Definition test_idle : @machine counting_bridge := @idle counting_bridge O.

(** ** Views of the dispatch *)

Section Dispatch.

Context {R : RegisterMap} {B : DfuBridge}.

(** The test of [usbfs_setup_handler_run] on the request code and the
    interface index of one rule. *)
Definition code_index_match (h : usb_setup_handler) (p : usb_setup_packet) : bool :=
  (req h =? request p) && ((idx h =? 0xFF) || (idx h =? u8 (wIndex p))).

(** The rule whose handler the scan of the source calls, if any. *)
Fixpoint resolve (hs : list usb_setup_handler) (p : usb_setup_packet)
  : option usb_setup_handler :=
  match hs with
  | [] => None
  | h :: hs' =>
      if code_index_match h p then
        if negb (len h =? 0xFF) && negb (len h =? wLength p) then None
        else Some h
      else resolve hs' p
  end.


End Dispatch.


(** SET_ADDRESS to 7 with a high byte in [wIndex]. *)
Definition set_address_high_index : usb_setup_packet :=
  {| bmRequestType := 0x00; bRequest := 0x05; wValue := 7; wIndex := 0x0100;
     wLength := 0 |}.

(** ** Views of the transfer engine *)

(** The words [usbfs_ep0in_transfer] writes to the transmit FIFO for the
    bytes of one packet. *)
Fixpoint pack_words (bs : list Z) : list Z :=
  match bs with
  | [] => []
  | [b0] => [b0]
  | [b0; b1] => [Z.lor b0 (Z.shiftl b1 8)]
  | [b0; b1; b2] => [Z.lor (Z.lor b0 (Z.shiftl b1 8)) (Z.shiftl b2 16)]
  | b0 :: b1 :: b2 :: b3 :: rest =>
      Z.lor (Z.lor (Z.lor b0 (Z.shiftl b1 8)) (Z.shiftl b2 16)) (Z.shiftl b3 24)
      :: pack_words rest
  end.

Section Frames.

Context {R : RegisterMap} {B : DfuBridge}.

(** What a handler called through the table leaves alone: the driver's
    transfer state and buffer, the receive FIFO, and every register but
    the device address. *)
Definition handler_frame (m m1 : machine) : Prop :=
  usbfs_state m1 = usbfs_state m /\
  usbfs_outbuf m1 = usbfs_outbuf m /\
  usbfs_status m1 = usbfs_status m /\
  rxfifo m1 = rxfifo m /\
  rxwords m1 = rxwords m /\
  flush_busy m1 = flush_busy m /\
  (forall r, r <> DCFG -> regs m1 r = regs m r) /\
  armed_in (log m1) = armed_in (log m).

Definition handler_ok (f : handler) : Prop :=
  forall p data m, exists r d m1,
    f p data m = Ret (r, d) m1 /\ handler_frame m m1.

(** The events of [usbfs_ep0in_stall], [usbfs_ep0out_prepare_setup],
    [usbfs_ep0out_prepare_out] and of arming an IN packet of [n] bytes read
    from [p], on a machine whose registers are [f]. *)
Definition stall_events (f : reg -> Z) : list event :=
  [Load (DIEP_CTL 0) (f (DIEP_CTL 0));
   Store (DIEP_CTL 0) (Z.lor (f (DIEP_CTL 0)) USBFS_DIEPCTL_STALL)].

Definition prepare_setup_events (f : reg -> Z) : list event :=
  [Store (DOEP_LEN 0)
     (Z.lor (Z.lor (USBFS_DOEPLEN_STPCNT 3) (USBFS_DOEPLEN_PCNT 0))
            (USBFS_DOEPLEN_TLEN 0));
   Load (DOEP_CTL 0) (f (DOEP_CTL 0));
   Store (DOEP_CTL 0)
     (Z.lor (f (DOEP_CTL 0)) (Z.lor USBFS_DOEPCTL_EPEN USBFS_DOEPCTL_STALL))].

Definition prepare_out_events (f : reg -> Z) : list event :=
  [Store (DOEP_LEN 0)
     (Z.lor (Z.lor (USBFS_DOEPLEN_STPCNT 3) (USBFS_DOEPLEN_PCNT 1))
            (USBFS_DOEPLEN_TLEN 64));
   Load (DOEP_CTL 0) (f (DOEP_CTL 0));
   Store (DOEP_CTL 0)
     (Z.lor (f (DOEP_CTL 0)) (Z.lor USBFS_DOEPCTL_EPEN USBFS_DOEPCTL_CNAK))].

Definition in_packet_events (f : reg -> Z) (n : Z) (p : list Z) : list event :=
  [Store (DIEP_LEN 0) (Z.lor (USBFS_DIEPLEN_PCNT 1) n);
   Load (DIEP_CTL 0) (f (DIEP_CTL 0));
   Store (DIEP_CTL 0)
     (Z.lor (f (DIEP_CTL 0)) (Z.lor USBFS_DIEPCTL_EPEN USBFS_DIEPCTL_CNAK))] ++
  map (Store DFIFO0) (pack_words (read_bytes (Z.to_nat n) p)).

(** The events with which [usbfs_handle_ep0] reads and acknowledges the
    flags of endpoint 0. *)
Definition ack_events (f : reg -> Z) : list event :=
  [Load (DOEP_INTF 0) (f (DOEP_INTF 0));
   Load (DIEP_INTF 0) (f (DIEP_INTF 0));
   Store (DOEP_INTF 0) (f (DOEP_INTF 0));
   Store (DIEP_INTF 0) (f (DIEP_INTF 0))].

(** The accesses of the receive loop: the interrupt flags, the status pop
    and the FIFO data port, all of them reads. *)
Definition is_rx_access (e : event) : bool :=
  match e with
  | Load GINTF _ | Load GRSTATP _ | Load DFIFO0 _ => true
  | _ => false
  end.

(** How many packets a sequence of accesses pops from the receive FIFO. *)
Fixpoint pops (evs : list event) : nat :=
  match evs with
  | [] => O
  | Load GRSTATP _ :: evs' => S (pops evs')
  | _ :: evs' => pops evs'
  end.

(** What the receive path leaves alone. *)
Definition rx_frame (m m' : machine) : Prop :=
  regs m' = regs m /\
  flush_busy m' = flush_busy m /\
  bytes (usbfs_state m') = bytes (usbfs_state m) /\
  ep0in (usbfs_state m') = ep0in (usbfs_state m) /\
  usbfs_status m' = usbfs_status m /\
  usbfs_reboot_on_ack m' = usbfs_reboot_on_ack m /\
  dfu m' = dfu m.

(** A stretch of the receive path that pops no packet: it only reads the
    FIFO data port, and stores what it reads through [ep0out]. *)
Definition rx_quiet (m m' : machine) : Prop :=
  rx_frame m m' /\
  rxfifo m' = rxfifo m /\
  exists evs,
    log m' = log m ++ evs /\
    forallb is_rx_access evs = true /\
    pops evs = O.

(** A stretch of the receive path up to a store that leaves the buffer:
    the registers it has accessed are those of the receive path, all of
    them read. *)
Definition rx_only (m m' : machine) : Prop :=
  exists evs,
    log m' = log m ++ evs /\
    forallb is_rx_access evs = true.

(** A stretch of the receive path that pops no packet returns, or leaves
    the buffer with a store through [ep0out]. *)
Definition quiet_or_out {A : Type} (m : machine) (o : outcome A) : Prop :=
  match o with
  | Ret _ m' => rx_quiet m m'
  | OutOfBounds m' => rx_only m m'
  | _ => False
  end.

(** A function of the driver returns, with [P] of the machine it leaves. *)
Definition returns {A : Type} (c : M A) (P : machine -> Prop) : Prop :=
  forall m, exists a m', c m = Ret a m' /\ P m'.

(** An oversized OUT data stage leaves the transfer state and the receive
    buffer as they were. *)
Definition oversized_leaves_state_unwritten : Prop :=
  forall m,
    flag_set (bmRequestType (setup_of (usbfs_outbuf m))) 0x80 = false ->
    0 < wLength (setup_of (usbfs_outbuf m)) ->
    DFU_TRANSFERSIZE < wLength (setup_of (usbfs_outbuf m)) ->
    exists m',
      usbfs_handle_setup m = Ret tt m' /\
      usbfs_state m' = usbfs_state m /\
      usbfs_outbuf m' = usbfs_outbuf m.

(** The machine after [usbfs_handle_ep0] has read and acknowledged the
    endpoint flags. *)
Definition ep0_acked (m : machine) : machine :=
  set_log (log m ++ ack_events (regs m))
    (set_regs
       (upd (DIEP_INTF 0)
          (Z.land (regs m (DIEP_INTF 0)) (Z.lnot (regs m (DIEP_INTF 0))))
          (upd (DOEP_INTF 0)
             (Z.land (regs m (DOEP_INTF 0)) (Z.lnot (regs m (DOEP_INTF 0))))
             (regs m))) m).

(** The machine on which the dispatch runs when an OUT data stage is
    complete: flags acknowledged, [DOEP[0].LEN] read, remaining count
    zero. *)
Definition out_completion_state (m : machine) : machine :=
  with_bytes 0
    (set_log (log (ep0_acked m) ++ [Load (DOEP_LEN 0) (regs m (DOEP_LEN 0))])
       (ep0_acked m)).

(** The bytes the controller reports for a completed OUT packet. *)
Definition out_received (m : machine) : Z :=
  u32 (64 - Z.land (regs m (DOEP_LEN 0)) USBFS_DOEPLEN_TLEN_Msk).

(** The setup stage followed by [k] completed IN packets. *)
Definition in_data_stage (k : nat) (m : machine) : outcome unit :=
  match usbfs_handle_setup m with
  | Ret _ m0 => in_stage k m0
  | o => o
  end.

Definition final {A : Type} (o : outcome A) : machine :=
  match o with
  | Ret _ m => m
  | SystemReset m => m
  | Diverge m => m
  | OutOfBounds m => m
  end.

(** An IN data stage of a non-zero multiple of 64 bytes ends with a
    zero-length packet. *)
Definition in_stage_ends_with_zlp : Prop :=
  forall (m : machine) r d m1,
    flag_set (bmRequestType (setup_of (usbfs_outbuf m))) 0x80 = true ->
    usbfs_setup_handler_run (setup_of (usbfs_outbuf m)) [] (with_bytes 0 m) =
      Ret (r, d) m1 ->
    0 <= r ->
    0 < Z.min r (wLength (setup_of (usbfs_outbuf m))) ->
    Z.min r (wLength (setup_of (usbfs_outbuf m))) mod 64 = 0 ->
    exists k m',
      in_data_stage k m = Ret tt m' /\
      last (armed_in (log m')) (-1) = Z.lor (USBFS_DIEPLEN_PCNT 1) 0.

(** The handler of an OUT data stage is called a first time when the setup
    packet is handled: the class bridge is left as that call leaves it. *)
Definition setup_calls_out_handler : Prop :=
  forall m : machine,
    flag_set (bmRequestType (setup_of (usbfs_outbuf m))) 0x80 = false ->
    0 < wLength (setup_of (usbfs_outbuf m)) ->
    wLength (setup_of (usbfs_outbuf m)) <= DFU_TRANSFERSIZE ->
    exists r d m1 m',
      usbfs_setup_handler_run (setup_of (usbfs_outbuf m)) [] (with_bytes 0 m) =
        Ret (r, d) m1 /\
      usbfs_handle_setup m = Ret tt m' /\
      dfu m' = dfu m1.

End Frames.

(** GET_DESCRIPTOR(device) with [wLength] 64. *)
Definition get_descriptor_device_64 : usb_setup_packet :=
  {| bmRequestType := 0x80; bRequest := 0x06; wValue := 0x0100;
     wIndex := 0x0000; wLength := 64 |}.

(** GET_DESCRIPTOR(configuration) with [wLength] 255. *)
Definition get_descriptor_configuration_255 : usb_setup_packet :=
  {| bmRequestType := 0x80; bRequest := 0x06; wValue := 0x0200;
     wIndex := 0x0000; wLength := 255 |}.

(** DFU_DNLOAD announcing [n] bytes, DFU_UPLOAD asking for [n] bytes,
    DFU_DETACH. *)
Definition dfu_dnload_packet (n : Z) : usb_setup_packet :=
  {| bmRequestType := 0x21; bRequest := 0x01; wValue := 0; wIndex := 0;
     wLength := n |}.

Definition dfu_upload_packet (n : Z) : usb_setup_packet :=
  {| bmRequestType := 0xa1; bRequest := 0x02; wValue := 0; wIndex := 0;
     wLength := n |}.

Definition dfu_detach_packet : usb_setup_packet :=
  {| bmRequestType := 0x21; bRequest := 0x00; wValue := 0; wIndex := 0;
     wLength := 0 |}.

Arguments set_log {B} l m /.
Arguments set_regs {B} f m /.
Arguments set_rx {B} q ws m /.
Arguments set_flush_busy {B} n m /.
Arguments set_usbfs_state {B} s m /.
Arguments set_usbfs_outbuf {B} b m /.
Arguments set_bridge {B} w r m /.
Arguments setup_of mem : simpl never.
Arguments usbfs_setup_handler_run {R B} p data m : simpl never.
Arguments usbfs_ep0in_transfer {R B} m : simpl never.
Arguments u32 x : simpl never.

(** ** Concrete machines *)

(** Status words of the receive FIFO for endpoint 0: a SETUP packet and
    an OUT data packet of [n] bytes. *)
Definition setup_status (n : Z) : Z := Z.lor (Z.shiftl n 4) (Z.shiftl 6 17).
Definition out_status (n : Z) : Z := Z.lor (Z.shiftl n 4) (Z.shiftl 2 17).

Definition test_upload (n : Z) : machine (B := counting_bridge) :=
  with_setup (dfu_upload_packet n) test_idle.

Definition test_dnload (n : Z) : machine (B := counting_bridge) :=
  with_setup (dfu_dnload_packet n) test_idle.

(** An OUT data stage of 100 bytes under way when a DFU_DNLOAD of 2000
    bytes arrives. *)
Definition test_oversized_mid_transfer : machine (B := counting_bridge) :=
  with_bytes 100 (test_dnload 2000).

(** The bridge has asked for the reboot and the status stage is over. *)
Definition test_reboot_pending : machine (B := counting_bridge) :=
  hw_in_complete (R := gd32vf103) (set_bridge (B := counting_bridge) 1%nat true test_idle).

(** Two SETUP packets back to back in one FIFO entry of 16 bytes. *)
Definition test_stale_setup : machine (B := counting_bridge) :=
  hw_receive (setup_status 16) [0x11111111; 0x22222222; 0x01000680; 0x00400000]
    test_idle.

(** A SETUP packet and an OUT packet for endpoint 1 waiting. *)
Definition test_two_waiting : machine (B := counting_bridge) :=
  hw_receive (Z.lor (out_status 4) 1) [0xdeadbeef]
    (hw_receive (setup_status 8) [0x01000680; 0x00400000] test_idle).

(** A DFU_DNLOAD of 100 bytes seen from the interrupt entry point: the
    setup packet, an OUT packet of 64 bytes and one of 36 bytes, each
    taken from the FIFO and followed by its endpoint event. *)
Definition example_dnload : outcome (B := counting_bridge) unit :=
  match USBFS_IRQHandler (R := gd32vf103)
          (hw_setup_complete (R := gd32vf103)
             (hw_receive (setup_status 8) [0x00000121; 0x00640000] test_idle)) with
  | Ret _ m1 =>
      match USBFS_IRQHandler (R := gd32vf103)
              (hw_out_complete (R := gd32vf103) 0
                 (hw_receive (out_status 64) (repeat 0x04030201 16) m1)) with
      | Ret _ m2 =>
          USBFS_IRQHandler (R := gd32vf103)
            (hw_out_complete (R := gd32vf103) 28
               (hw_receive (out_status 36) (repeat 0x08070605 9) m2))
      | o => o
      end
  | o => o
  end.

(** ** Views of a run used by the further properties *)

(** The words written to the transmit FIFO, in program order. *)
Fixpoint fifo_words (evs : list event) : list Z :=
  match evs with
  | [] => []
  | Store DFIFO0 w :: evs' => w :: fifo_words evs'
  | _ :: evs' => fifo_words evs'
  end.

(** The value of an [unsigned char]. *)
Definition is_byte (b : Z) : Prop := 0 <= b < 256.

(** A standard request: bits 5 and 6 of [bmRequestType] are zero. *)
Definition standard_request (p : usb_setup_packet) : Prop :=
  Z.land (bmRequestType p) 0x60 = 0.

(** The descriptor type and index [usbfs_handle_get_descriptor] takes from
    [wValue]. *)
Definition descriptor_type (p : usb_setup_packet) : Z :=
  u8 (Z.shiftr (wValue p) 8).
Definition descriptor_index (p : usb_setup_packet) : Z :=
  u8 (Z.land (wValue p) 0xFF).

(** The words [ws], read as little-endian bytes, are the first [n] bytes of
    [p], padded to a whole number of words. *)
Definition carries (n : Z) (p ws : list Z) : Prop :=
  Z.of_nat (List.length ws) = (n + 3) / 4 /\
  firstn (Z.to_nat n) (flat_map le32 ws) = firstn (Z.to_nat n) p.

Section Stages.

Context {R : RegisterMap} {B : DfuBridge}.

(** The bytes [usbfs_handle_ep0] takes a completed OUT packet to have had,
    from what the controller has left of the armed transfer length. *)
Definition out_packet_bytes (residual : Z) : Z :=
  u32 (64 - Z.land residual USBFS_DOEPLEN_TLEN_Msk).

(** One round per element of [residuals]: an OUT packet completes, leaving
    the residual length, and the driver handles the endpoint event. *)
Fixpoint out_stage (residuals : list Z) (m : machine) : outcome unit :=
  match residuals with
  | [] => Ret tt m
  | r :: rs =>
      match usbfs_handle_ep0 (hw_out_complete r m) with
      | Ret _ m' => out_stage rs m'
      | o => o
      end
  end.

End Stages.

(** What a function that only accesses registers leaves alone. *)
Definition only_registers {B : DfuBridge} (m m' : machine) : Prop :=
  usbfs_state m' = usbfs_state m /\
  usbfs_outbuf m' = usbfs_outbuf m /\
  usbfs_status m' = usbfs_status m /\
  usbfs_reboot_on_ack m' = usbfs_reboot_on_ack m /\
  dfu m' = dfu m /\
  rxfifo m' = rxfifo m /\
  rxwords m' = rxwords m.

(** ** FIFO memory

    [usbfs_allocate_buffers] only writes the five registers that divide
    the FIFO memory; it is embedded as the list of its stores, in program
    order, on the 32-bit values of the source. *)

Inductive fifo_reg : Type :=
| GRFLEN | DIEP0TFLEN | DIEP1TFLEN | DIEP2TFLEN | DIEP3TFLEN.

Definition usbfs_allocate_buffers (rx tx0 tx1 tx2 tx3 : Z)
  : list (fifo_reg * Z) :=
  let rx := Z.shiftr (u32 (rx + 3)) 2 in
  let tx0 := Z.shiftr (u32 (tx0 + 3)) 2 in
  let tx1 := Z.shiftr (u32 (tx1 + 3)) 2 in
  let tx2 := Z.shiftr (u32 (tx2 + 3)) 2 in
  let tx3 := Z.shiftr (u32 (tx3 + 3)) 2 in
  [ (GRFLEN, rx);
    (DIEP0TFLEN, Z.lor (u32 (Z.shiftl tx0 16)) rx);
    (DIEP1TFLEN, Z.lor (u32 (Z.shiftl tx1 16)) (u32 (rx + tx0)));
    (DIEP2TFLEN, Z.lor (u32 (Z.shiftl tx2 16)) (u32 (u32 (rx + tx0) + tx1)));
    (DIEP3TFLEN,
     Z.lor (u32 (Z.shiftl tx3 16)) (u32 (u32 (u32 (rx + tx0) + tx1) + tx2))) ].

(** The sizes [usbfs_init] passes to [usbfs_allocate_buffers]. *)
Definition USBFS_FIFO_RXSIZE : Z := 512.
Definition USBFS_FIFO_TX0SIZE : Z := 128.
Definition USBFS_FIFO_TX1SIZE : Z := 0.
Definition USBFS_FIFO_TX2SIZE : Z := 0.
Definition USBFS_FIFO_TX3SIZE : Z := 0.

(** The start address and the depth, in words, that a transmit FIFO
    register holds in its low and high half. *)
Definition fifo_start (v : Z) : Z := Z.land v 0xFFFF.
Definition fifo_depth (v : Z) : Z := Z.shiftr v 16.

(** GET_INTERFACE, which the table has no rule for. *)
Definition get_interface_packet : usb_setup_packet :=
  {| bmRequestType := 0x81; bRequest := 0x0a; wValue := 0; wIndex := 0;
     wLength := 1 |}.

(** The device descriptor about to be sent. *)
Definition test_send_device : machine (B := counting_bridge) :=
  set_usbfs_state
    {| ep0out := 0;
       ep0in := usbfs_descriptor_device;
       bytes := 18 |} test_idle.

(** An OUT packet of six bytes for endpoint 0, and an OUT packet for
    endpoint 1, waiting in the receive FIFO. *)
Definition test_out_packet : machine (B := counting_bridge) :=
  hw_receive (out_status 6) [0x04030201; 0x00000605] test_idle.

Definition test_foreign_packet : machine (B := counting_bridge) :=
  hw_receive (Z.lor (out_status 4) 1) [0xdeadbeef] test_idle.

(** GET_DESCRIPTOR for a device qualifier, which the device does not have,
    and GET_DESCRIPTOR(device) asking for no bytes. *)
Definition get_descriptor_qualifier : usb_setup_packet :=
  {| bmRequestType := 0x80; bRequest := 0x06; wValue := 0x0600;
     wIndex := 0x0000; wLength := 10 |}.

Definition get_descriptor_device_0 : usb_setup_packet :=
  {| bmRequestType := 0x80; bRequest := 0x06; wValue := 0x0100;
     wIndex := 0x0000; wLength := 0 |}.


(** * Properties *)

Section DispatchProperties.

Context {R : RegisterMap} {B : DfuBridge}.

Lemma scan_resolve (hs : list usb_setup_handler) p data :
  setup_handler_scan hs p data =
  match resolve hs p with
  | Some h => fn h p data
  | None => ret (-1, data)
  end.
Proof.
  induction hs as [|h hs IH]; simpl; [reflexivity|].
  unfold code_index_match.
  destruct ((req h =? request p) && ((idx h =? 255) || (idx h =? u8 (wIndex p)))).
  - destruct (negb (len h =? 255) && negb (len h =? wLength p)); reflexivity.
  - exact IH.
Qed.

Lemma resolve_skip (pre : list usb_setup_handler) hs p :
  (forall h, In h pre -> code_index_match h p = false) ->
  resolve (pre ++ hs) p = resolve hs p.
Proof.
  induction pre as [|h pre IH]; simpl; intros Hpre; [reflexivity|].
  rewrite (Hpre h (or_introl eq_refl)).
  apply IH. intros h' Hin. apply Hpre. now right.
Qed.








(** C10: the interface index of a rule is compared with the low byte of
    [wIndex] only.  A packet whose [wIndex] is congruent to the index of a
    rule modulo 256 passes the index test of that rule, and two packets
    that differ in the high byte of [wIndex] only resolve to the same
    rule of any table.  SET_ADDRESS with [wIndex] 0x0100 is dispatched to
    its handler by the table of the source, whose rule asks for index 0. *)
Theorem index_test_low_byte :
  (forall (h : usb_setup_handler) p,
      wIndex p mod 256 = idx h ->
      (idx h =? 0xFF) || (idx h =? u8 (wIndex p)) = true) /\
  (forall (h : usb_setup_handler) hs p data,
      req h = request p ->
      wIndex p mod 256 = idx h ->
      len h = 0xFF \/ len h = wLength p ->
      setup_handler_scan (h :: hs) p data = fn h p data) /\
  (forall (hs : list usb_setup_handler) p q,
      request q = request p -> wLength q = wLength p ->
      wIndex q mod 256 = wIndex p mod 256 ->
      resolve hs q = resolve hs p) /\
  (forall data,
      usbfs_setup_handler_run set_address_high_index data =
      usbfs_handle_set_address set_address_high_index data).
Proof.
  split; [|split; [|split]]; [| | |reflexivity].
  - intros h p Hidx. unfold u8. change (2 ^ 8) with 256.
    rewrite Hidx, Z.eqb_refl. apply orb_true_r.
  - intros h hs p data Hreq Hidx Hlen. simpl.
    unfold u8. change (2 ^ 8) with 256.
    rewrite Hreq, Hidx, !Z.eqb_refl, orb_true_r. simpl.
    destruct Hlen as [Hl|Hl]; rewrite Hl, Z.eqb_refl; simpl.
    + reflexivity.
    + now rewrite andb_false_r.
  - intros hs p q Hreq Hlen Hidx.
    induction hs as [|h hs IH]; simpl; [reflexivity|].
    unfold code_index_match, u8. change (2 ^ 8) with 256.
    now rewrite Hreq, Hlen, Hidx, IH.
Qed.

End DispatchProperties.


Lemma index_test_low_byte_witness :
  setup_handler_scan (B := counting_bridge)
    ({| req := 0x0500; idx := u8 0; len := u8 0;
        fn := usbfs_handle_set_address (R := gd32vf103) |} :: [])
    set_address_high_index [] =
  usbfs_handle_set_address (R := gd32vf103) set_address_high_index [].
Proof.
  apply (proj1 (proj2 (index_test_low_byte (R := gd32vf103) (B := counting_bridge)))
           {| req := 0x0500; idx := u8 0; len := u8 0;
              fn := usbfs_handle_set_address (R := gd32vf103) |}).
  - reflexivity.
  - reflexivity.
  - right. reflexivity.
Defined.

Section EngineProperties.

Context {R : RegisterMap} {B : DfuBridge}.

Ltac run_driver :=
  unfold usbfs_handle_setup, usbfs_handle_setup_stall, usbfs_handle_ep0,
    usbfs_ep0in_transfer_empty, usbfs_ep0in_stall,
    usbfs_ep0out_prepare_setup, usbfs_ep0out_prepare_out,
    set_bits, clear_bits, set_bytes, set_ep0in, set_ep0out, put_state,
    get_state, get_setup, get_outbuf_data, get_reboot_on_ack, system_reset,
    bind, ret, load, store;
  cbn.

Lemma armed_in_app (a b : list event) :
  armed_in (a ++ b) = armed_in a ++ armed_in b.
Proof.
  induction a as [|e a IH]; simpl; [reflexivity|].
  destruct e as [r v|r v]; [exact IH|].
  destruct r; try exact IH.
  destruct i; [|exact IH].
  simpl. now rewrite IH.
Qed.

Lemma armed_in_fifo (ws : list Z) : armed_in (map (Store DFIFO0) ws) = [].
Proof. induction ws; simpl; auto. Qed.

Lemma push_fifo_log (bs : list Z) (m : machine) :
  push_fifo bs m = Ret tt (set_log (log m ++ map (Store DFIFO0) (pack_words bs)) m).
Proof.
  revert m.
  enough (H : forall n bs, (List.length bs <= n)%nat -> forall m,
             push_fifo bs m =
             Ret tt (set_log (log m ++ map (Store DFIFO0) (pack_words bs)) m))
    by (intros m; now apply (H (List.length bs))).
  induction n as [|n IH]; intros [|b0 [|b1 [|b2 [|b3 rest]]]] Hlen m;
    simpl in Hlen; try lia;
    try (unfold push_fifo, pack_words, store, ret; cbn;
         rewrite ?app_nil_r; destruct m; reflexivity).
  simpl push_fifo. unfold bind at 1. unfold store at 1.
  rewrite IH by lia. cbn. rewrite <- app_assoc. reflexivity.
Qed.

Lemma ep0in_transfer_run (m : machine) :
  let n := if bytes (usbfs_state m) >? 64 then 64 else bytes (usbfs_state m) in
  usbfs_ep0in_transfer m =
  Ret tt
    (set_log (log m ++ in_packet_events (regs m) n (ep0in (usbfs_state m)))
       (set_regs
          (upd (DIEP_CTL 0)
             (Z.lor (regs m (DIEP_CTL 0))
                    (Z.lor USBFS_DIEPCTL_EPEN USBFS_DIEPCTL_CNAK))
             (upd (DIEP_LEN 0) (Z.lor (USBFS_DIEPLEN_PCNT 1) n) (regs m))) m)).
Proof.
  intros n. unfold usbfs_ep0in_transfer, set_bits, get_state, bind, load, store.
  cbn. fold n. rewrite push_fifo_log. cbn.
  unfold in_packet_events. rewrite <- !app_assoc. reflexivity.
Qed.


Lemma handler_frame_refl (m : machine) : handler_frame m m.
Proof. unfold handler_frame; repeat split; auto. Qed.

Lemma bridge_ok (f : dfu_handler dfu_world) : handler_ok (bridge f).
Proof.
  intros p data m. unfold bridge.
  destruct (f p data (dfu m) (usbfs_reboot_on_ack m)) as [[r d] [w rb]].
  exists r, d, (set_bridge w rb m). split; [reflexivity|].
  unfold handler_frame; cbn; repeat split; auto.
Qed.

Lemma pure_handler_ok (f : handler) (g : usb_setup_packet -> list Z -> Z * list Z) :
  (forall p data m, f p data m = Ret (g p data) m) -> handler_ok f.
Proof.
  intros Hf p data m. destruct (g p data) as [r d] eqn:Hg.
  exists r, d, m. rewrite Hf, Hg. split; [reflexivity|apply handler_frame_refl].
Qed.

Lemma set_address_ok : handler_ok usbfs_handle_set_address.
Proof.
  intros p data m. do 3 eexists. split; [reflexivity|].
  unfold handler_frame; cbn; repeat split; auto.
  - intros r Hr. unfold upd, reg_eqb.
    destruct (reg_eq_dec DCFG r) as [e|e]; [congruence|reflexivity].
  - rewrite <- app_assoc, armed_in_app. simpl. apply app_nil_r.
Qed.

Lemma get_status_device_ok : handler_ok usbfs_handle_get_status_device.
Proof.
  intros p data m. do 3 eexists. split; [reflexivity|apply handler_frame_refl].
Qed.

Lemma usbfs_setup_handlers_ok : Forall (fun h => handler_ok (fn h)) usbfs_setup_handlers.
Proof.
  unfold usbfs_setup_handlers.
  repeat (apply Forall_cons; [cbn [fn]|]); try apply Forall_nil;
    try apply bridge_ok.
  - apply get_status_device_ok.
  - apply set_address_ok.
  - eapply pure_handler_ok. intros p data m. reflexivity.
  - eapply pure_handler_ok. intros p data m. reflexivity.
  - apply (pure_handler_ok _ (fun p data =>
      if negb (wValue p =? byte_at usbfs_descriptor_configuration1 5)
      then (-1, data) else (0, data))).
    intros p data m. unfold usbfs_handle_set_configuration.
    destruct (negb _); reflexivity.
  - eapply pure_handler_ok. intros p data m. reflexivity.
  - apply (pure_handler_ok _ (fun p data =>
      if negb (wValue p =? 0) then (-1, data) else (0, data))).
    intros p data m. unfold usbfs_handle_set_interface0.
    destruct (negb _); reflexivity.
Qed.

Lemma scan_ok (hs : list usb_setup_handler) :
  Forall (fun h => handler_ok (fn h)) hs ->
  handler_ok (setup_handler_scan hs).
Proof.
  intros Hall p data m. rewrite scan_resolve.
  assert (Hres : match resolve hs p with
                 | Some h => handler_ok (fn h)
                 | None => True
                 end).
  { induction Hall as [|h hs Hh Hall IH]; simpl; [exact I|].
    destruct (code_index_match h p); [|exact IH].
    destruct (negb (len h =? 255) && negb (len h =? wLength p)); [exact I|exact Hh]. }
  destruct (resolve hs p) as [h|].
  - apply Hres.
  - exists (-1), data, m. split; [reflexivity|apply handler_frame_refl].
Qed.

(** The dispatch always returns, and leaves the transfer engine alone. *)
Lemma setup_handler_run_ok : handler_ok usbfs_setup_handler_run.
Proof. apply scan_ok, usbfs_setup_handlers_ok. Qed.

Lemma bind_system_reset {A C : Type} (c : M A) (k : A -> M C) m m' :
  c m = SystemReset m' -> bind c k m = SystemReset m'.
Proof. intros H. unfold bind. now rewrite H. Qed.


Lemma min_gtb (a b : Z) : (if a >? b then b else a) = Z.min a b.
Proof. destruct (Z.gtb_spec a b); lia. Qed.

(** The setup stage of a device-to-host request the handler accepts. *)
Lemma handle_setup_in_run (m : machine) r d m1 :
  flag_set (bmRequestType (setup_of (usbfs_outbuf m))) 0x80 = true ->
  usbfs_setup_handler_run (setup_of (usbfs_outbuf m)) [] (with_bytes 0 m) =
    Ret (r, d) m1 ->
  0 <= r ->
  exists m',
    usbfs_handle_setup m = Ret tt m' /\
    bytes (usbfs_state m') = Z.min r (wLength (setup_of (usbfs_outbuf m))) /\
    ep0in (usbfs_state m') = d /\
    usbfs_reboot_on_ack m' = usbfs_reboot_on_ack m1 /\
    dfu m' = dfu m1 /\
    log m' =
      log m1 ++
      in_packet_events (regs m1)
        (Z.min (Z.min r (wLength (setup_of (usbfs_outbuf m)))) 64) d ++
      prepare_out_events (regs m1).
Proof.
  intros Hdir Hrun Hr.
  unfold with_bytes in Hrun. cbn in Hrun.
  unfold usbfs_handle_setup, set_bytes, set_ep0in, put_state, get_state,
    get_setup, bind. cbn.
  rewrite Hdir, Hrun.
  assert (Hge : (r >=? 0) = true) by (apply Z.geb_le; lia).
  rewrite Hge, min_gtb. cbn.
  rewrite ep0in_transfer_run. cbn. rewrite min_gtb.
  unfold usbfs_ep0out_prepare_out, set_bits, bind, load, store. cbn.
  eexists. split; [reflexivity|]. cbn.
  rewrite <- !app_assoc. repeat split.
Qed.

(** The setup stage of a host-to-device request with a data stage that
    fits the receive buffer. *)
Lemma handle_setup_out_run (m : machine) :
  flag_set (bmRequestType (setup_of (usbfs_outbuf m))) 0x80 = false ->
  0 < wLength (setup_of (usbfs_outbuf m)) ->
  wLength (setup_of (usbfs_outbuf m)) <= DFU_TRANSFERSIZE ->
  exists m',
    usbfs_handle_setup m = Ret tt m' /\
    bytes (usbfs_state m') = wLength (setup_of (usbfs_outbuf m)) /\
    log m' = log m ++ prepare_out_events (regs m) /\
    usbfs_outbuf m' = usbfs_outbuf m /\
    dfu m' = dfu m /\ usbfs_reboot_on_ack m' = usbfs_reboot_on_ack m.
Proof.
  intros Hdir Hpos Hfit.
  unfold usbfs_handle_setup, usbfs_ep0out_prepare_out, set_bits, set_bytes,
    put_state, get_state, get_setup, bind, load, store. cbn.
  rewrite Hdir.
  assert (H0 : (wLength (setup_of (usbfs_outbuf m)) =? 0) = false)
    by (apply Z.eqb_neq; lia).
  assert (H1 : (wLength (setup_of (usbfs_outbuf m)) <=? outbuf_data_size) = true)
    by (apply Z.leb_le; exact Hfit).
  rewrite H0, H1. cbn.
  eexists. split; [reflexivity|]. cbn.
  rewrite <- !app_assoc. repeat split.
Qed.

(** C9: an endpoint 0 event with no SETUP flag pending, a remaining count
    of zero and [usbfs_reboot_on_ack] set writes the unlock key and then
    the reset command to the debug unit and does not return: whatever
    follows the call is not run.  With the flag clear the same event only
    acknowledges the endpoint flags and returns. *)
Theorem reboot_on_ack_resets (m : machine) :
  flag_set (regs m (DOEP_INTF 0)) USBFS_DOEPINTF_STPF = false ->
  bytes (usbfs_state m) = 0 ->
  (usbfs_reboot_on_ack m = true ->
   exists m',
     usbfs_handle_ep0 m = SystemReset m' /\
     log m' = log m ++ ack_events (regs m) ++
              [Store DBG_KEY DBG_KEY_UNLOCK; Store DBG_CMD DBG_CMD_RESET] /\
     regs m' DBG_KEY = DBG_KEY_UNLOCK /\
     regs m' DBG_CMD = DBG_CMD_RESET /\
     (forall k : unit -> M unit, bind usbfs_handle_ep0 k m = SystemReset m')) /\
  (usbfs_reboot_on_ack m = false ->
   exists m',
     usbfs_handle_ep0 m = Ret tt m' /\
     log m' = log m ++ ack_events (regs m)).
Proof.
  intros Hstp Hbytes. split; intros Hreboot.
  - assert (Hrun : exists m', usbfs_handle_ep0 m = SystemReset m' /\
       log m' = log m ++ ack_events (regs m) ++
                [Store DBG_KEY DBG_KEY_UNLOCK; Store DBG_CMD DBG_CMD_RESET] /\
       regs m' DBG_KEY = DBG_KEY_UNLOCK /\ regs m' DBG_CMD = DBG_CMD_RESET).
    { run_driver. rewrite Hstp. cbn. rewrite Hbytes. cbn. rewrite Hreboot.
      eexists. split; [reflexivity|]. cbn. rewrite <- !app_assoc.
      repeat split. }
    destruct Hrun as (m' & Hrun & Hlog & Hkey & Hcmd).
    exists m'. repeat split; auto.
    intros k. now apply bind_system_reset.
  - run_driver. rewrite Hstp. cbn. rewrite Hbytes. cbn. rewrite Hreboot.
    eexists. split; [reflexivity|]. cbn. now rewrite <- !app_assoc.
Qed.

(** C4, as the code has it: a host-to-device setup packet whose data stage
    is longer than [usbfs_outbuf.data] is rejected: the IN endpoint is
    stalled, SETUP-only reception is armed again, no handler is called, and
    the cursors and the receive buffer are not written.  The remaining
    count is not left as it was: it is zero afterwards, reset as for
    every setup packet. *)
Theorem oversized_out_rejected (m : machine) :
  flag_set (bmRequestType (setup_of (usbfs_outbuf m))) 0x80 = false ->
  0 < wLength (setup_of (usbfs_outbuf m)) ->
  DFU_TRANSFERSIZE < wLength (setup_of (usbfs_outbuf m)) ->
  exists m',
    usbfs_handle_setup m = Ret tt m' /\
    log m' = log m ++ stall_events (regs m) ++ prepare_setup_events (regs m) /\
    usbfs_state m' = {| ep0out := ep0out (usbfs_state m);
                        ep0in := ep0in (usbfs_state m);
                        bytes := 0 |} /\
    usbfs_outbuf m' = usbfs_outbuf m /\
    rxfifo m' = rxfifo m /\ rxwords m' = rxwords m /\
    dfu m' = dfu m /\ usbfs_reboot_on_ack m' = usbfs_reboot_on_ack m.
Proof.
  intros Hdir Hpos Hbig.
  run_driver.
  rewrite Hdir.
  assert (H0 : (wLength (setup_of (usbfs_outbuf m)) =? 0) = false)
    by (apply Z.eqb_neq; lia).
  assert (H1 : (wLength (setup_of (usbfs_outbuf m)) <=? outbuf_data_size) = false)
    by (apply Z.leb_gt; exact Hbig).
  rewrite H0, H1. cbn.
  eexists. split; [reflexivity|]. cbn.
  rewrite <- !app_assoc. repeat split.
Qed.



(** C5: for a device-to-host setup packet whose handler returns a length
    [r >= 0], the IN data stage is set up with [min r wLength] bytes from
    the handler's data, the first packet armed with at most 64 of them,
    and the OUT endpoint armed for the status stage.  GET_DESCRIPTOR with
    value 0x0100, index 0 and [wLength] 64 is dispatched to the descriptor
    handler and sets up the 18 bytes of the device descriptor. *)
Theorem in_stage_armed_min :
  (forall (m : machine) r d m1,
      flag_set (bmRequestType (setup_of (usbfs_outbuf m))) 0x80 = true ->
      usbfs_setup_handler_run (setup_of (usbfs_outbuf m)) [] (with_bytes 0 m) =
        Ret (r, d) m1 ->
      0 <= r ->
      exists m',
        usbfs_handle_setup m = Ret tt m' /\
        bytes (usbfs_state m') = Z.min r (wLength (setup_of (usbfs_outbuf m))) /\
        ep0in (usbfs_state m') = d /\
        log m' =
          log m1 ++
          in_packet_events (regs m1)
            (Z.min (Z.min r (wLength (setup_of (usbfs_outbuf m)))) 64) d ++
          prepare_out_events (regs m1)) /\
  (forall data,
      usbfs_setup_handler_run get_descriptor_device_64 data =
      usbfs_handle_get_descriptor get_descriptor_device_64 data) /\
  (forall m : machine,
      setup_of (usbfs_outbuf m) = get_descriptor_device_64 ->
      exists m',
        usbfs_handle_setup m = Ret tt m' /\
        bytes (usbfs_state m') = 18 /\
        ep0in (usbfs_state m') = usbfs_descriptor_device /\
        List.length usbfs_descriptor_device = 18%nat /\
        log m' = log m ++ in_packet_events (regs m) 18 usbfs_descriptor_device ++
                 prepare_out_events (regs m)).
Proof.
  split; [|split].
  - intros m r d m1 Hdir Hrun Hr.
    destruct (handle_setup_in_run m r d m1 Hdir Hrun Hr)
      as (m' & Hsetup & Hb & Hin & _ & _ & Hlog).
    exists m'. auto.
  - intros data. reflexivity.
  - intros m Hp.
    unfold usbfs_handle_setup, set_bytes, set_ep0in, put_state, get_state,
      get_setup, bind. cbn.
    rewrite Hp.
    change (usbfs_setup_handler_run get_descriptor_device_64 [])
      with (usbfs_handle_get_descriptor get_descriptor_device_64 []).
    cbn.
    rewrite ep0in_transfer_run. cbn.
    unfold usbfs_ep0out_prepare_out, set_bits, bind, load, store. cbn.
    eexists. split; [reflexivity|]. cbn.
    rewrite <- !app_assoc. repeat split.
Qed.

(** C7: in every state, handling a setup packet first sets the remaining
    count to zero: the result does not depend on the count an unfinished
    data stage had left, the dispatch is consulted on the state with the
    count at zero and with an empty data pointer, never with the receive
    buffer as on completion of an OUT data stage, and the count
    afterwards is the one of the new transfer.  For a new OUT data stage
    or an oversized one no handler is called at all. *)
Theorem setup_discards_transfer (m : machine) :
  (forall n, usbfs_handle_setup (with_bytes n m) = usbfs_handle_setup m) /\
  exists r d m1 m',
    usbfs_setup_handler_run (setup_of (usbfs_outbuf m)) [] (with_bytes 0 m) =
      Ret (r, d) m1 /\
    usbfs_handle_setup m = Ret tt m' /\
    if flag_set (bmRequestType (setup_of (usbfs_outbuf m))) 0x80 then
      bytes (usbfs_state m') =
        (if r >=? 0 then Z.min r (wLength (setup_of (usbfs_outbuf m))) else 0) /\
      dfu m' = dfu m1 /\ usbfs_reboot_on_ack m' = usbfs_reboot_on_ack m1
    else if wLength (setup_of (usbfs_outbuf m)) =? 0 then
      bytes (usbfs_state m') = 0 /\
      dfu m' = dfu m1 /\ usbfs_reboot_on_ack m' = usbfs_reboot_on_ack m1
    else
      bytes (usbfs_state m') =
        (if wLength (setup_of (usbfs_outbuf m)) <=? DFU_TRANSFERSIZE
         then wLength (setup_of (usbfs_outbuf m)) else 0) /\
      dfu m' = dfu m /\ usbfs_reboot_on_ack m' = usbfs_reboot_on_ack m.
Proof.
  split.
  - intros n. unfold usbfs_handle_setup, with_bytes, set_bytes, put_state,
      get_state, get_setup, bind. cbn. reflexivity.
  - destruct (setup_handler_run_ok (setup_of (usbfs_outbuf m)) [] (with_bytes 0 m))
      as (r & d & m1 & Hrun & Hframe).
    exists r, d, m1. 
    destruct Hframe as (Hst & _).
    pose proof Hrun as Hrun'.
    unfold with_bytes in Hrun', Hst. cbn in Hrun', Hst.
    unfold usbfs_handle_setup, usbfs_handle_setup_stall, set_bytes, set_ep0in,
      put_state, get_state, get_setup, bind. cbn.
    destruct (flag_set (bmRequestType (setup_of (usbfs_outbuf m))) 128).
    + rewrite Hrun'. destruct (r >=? 0).
      * rewrite min_gtb. cbn. rewrite ep0in_transfer_run. cbn.
        unfold usbfs_ep0out_prepare_out, set_bits, bind, load, store. cbn.
        eexists. split; [exact Hrun|]. split; [reflexivity|]. cbn. auto.
      * unfold usbfs_ep0in_stall, usbfs_ep0out_prepare_setup, set_bits, bind,
          load, store. cbn.
        eexists. split; [exact Hrun|]. split; [reflexivity|]. cbn.
        rewrite Hst. cbn. auto.
    + destruct (wLength (setup_of (usbfs_outbuf m)) =? 0).
      * rewrite Hrun'. destruct (r =? 0).
        -- unfold usbfs_ep0in_transfer_empty. rewrite ep0in_transfer_run. cbn.
           unfold usbfs_ep0out_prepare_setup, set_bits, bind, load, store. cbn.
           eexists. split; [exact Hrun|]. split; [reflexivity|]. cbn.
           rewrite Hst. cbn. auto.
        -- unfold usbfs_ep0in_stall, usbfs_ep0out_prepare_setup, set_bits, bind,
             load, store. cbn.
           eexists. split; [exact Hrun|]. split; [reflexivity|]. cbn.
           rewrite Hst. cbn. auto.
      * unfold outbuf_data_size.
        destruct (wLength (setup_of (usbfs_outbuf m)) <=? DFU_TRANSFERSIZE).
        -- unfold usbfs_ep0out_prepare_out, set_bits, bind, load, store. cbn.
           eexists. split; [exact Hrun|]. split; [reflexivity|]. cbn. auto.
        -- unfold usbfs_ep0in_stall, usbfs_ep0out_prepare_setup, set_bits, bind,
             load, store. cbn.
           eexists. split; [exact Hrun|]. split; [reflexivity|]. cbn. auto.
Qed.

#[local] Arguments skipn {A} n l : simpl never.

Lemma flag_set_zero (mask : Z) : flag_set 0 mask = false.
Proof. unfold flag_set. now rewrite Z.land_0_l. Qed.

Lemma flag_set_self (mask : Z) : mask <> 0 -> flag_set mask mask = true.
Proof.
  intros H. unfold flag_set. rewrite Z.land_diag.
  apply Z.eqb_neq in H. now rewrite H.
Qed.

(** One completed IN packet while bytes remain. *)
Lemma in_complete_step (m : machine) :
  USBFS_DIEPINTF_TF <> 0 ->
  bytes (usbfs_state m) <> 0 ->
  exists m',
    usbfs_handle_ep0 (hw_in_complete m) = Ret tt m' /\
    usbfs_reboot_on_ack m' = usbfs_reboot_on_ack m /\
    if bytes (usbfs_state m) >? 64 then
      bytes (usbfs_state m') = bytes (usbfs_state m) - 64 /\
      ep0in (usbfs_state m') = skipn 64 (ep0in (usbfs_state m)) /\
      armed_in (log m') =
        armed_in (log m) ++
        [Z.lor (USBFS_DIEPLEN_PCNT 1) (Z.min (bytes (usbfs_state m) - 64) 64)]
    else
      bytes (usbfs_state m') = 0 /\
      armed_in (log m') = armed_in (log m).
Proof.
  intros Htf Hbytes.
  unfold usbfs_handle_ep0, hw_in_complete, set_bytes, set_ep0in, put_state,
    get_state, bind, load, store. cbn.
  rewrite ?flag_set_zero, (flag_set_self _ Htf).
  apply Z.eqb_neq in Hbytes. rewrite Hbytes.
  destruct (bytes (usbfs_state m) >? 64) eqn:Hbig.
  - rewrite ep0in_transfer_run. cbn. rewrite min_gtb.
    eexists. split; [reflexivity|]. cbn. repeat split.
    rewrite <- !app_assoc, !armed_in_app. cbn [armed_in app].
    now rewrite armed_in_fifo.
  - eexists. split; [reflexivity|]. cbn. repeat split.
    rewrite <- !app_assoc, !armed_in_app. cbn. now rewrite app_nil_r.
Qed.

(** A completed IN packet when nothing remains and no reboot is pending. *)
Lemma in_complete_idle (m : machine) :
  bytes (usbfs_state m) = 0 ->
  usbfs_reboot_on_ack m = false ->
  exists m',
    usbfs_handle_ep0 (hw_in_complete m) = Ret tt m' /\
    bytes (usbfs_state m') = 0 /\
    usbfs_reboot_on_ack m' = false /\
    armed_in (log m') = armed_in (log m).
Proof.
  intros Hbytes Hreboot.
  unfold usbfs_handle_ep0, hw_in_complete, get_reboot_on_ack, get_state, bind,
    load, store, ret. cbn.
  rewrite ?flag_set_zero, Hbytes. cbn. rewrite Hreboot.
  eexists. split; [reflexivity|]. cbn. repeat split; auto.
  rewrite <- !app_assoc, !armed_in_app. cbn. now rewrite app_nil_r.
Qed.

Lemma in_stage_idle (k : nat) : forall m : machine,
  bytes (usbfs_state m) = 0 ->
  usbfs_reboot_on_ack m = false ->
  exists m',
    in_stage k m = Ret tt m' /\
    bytes (usbfs_state m') = 0 /\
    usbfs_reboot_on_ack m' = false /\
    armed_in (log m') = armed_in (log m).
Proof.
  induction k as [|k IH]; intros m Hb Hr; simpl.
  - exists m. auto.
  - destruct (in_complete_idle m Hb Hr) as (m1 & Hrun & Hb1 & Hr1 & Harm).
    rewrite Hrun. destruct (IH m1 Hb1 Hr1) as (m' & Hrun' & Hb' & Hr' & Harm').
    exists m'. repeat split; auto. congruence.
Qed.

Lemma chunks_head (fuel : nat) (n : Z) :
  chunks (S fuel) n = Z.min n 64 :: tl (chunks (S fuel) n).
Proof.
  simpl. destruct (Z.gtb_spec n 64); simpl; f_equal; lia.
Qed.

(** The packets after the first are armed one per completed packet, and
    the completion of the last one leaves nothing to send. *)
Lemma in_stage_packets (fuel : nat) : forall (n : Z) (m : machine),
  USBFS_DIEPINTF_TF <> 0 ->
  bytes (usbfs_state m) = n -> 0 < n -> n <= 64 * Z.of_nat fuel ->
  exists m',
    in_stage (List.length (chunks fuel n)) m = Ret tt m' /\
    bytes (usbfs_state m') = 0 /\
    usbfs_reboot_on_ack m' = usbfs_reboot_on_ack m /\
    armed_in (log m') =
      armed_in (log m) ++ map (Z.lor (USBFS_DIEPLEN_PCNT 1)) (tl (chunks fuel n)).
Proof.
  induction fuel as [|fuel IH]; intros n m Htf Hb Hpos Hfuel; [lia|].
  destruct (in_complete_step m Htf) as (m1 & Hrun & Hr1 & Hstep); [lia|].
  rewrite Hb in Hstep.
  cbn [chunks]. destruct (n >? 64) eqn:Hbig.
  - destruct Hstep as (Hb1 & _ & Harm1).
    apply Z.gtb_lt in Hbig.
    destruct (IH (n - 64) m1 Htf Hb1) as (m' & Hrun' & Hb' & Hr' & Harm');
      [lia | lia |].
    cbn [List.length in_stage tl]. rewrite Hrun.
    exists m'. repeat split; auto; [congruence|].
    rewrite Harm', Harm1, <- app_assoc. f_equal.
    destruct fuel as [|fuel']; [lia|].
    rewrite (chunks_head fuel' (n - 64)). reflexivity.
  - destruct Hstep as (Hb1 & Harm1).
    cbn [List.length in_stage tl map]. rewrite Hrun.
    exists m1. repeat split; auto. now rewrite app_nil_r.
Qed.

Lemma chunks_closed (fuel : nat) : forall n : Z,
  0 < n -> n <= 64 * Z.of_nat fuel ->
  chunks fuel n =
  repeat 64 (Z.to_nat ((n - 1) / 64)) ++ [n - 64 * ((n - 1) / 64)].
Proof.
  induction fuel as [|fuel IH]; intros n Hpos Hfuel; [lia|].
  cbn [chunks]. destruct (Z.gtb_spec n 64) as [Hbig|Hsmall].
  - rewrite IH by lia.
    replace ((n - 1) / 64) with ((n - 64 - 1) / 64 + 1)
      by (rewrite <- Z.div_add by lia; f_equal; lia).
    assert (0 <= (n - 64 - 1) / 64) by (apply Z.div_pos; lia).
    rewrite Z2Nat.inj_add by lia. 
    change (Z.to_nat 1) with 1%nat. rewrite Nat.add_1_r. cbn [repeat app].
    do 3 f_equal. lia.
  - rewrite Z.div_small by lia. cbn. f_equal. lia.
Qed.

Lemma in_packets_closed (n : Z) :
  0 < n ->
  in_packets n =
  repeat 64 (Z.to_nat ((n - 1) / 64)) ++
  [if n mod 64 =? 0 then 64 else n mod 64].
Proof.
  intros Hpos. unfold in_packets.
  assert (Hdiv : 0 <= n / 64) by (apply Z.div_pos; lia).
  pose proof (Z.mod_pos_bound n 64 ltac:(lia)) as Hmod.
  pose proof (Z.div_mod n 64 ltac:(lia)) as Hdm.
  rewrite chunks_closed; [|lia|].
  2:{ rewrite Nat2Z.inj_succ, Z2Nat.id by lia. lia. }
  f_equal. f_equal.
  destruct (Z.eqb_spec (n mod 64) 0) as [Hz|Hnz].
  - assert (Hq : (n - 1) / 64 = n / 64 - 1).
    { symmetry. apply (Z.div_unique _ _ _ 63); lia. }
    lia.
  - assert (Hq : (n - 1) / 64 = n / 64).
    { symmetry. apply (Z.div_unique _ _ _ (n mod 64 - 1)); lia. }
    lia.
Qed.



Lemma armed_in_setup_in (f : reg -> Z) (n : Z) (d : list Z) :
  armed_in (in_packet_events f n d ++ prepare_out_events f) =
  [Z.lor (USBFS_DIEPLEN_PCNT 1) n].
Proof.
  unfold in_packet_events. rewrite !armed_in_app, armed_in_fifo. reflexivity.
Qed.

(** Once nothing remains, completed IN packets arm nothing more. *)
Lemma in_stage_done (k : nat) (m : machine) :
  bytes (usbfs_state m) = 0 ->
  armed_in (log (final (in_stage k m))) = armed_in (log m).
Proof.
  intros Hb. destruct (usbfs_reboot_on_ack m) eqn:Hr.
  - destruct k as [|k]; [reflexivity|]. simpl.
    assert (Hrun : exists m', usbfs_handle_ep0 (hw_in_complete m) = SystemReset m' /\
                              armed_in (log m') = armed_in (log m)).
    { unfold usbfs_handle_ep0, hw_in_complete, get_reboot_on_ack, get_state,
        system_reset, bind, load, store, ret. cbn.
      rewrite Hb. cbn. rewrite Hr.
      eexists. split; [reflexivity|]. cbn.
      rewrite <- !app_assoc, !armed_in_app. cbn. now rewrite app_nil_r. }
    destruct Hrun as (m' & Hrun & Harm). now rewrite Hrun.
  - destruct (in_stage_idle k m Hb Hr) as (m' & Hrun & _ & _ & Harm).
    now rewrite Hrun.
Qed.

Lemma in_packets_no_zlp (n : Z) : 0 < n -> ~ In 0 (in_packets n).
Proof.
  intros Hpos. rewrite in_packets_closed by exact Hpos.
  intros Hin. apply in_app_or in Hin. destruct Hin as [Hin|[Hin|[]]].
  - apply repeat_spec in Hin. discriminate.
  - pose proof (Z.mod_pos_bound n 64 ltac:(lia)).
    destruct (Z.eqb_spec (n mod 64) 0); lia.
Qed.

(** C2, as the code has it: an IN data stage of [n > 0] bytes arms
    the packets of [in_packets n], one after each completed packet: all of
    64 bytes but the last, which has [n mod 64] bytes when [n] is not a
    multiple of 64 and 64 bytes when it is.  No zero-length packet is
    among them, and once the last packet has gone out further completions
    arm nothing. *)
Theorem in_data_stage_packets (m : machine) r d m1 :
  USBFS_DIEPINTF_TF <> 0 ->
  flag_set (bmRequestType (setup_of (usbfs_outbuf m))) 0x80 = true ->
  usbfs_setup_handler_run (setup_of (usbfs_outbuf m)) [] (with_bytes 0 m) =
    Ret (r, d) m1 ->
  0 <= r ->
  0 < Z.min r (wLength (setup_of (usbfs_outbuf m))) ->
  exists m',
    in_data_stage
      (List.length (in_packets (Z.min r (wLength (setup_of (usbfs_outbuf m))))))
      m = Ret tt m' /\
    bytes (usbfs_state m') = 0 /\
    armed_in (log m') =
      armed_in (log m1) ++
      map (Z.lor (USBFS_DIEPLEN_PCNT 1))
          (in_packets (Z.min r (wLength (setup_of (usbfs_outbuf m))))) /\
    in_packets (Z.min r (wLength (setup_of (usbfs_outbuf m)))) =
      repeat 64
        (Z.to_nat ((Z.min r (wLength (setup_of (usbfs_outbuf m))) - 1) / 64)) ++
      [if Z.min r (wLength (setup_of (usbfs_outbuf m))) mod 64 =? 0 then 64
       else Z.min r (wLength (setup_of (usbfs_outbuf m))) mod 64] /\
    ~ In 0 (in_packets (Z.min r (wLength (setup_of (usbfs_outbuf m))))) /\
    (forall k, armed_in (log (final (in_stage k m'))) = armed_in (log m')).
Proof.
  intros Htf Hdir Hrun Hr Hpos.
  set (n := Z.min r (wLength (setup_of (usbfs_outbuf m)))) in *.
  destruct (handle_setup_in_run m r d m1 Hdir Hrun Hr)
    as (m0 & Hsetup & Hb0 & _ & _ & _ & Hlog0).
  fold n in Hb0, Hlog0.
  assert (Hdiv : 0 <= n / 64) by (apply Z.div_pos; lia).
  pose proof (Z.mod_pos_bound n 64 ltac:(lia)) as Hmod.
  pose proof (Z.div_mod n 64 ltac:(lia)) as Hdm.
  destruct (in_stage_packets (S (Z.to_nat (n / 64))) n m0 Htf Hb0 Hpos)
    as (m' & Hstage & Hb' & _ & Harm').
  { rewrite Nat2Z.inj_succ, Z2Nat.id by lia. lia. }
  exists m'. unfold in_data_stage. rewrite Hsetup.
  split; [exact Hstage|]. split; [exact Hb'|]. split; [|split; [|split]].
  - rewrite Harm', Hlog0, armed_in_app, armed_in_setup_in, <- app_assoc.
    unfold in_packets. now rewrite (chunks_head (Z.to_nat (n / 64)) n).
  - now apply in_packets_closed.
  - now apply in_packets_no_zlp.
  - intros k. now apply in_stage_done.
Qed.


(** C3, as the code has it.  Handling the setup packet of an OUT data stage
    arms the OUT endpoint and records [wLength] without calling a handler.
    An OUT completion then takes the bytes the controller reports, 64 less
    the residual transfer length, off the remaining count and arms the OUT
    endpoint again while more than that remain.  Otherwise the count
    becomes zero and the dispatch is consulted, for the only time in the
    transfer, with the receive buffer as data: a result of zero arms an
    empty IN packet, any other result stalls the IN endpoint, and
    SETUP-only reception is armed in both cases. *)
Theorem out_data_stage :
  (forall m : machine,
      flag_set (bmRequestType (setup_of (usbfs_outbuf m))) 0x80 = false ->
      0 < wLength (setup_of (usbfs_outbuf m)) ->
      wLength (setup_of (usbfs_outbuf m)) <= DFU_TRANSFERSIZE ->
      exists m',
        usbfs_handle_setup m = Ret tt m' /\
        bytes (usbfs_state m') = wLength (setup_of (usbfs_outbuf m)) /\
        log m' = log m ++ prepare_out_events (regs m) /\
        dfu m' = dfu m /\ usbfs_reboot_on_ack m' = usbfs_reboot_on_ack m) /\
  (forall m : machine,
      flag_set (regs m (DOEP_INTF 0)) USBFS_DOEPINTF_STPF = false ->
      flag_set (regs m (DIEP_INTF 0)) USBFS_DIEPINTF_TF = false ->
      flag_set (regs m (DOEP_INTF 0)) USBFS_DOEPINTF_TF = true ->
      out_received m < bytes (usbfs_state m) ->
      bytes (usbfs_state m) <> 0 ->
      exists m',
        usbfs_handle_ep0 m = Ret tt m' /\
        bytes (usbfs_state m') = bytes (usbfs_state m) - out_received m /\
        log m' = log m ++ ack_events (regs m) ++
                 [Load (DOEP_LEN 0) (regs m (DOEP_LEN 0))] ++
                 prepare_out_events (regs m) /\
        dfu m' = dfu m /\ usbfs_reboot_on_ack m' = usbfs_reboot_on_ack m) /\
  (forall m : machine,
      flag_set (regs m (DOEP_INTF 0)) USBFS_DOEPINTF_STPF = false ->
      flag_set (regs m (DIEP_INTF 0)) USBFS_DIEPINTF_TF = false ->
      flag_set (regs m (DOEP_INTF 0)) USBFS_DOEPINTF_TF = true ->
      bytes (usbfs_state m) <= out_received m ->
      bytes (usbfs_state m) <> 0 ->
      exists r d m1 m',
        usbfs_setup_handler_run (setup_of (usbfs_outbuf m))
          (skipn 8 (usbfs_outbuf m)) (out_completion_state m) = Ret (r, d) m1 /\
        usbfs_handle_ep0 m = Ret tt m' /\
        bytes (usbfs_state m') = 0 /\
        log m' = log m1 ++
                 (if r =? 0
                  then in_packet_events (regs m1) 0 (ep0in (usbfs_state m))
                  else stall_events (regs m1)) ++
                 prepare_setup_events (regs m1) /\
        dfu m' = dfu m1 /\ usbfs_reboot_on_ack m' = usbfs_reboot_on_ack m1).
Proof.
  split; [|split].
  - intros m Hdir Hpos Hfit.
    destruct (handle_setup_out_run m Hdir Hpos Hfit)
      as (m' & Hrun & Hb & Hlog & _ & Hdfu & Hre).
    exists m'. auto.
  - intros m Hstp Hin Hout Hmore Hb.
    unfold out_received in *.
    unfold usbfs_handle_ep0, usbfs_ep0out_prepare_out, set_bits, set_bytes,
      put_state, get_state, bind, load, store. cbn -[Z.sub].
    rewrite Hstp. cbn -[Z.sub]. apply Z.eqb_neq in Hb. rewrite Hb, Hin, Hout. cbn -[Z.sub].
    assert (Hgt : (bytes (usbfs_state m) >?
                   u32 (64 - Z.land (regs m (DOEP_LEN 0)) USBFS_DOEPLEN_TLEN_Msk))
                  = true) by (apply Z.gtb_lt; exact Hmore).
    rewrite Hgt. cbn -[Z.sub].
    eexists. split; [reflexivity|]. cbn -[Z.sub].
    rewrite <- !app_assoc. repeat split.
  - intros m Hstp Hin Hout Hall Hb.
    destruct (setup_handler_run_ok (setup_of (usbfs_outbuf m))
                (skipn 8 (usbfs_outbuf m)) (out_completion_state m))
      as (r & d & m1 & Hrun & Hframe).
    exists r, d, m1.
    destruct Hframe as (Hst & _).
    pose proof Hrun as Hrun'.
    unfold out_completion_state, ep0_acked, with_bytes, ack_events in Hrun', Hst.
    cbn -[Z.sub] in Hrun', Hst. rewrite <- !app_assoc in Hrun'. cbn -[Z.sub] in Hrun'.
    unfold out_received in *.
    unfold usbfs_handle_ep0, usbfs_ep0in_transfer_empty, usbfs_ep0in_stall,
      usbfs_ep0out_prepare_setup, set_bits, set_bytes, put_state, get_state,
      get_setup, get_outbuf_data, bind, load, store. cbn -[Z.sub].
    rewrite Hstp. cbn -[Z.sub]. apply Z.eqb_neq in Hb. rewrite Hb, Hin, Hout. cbn -[Z.sub].
    assert (Hgt : (bytes (usbfs_state m) >?
                   u32 (64 - Z.land (regs m (DOEP_LEN 0)) USBFS_DOEPLEN_TLEN_Msk))
                  = false) by (rewrite Z.gtb_ltb; apply Z.ltb_ge; exact Hall).
    rewrite Hgt. cbn -[Z.sub]. rewrite <- !app_assoc. cbn -[Z.sub].
    rewrite Hrun'.
    destruct (r =? 0).
    + rewrite ep0in_transfer_run. cbn -[Z.sub]. rewrite ?Hst. cbn -[Z.sub].
      eexists. split; [exact Hrun|]. split; [reflexivity|]. cbn -[Z.sub].
      rewrite ?Hst. cbn -[Z.sub]. rewrite <- !app_assoc. repeat split.
    + cbn -[Z.sub]. eexists. split; [exact Hrun|]. split; [reflexivity|]. cbn -[Z.sub].
      rewrite ?Hst. cbn -[Z.sub]. rewrite <- !app_assoc. repeat split.
Qed.

(** A data stage of at most one full packet: the packet armed by the
    setup stage is the only one, however many completions follow. *)
Lemma in_data_stage_single (m : machine) r d m1 k m' :
  USBFS_DIEPINTF_TF <> 0 ->
  flag_set (bmRequestType (setup_of (usbfs_outbuf m))) 0x80 = true ->
  usbfs_setup_handler_run (setup_of (usbfs_outbuf m)) [] (with_bytes 0 m) =
    Ret (r, d) m1 ->
  0 <= r ->
  0 < Z.min r (wLength (setup_of (usbfs_outbuf m))) ->
  Z.min r (wLength (setup_of (usbfs_outbuf m))) <= 64 ->
  usbfs_reboot_on_ack m1 = false ->
  in_data_stage k m = Ret tt m' ->
  armed_in (log m') =
  armed_in (log m1) ++
  [Z.lor (USBFS_DIEPLEN_PCNT 1) (Z.min r (wLength (setup_of (usbfs_outbuf m))))].
Proof.
  intros Htf Hdir Hrun Hr Hpos Hsmall Hreboot Hstage.
  set (n := Z.min r (wLength (setup_of (usbfs_outbuf m)))) in *.
  destruct (handle_setup_in_run m r d m1 Hdir Hrun Hr)
    as (m0 & Hsetup & Hb0 & _ & Hr0 & _ & Hlog0).
  fold n in Hb0, Hlog0.
  assert (Harm0 : armed_in (log m0) =
                  armed_in (log m1) ++ [Z.lor (USBFS_DIEPLEN_PCNT 1) n]).
  { rewrite Hlog0, armed_in_app, armed_in_setup_in. do 3 f_equal. lia. }
  unfold in_data_stage in Hstage. rewrite Hsetup in Hstage.
  destruct k as [|k]; simpl in Hstage.
  - injection Hstage as <-. exact Harm0.
  - destruct (in_complete_step m0 Htf) as (m2 & Hrun2 & Hr2 & Hstep); [lia|].
    rewrite Hrun2 in Hstage.
    assert (Hle : (bytes (usbfs_state m0) >? 64) = false)
      by (rewrite Z.gtb_ltb; apply Z.ltb_ge; lia).
    rewrite Hle in Hstep. destruct Hstep as (Hb2 & Harm2).
    destruct (in_stage_idle k m2 Hb2) as (m3 & Hrun3 & _ & _ & Harm3);
      [congruence|].
    rewrite Hrun3 in Hstage. injection Hstage as <-. congruence.
Qed.

Lemma final_ret {A : Type} (o : outcome A) (a : A) (m : machine) :
  o = Ret a m -> final o = m.
Proof. intros ->. reflexivity. Qed.

End EngineProperties.

Section ReceiveProperties.

Context {R : RegisterMap} {B : DfuBridge}.

Lemma rx_frame_refl (m : machine) : rx_frame m m.
Proof. unfold rx_frame. repeat split. Qed.

Lemma rx_frame_trans (m1 m2 m3 : machine) :
  rx_frame m1 m2 -> rx_frame m2 m3 -> rx_frame m1 m3.
Proof.
  unfold rx_frame. intros (A1 & A2 & A3 & A4 & A5 & A6 & A7)
    (C1 & C2 & C3 & C4 & C5 & C6 & C7).
  repeat split; congruence.
Qed.

Lemma rx_quiet_refl (m : machine) : rx_quiet m m.
Proof.
  split; [apply rx_frame_refl|]. split; [reflexivity|].
  exists []. rewrite app_nil_r. auto.
Qed.

Lemma pops_app (a b : list event) : pops (a ++ b) = (pops a + pops b)%nat.
Proof.
  induction a as [|e a IH]; simpl; [reflexivity|].
  destruct e as [r v|r v]; [|exact IH].
  destruct r; simpl; auto.
Qed.

Lemma rx_quiet_trans (m1 m2 m3 : machine) :
  rx_quiet m1 m2 -> rx_quiet m2 m3 -> rx_quiet m1 m3.
Proof.
  intros (F1 & Q1 & e1 & L1 & A1 & P1) (F2 & Q2 & e2 & L2 & A2 & P2).
  split; [eapply rx_frame_trans; eauto|]. split; [congruence|].
  exists (e1 ++ e2). rewrite L2, L1, <- app_assoc. split; [reflexivity|].
  rewrite forallb_app, A1, A2, pops_app, P1, P2. auto.
Qed.

Lemma load_dfifo_quiet (m : machine) :
  exists w m', load DFIFO0 m = Ret w m' /\ rx_quiet m m'.
Proof.
  unfold load. cbn. destruct (rxwords m) as [|w ws]; do 2 eexists;
    (split; [reflexivity|]);
    (split; [unfold rx_frame; cbn; repeat split|]);
    (split; [reflexivity|]); eexists; cbn; repeat split.
Qed.

Lemma inside32_true (mem : list Z) (off : Z) :
  0 <= off -> off + 4 <= Z.of_nat (List.length mem) ->
  inside32 mem off = true.
Proof.
  intros H0 H1. unfold inside32.
  destruct (Z.leb_spec 0 off); [|lia].
  destruct (Z.leb_spec (off + 4) (Z.of_nat (List.length mem))); [|lia].
  reflexivity.
Qed.


Lemma rx_quiet_only (m m' : machine) : rx_quiet m m' -> rx_only m m'.
Proof. intros (_ & _ & evs & L & A & _). exists evs. auto. Qed.

Lemma rx_only_trans (m1 m2 m3 : machine) :
  rx_only m1 m2 -> rx_only m2 m3 -> rx_only m1 m3.
Proof.
  intros (e1 & L1 & A1) (e2 & L2 & A2).
  exists (e1 ++ e2). rewrite L2, L1, <- app_assoc. split; [reflexivity|].
  now rewrite forallb_app, A1, A2.
Qed.

Lemma quiet_bind {A C : Type} (c : M A) (k : A -> M C) (m : machine) :
  quiet_or_out m (c m) ->
  (forall a m1, c m = Ret a m1 -> quiet_or_out m1 (k a m1)) ->
  quiet_or_out m (bind c k m).
Proof.
  intros Hc Hk. unfold bind.
  destruct (c m) as [a m1|m1|m1|m1]; simpl in Hc; try contradiction.
  - specialize (Hk a m1 eq_refl).
    destruct (k a m1) as [x m2|m2|m2|m2]; simpl in *; try contradiction.
    + eapply rx_quiet_trans; eauto.
    + eapply rx_only_trans; [apply rx_quiet_only|]; eauto.
  - exact Hc.
Qed.

Lemma quiet_ret {A : Type} (a : A) (m : machine) : quiet_or_out m (ret a m).
Proof. apply rx_quiet_refl. Qed.

Lemma quiet_load_dfifo (m : machine) : quiet_or_out m (load DFIFO0 m).
Proof.
  destruct (load_dfifo_quiet m) as (w & m' & Hload & Hq).
  rewrite Hload. exact Hq.
Qed.

Lemma set_ep0out_quiet (o : Z) (m : machine) :
  exists m', set_ep0out o m = Ret tt m' /\ rx_quiet m m'.
Proof.
  unfold set_ep0out, put_state, get_state, bind. cbn.
  eexists. split; [reflexivity|].
  split; [unfold rx_frame; cbn; repeat split|].
  split; [reflexivity|]. exists []. cbn. rewrite app_nil_r. auto.
Qed.

Lemma quiet_set_ep0out (o : Z) (m : machine) : quiet_or_out m (set_ep0out o m).
Proof.
  destruct (set_ep0out_quiet o m) as (m' & Hrun & Hq). rewrite Hrun. exact Hq.
Qed.

(** A store through [ep0out] inside the buffer changes the buffer and the
    cursor; outside of it the run ends there. *)
Lemma quiet_push_ep0out (w : Z) (m : machine) :
  quiet_or_out m (push_ep0out w m).
Proof.
  unfold push_ep0out, store_outbuf, set_ep0out, put_state, get_state, bind.
  cbn. destruct (inside32 (usbfs_outbuf m) (ep0out (usbfs_state m))); cbn.
  - split; [unfold rx_frame; cbn; repeat split|].
    split; [reflexivity|]. exists []. cbn. rewrite app_nil_r. auto.
  - exists []. rewrite app_nil_r. auto.
Qed.

Lemma quiet_drop_stale (fuel : nat) : forall (n : Z) (m : machine),
  (Z.to_nat n <= fuel)%nat ->
  quiet_or_out m (drop_stale fuel n m).
Proof.
  induction fuel as [|fuel IH]; intros n m Hfuel.
  - simpl. destruct (Z.gtb_spec n 8); [lia|]. apply quiet_ret.
  - simpl. destruct (Z.gtb_spec n 8); [|apply quiet_ret].
    apply quiet_bind; [apply quiet_load_dfifo|].
    intros _ m1 _. apply IH. lia.
Qed.

Lemma quiet_read_out (fuel : nat) : forall (n : Z) (m : machine),
  (0 < fuel)%nat -> (Z.to_nat n <= fuel)%nat ->
  quiet_or_out m (read_out fuel n m).
Proof.
  induction fuel as [|fuel IH]; intros n m Hpos Hfuel; [lia|].
  simpl.
  apply quiet_bind; [apply quiet_load_dfifo|]. intros w m1 _.
  apply quiet_bind; [apply quiet_push_ep0out|]. intros _ m2 _.
  destruct (Z.leb_spec n 4); [apply quiet_ret|].
  apply IH; lia.
Qed.

(** One run of the FIFO reader pops one packet status and reads nothing
    but the FIFO; it returns, unless a store through [ep0out] leaves the
    buffer. *)
Lemma handle_rxdata_cases (m : machine) :
  0 <= USBFS_GRSTAT_BCOUNT_Msk ->
  match usbfs_handle_rxdata m with
  | Ret _ m' =>
      rx_frame m m' /\
      rxfifo m' = tl (rxfifo m) /\
      exists evs,
        log m' = log m ++ evs /\
        forallb is_rx_access evs = true /\
        pops evs = 1%nat
  | OutOfBounds m' => rx_only m m'
  | _ => False
  end.
Proof.
  intros Hmask.
  assert (Hpop : exists g m0, load GRSTATP m = Ret g m0 /\ rx_frame m m0 /\
                   rxfifo m0 = tl (rxfifo m) /\ log m0 = log m ++ [Load GRSTATP g]).
  { unfold load. cbn. destruct (rxfifo m) as [|[g ws] q] eqn:Hrx; do 2 eexists;
      (split; [reflexivity|]); (split; [unfold rx_frame; cbn; repeat split|]);
      cbn; rewrite ?Hrx; auto. }
  destruct Hpop as (g & m0 & Hload & Hf0 & Hq0 & Hl0).
  assert (Hfin : forall o : outcome unit, quiet_or_out m0 o ->
            match o with
            | Ret _ m' =>
                rx_frame m m' /\ rxfifo m' = tl (rxfifo m) /\
                exists evs, log m' = log m ++ evs /\
                            forallb is_rx_access evs = true /\ pops evs = 1%nat
            | OutOfBounds m' => rx_only m m'
            | _ => False
            end).
  { intros [x m'|m'|m'|m']; simpl; try contradiction.
    - intros (F & Q & evs & L & A & P).
      split; [eapply rx_frame_trans; eauto|]. split; [congruence|].
      exists (Load GRSTATP g :: evs). rewrite L, Hl0, <- app_assoc.
      split; [reflexivity|]. cbn. rewrite A, P. auto.
    - intros (evs & L & A).
      exists (Load GRSTATP g :: evs). rewrite L, Hl0, <- app_assoc.
      split; [reflexivity|]. cbn. exact A. }
  unfold usbfs_handle_rxdata. unfold bind at 1. rewrite Hload.
  apply Hfin.
  set (n := Z.shiftr (Z.land g USBFS_GRSTAT_BCOUNT_Msk) USBFS_GRSTAT_BCOUNT_Pos).
  assert (Hn : 0 <= n).
  { apply Z.shiftr_nonneg, Z.land_nonneg. now right. }
  destruct (negb (Z.land g USBFS_GRSTAT_EPNUM_Msk =? 0)); [apply quiet_ret|].
  destruct (Z.eqb_spec n 0) as [Hz|Hnz]; [apply quiet_ret|].
  destruct (Z.land g USBFS_GRSTAT_RPCKST_Msk =? USBFS_GRSTAT_RPCKST_STP).
  - apply quiet_bind; [apply quiet_drop_stale; lia|]. intros _ m1 _.
    apply quiet_bind; [apply quiet_set_ep0out|]. intros _ m2 _.
    apply quiet_bind; [apply quiet_load_dfifo|]. intros w1 m3 _.
    apply quiet_bind; [apply quiet_push_ep0out|]. intros _ m4 _.
    apply quiet_bind; [apply quiet_load_dfifo|]. intros w2 m5 _.
    apply quiet_push_ep0out.
  - apply quiet_read_out; lia.
Qed.

Lemma land_lnot_mask (g r : Z) : Z.land (Z.land g (Z.lnot r)) r = 0.
Proof.
  now rewrite <- Z.land_assoc, (Z.land_comm (Z.lnot r)), Z.land_lnot_diag,
    Z.land_0_r.
Qed.

Lemma land_lor_mask (g r : Z) : Z.land (Z.lor g r) r = r.
Proof.
  apply Z.bits_inj'. intros n Hn.
  rewrite Z.land_spec, Z.lor_spec.
  destruct (Z.testbit g n), (Z.testbit r n); reflexivity.
Qed.

Lemma last_app_nonempty {A : Type} (l1 l2 : list A) (d : A) :
  l2 <> [] -> last (l1 ++ l2) d = last l2 d.
Proof.
  intros Hne. induction l1 as [|a l1 IH]; [reflexivity|].
  simpl. destruct (l1 ++ l2) eqn:Happ; [|exact IH].
  apply app_eq_nil in Happ. destruct Happ. contradiction.
Qed.

Lemma load_gintf_empty (m : machine) :
  rxfifo m = [] ->
  load GINTF m =
  Ret (Z.land (regs m GINTF) (Z.lnot USBFS_GINTF_RXFNEIF))
      (set_log (log m ++ [Load GINTF (Z.land (regs m GINTF)
                                             (Z.lnot USBFS_GINTF_RXFNEIF))]) m).
Proof. intros Hrx. unfold load, hw_load. now rewrite Hrx. Qed.

Lemma load_gintf_waiting (m : machine) :
  rxfifo m <> [] ->
  load GINTF m =
  Ret (Z.lor (regs m GINTF) USBFS_GINTF_RXFNEIF)
      (set_log (log m ++ [Load GINTF (Z.lor (regs m GINTF)
                                            USBFS_GINTF_RXFNEIF)]) m).
Proof.
  intros Hrx. unfold load, hw_load.
  destruct (rxfifo m); [congruence|reflexivity].
Qed.

Lemma drain_rx_clear (fuel : nat) (flags : Z) (m : machine) :
  flag_set flags USBFS_GINTF_RXFNEIF = false ->
  drain_rx fuel flags m = Ret flags m.
Proof. intros H. destruct fuel; simpl; now rewrite H. Qed.

(** The receive loop, from the read of the flags that precedes it: it
    returns once the FIFO is empty, having popped every waiting packet,
    unless a store through [ep0out] leaves the buffer on the way. *)
Lemma drain_cases (fuel : nat) : forall m : machine,
  USBFS_GINTF_RXFNEIF <> 0 ->
  0 <= USBFS_GRSTAT_BCOUNT_Msk ->
  (List.length (rxfifo m) <= fuel)%nat ->
  (exists flags m1 evs,
     bind (load GINTF) (drain_rx fuel) m = Ret flags m1 /\
     rx_frame m m1 /\
     rxfifo m1 = [] /\
     log m1 = log m ++ evs /\
     forallb is_rx_access evs = true /\
     pops evs = List.length (rxfifo m) /\
     last evs (Store GINTF 0) = Load GINTF flags /\
     flag_set flags USBFS_GINTF_RXFNEIF = false) \/
  (exists m1,
     bind (load GINTF) (drain_rx fuel) m = OutOfBounds m1 /\
     rx_only m m1).
Proof.
  assert (Hempty : forall f (m : machine),
    rxfifo m = [] ->
    exists flags m1 evs,
      bind (load GINTF) (drain_rx f) m = Ret flags m1 /\
      rx_frame m m1 /\ rxfifo m1 = [] /\ log m1 = log m ++ evs /\
      forallb is_rx_access evs = true /\
      pops evs = List.length (rxfifo m) /\
      last evs (Store GINTF 0) = Load GINTF flags /\
      flag_set flags USBFS_GINTF_RXFNEIF = false).
  { intros f m Hrx.
    assert (Hclear : flag_set (Z.land (regs m GINTF) (Z.lnot USBFS_GINTF_RXFNEIF))
                       USBFS_GINTF_RXFNEIF = false)
      by (unfold flag_set; now rewrite land_lnot_mask).
    unfold bind. rewrite (load_gintf_empty m Hrx), (drain_rx_clear _ _ _ Hclear).
    do 3 eexists. split; [reflexivity|].
    unfold rx_frame. cbn. rewrite Hrx. repeat split; auto. }
  induction fuel as [|fuel IH]; intros m Hflag Hmask Hfuel.
  - left. apply Hempty. destruct (rxfifo m); [reflexivity|simpl in Hfuel; lia].
  - assert (Hcase : rxfifo m = [] \/ exists pkt q, rxfifo m = pkt :: q)
      by (destruct (rxfifo m) as [|pkt q]; eauto).
    destruct Hcase as [Hrx|(pkt & q & Hrx)]; [left; now apply Hempty|].
    assert (Hset : flag_set (Z.lor (regs m GINTF) USBFS_GINTF_RXFNEIF)
                     USBFS_GINTF_RXFNEIF = true).
    { unfold flag_set. rewrite land_lor_mask.
      apply Z.eqb_neq in Hflag. now rewrite Hflag. }
    set (m0 := set_log (log m ++
                 [Load GINTF (Z.lor (regs m GINTF) USBFS_GINTF_RXFNEIF)]) m).
    assert (Hstart : bind (load GINTF) (drain_rx (S fuel)) m =
              bind usbfs_handle_rxdata
                (fun _ => bind (load GINTF) (drain_rx fuel)) m0).
    { unfold bind at 1. rewrite load_gintf_waiting by congruence.
      cbn [drain_rx]. now rewrite Hset. }
    assert (H0 : rx_only m m0).
    { exists [Load GINTF (Z.lor (regs m GINTF) USBFS_GINTF_RXFNEIF)].
      split; reflexivity. }
    pose proof (handle_rxdata_cases m0 Hmask) as Hrx1.
    destruct (usbfs_handle_rxdata m0) as [[] m1|m1|m1|m1] eqn:Hrun;
      try contradiction.
    2:{ right. exists m1. split.
        - rewrite Hstart. unfold bind at 1. now rewrite Hrun.
        - eapply rx_only_trans; eauto. }
    destruct Hrx1 as (F1 & Q1 & e1 & L1 & A1 & P1).
    assert (Hq1 : rxfifo m1 = q) by (rewrite Q1; unfold m0; cbn; now rewrite Hrx).
    destruct (IH m1 Hflag Hmask)
      as [(flags & m2 & e2 & Hrest & F2 & Q2 & L2 & A2 & P2 & Hlast & Hclear)
         |(m2 & Hrest & O2)].
    { rewrite Hq1. rewrite Hrx in Hfuel. simpl in Hfuel. lia. }
    2:{ right. exists m2. split.
        - rewrite Hstart. unfold bind at 1. rewrite Hrun. exact Hrest.
        - eapply rx_only_trans; [exact H0|].
          eapply rx_only_trans; [|exact O2]. exists e1. auto. }
    left. exists flags, m2,
      (Load GINTF (Z.lor (regs m GINTF) USBFS_GINTF_RXFNEIF) :: e1 ++ e2).
    split.
    { rewrite Hstart. unfold bind at 1. rewrite Hrun. exact Hrest. }
    split.
    { eapply rx_frame_trans; [|exact F2]. eapply rx_frame_trans; [|exact F1].
      unfold rx_frame, m0; cbn; repeat split. }
    split; [exact Q2|].
    split.
    { rewrite L2, L1. unfold m0. cbn. now rewrite <- !app_assoc. }
    split.
    { cbn. now rewrite forallb_app, A1, A2. }
    split.
    { cbn. rewrite pops_app, P1, P2, Hq1, Hrx. reflexivity. }
    split; [|exact Hclear].
    assert (He2 : e2 <> []).
    { intros He. rewrite He in Hlast. discriminate Hlast. }
    change (Load GINTF (Z.lor (regs m GINTF) USBFS_GINTF_RXFNEIF) :: e1 ++ e2)
      with (([Load GINTF (Z.lor (regs m GINTF) USBFS_GINTF_RXFNEIF)] ++ e1) ++ e2).
    now rewrite last_app_nonempty.
Qed.

(** The receive loop inside [USBFS_IRQHandler]. *)
Lemma irq_drain_cases (m : machine) :
  USBFS_GINTF_RXFNEIF <> 0 ->
  0 <= USBFS_GRSTAT_BCOUNT_Msk ->
  (exists flags m1 evs,
     USBFS_IRQHandler m = usbfs_irq_events flags m1 /\
     log m1 = log m ++ evs /\
     forallb is_rx_access evs = true /\
     pops evs = List.length (rxfifo m) /\
     last evs (Store GINTF 0) = Load GINTF flags /\
     flag_set flags USBFS_GINTF_RXFNEIF = false /\
     rxfifo m1 = [] /\
     rx_frame m m1) \/
  (exists m1 evs,
     USBFS_IRQHandler m = OutOfBounds m1 /\
     log m1 = log m ++ evs /\
     forallb is_rx_access evs = true).
Proof.
  intros Hflag Hmask.
  assert (Hirq : USBFS_IRQHandler m =
                 bind (bind (load GINTF) (drain_rx (List.length (rxfifo m))))
                      usbfs_irq_events m).
  { unfold USBFS_IRQHandler, get_pending, bind.
    destruct (load GINTF m); reflexivity. }
  destruct (drain_cases (List.length (rxfifo m)) m Hflag Hmask (le_n _))
    as [(flags & m1 & evs & Hrun & F & Q & L & A & P & Hlast & Hclear)
       |(m1 & Hrun & evs & L & A)].
  - left. exists flags, m1, evs.
    split; [rewrite Hirq; unfold bind at 1; now rewrite Hrun|]. auto 10.
  - right. exists m1, evs.
    split; [rewrite Hirq; unfold bind at 1; now rewrite Hrun|].
    split; assumption.
Qed.


Lemma poke_length (mem : list Z) : forall (i : nat) (bs : list Z),
  List.length (poke mem i bs) = List.length mem.
Proof.
  induction mem as [|x mem IH]; intros i bs.
  - destruct i, bs; reflexivity.
  - destruct i as [|i].
    + destruct bs as [|b bs]; [reflexivity|]. simpl. now rewrite IH.
    + simpl. now rewrite IH.
Qed.


(** The discarding loop on a FIFO that holds [pre] in front of [rest]. *)
Lemma drop_stale_words (pre : list Z) : forall fuel n rest (m : machine),
  rxwords m = pre ++ rest ->
  (List.length pre <= fuel)%nat ->
  n <= 8 + 4 * Z.of_nat (List.length pre) ->
  (pre <> [] -> 4 + 4 * Z.of_nat (List.length pre) < n) ->
  drop_stale fuel n m =
  Ret (n - 4 * Z.of_nat (List.length pre))
      (set_log (log m ++ map (Load DFIFO0) pre) (set_rx (rxfifo m) rest m)).
Proof.
  induction pre as [|w pre IH]; intros fuel n rest m Hws Hfuel Hle Hgt.
  - simpl in *. 
    assert (Hs : (n >? 8) = false) by (rewrite Z.gtb_ltb; apply Z.ltb_ge; lia).
    destruct fuel; simpl; rewrite Hs; unfold ret;
      rewrite app_nil_r, Z.sub_0_r; destruct m; cbn in *; now subst.
  - assert (Hn : 4 + 4 * Z.of_nat (List.length (w :: pre)) < n)
      by (apply Hgt; discriminate).
    simpl List.length in *. rewrite Nat2Z.inj_succ in *.
    destruct fuel as [|fuel]; [lia|].
    assert (Hs : (n >? 8) = true) by (apply Z.gtb_lt; lia).
    cbn [drop_stale]. rewrite Hs. unfold bind at 1. unfold load at 1.
    cbn [hw_load]. rewrite Hws. cbn [app]. cbv beta iota.
    rewrite (IH fuel (n - 4) rest);
      [|cbn; reflexivity|lia|lia|intros; lia].
    cbn -[Z.mul Z.sub Z.add Z.of_nat]. rewrite <- app_assoc. cbn [app].
    replace (n - 4 - 4 * Z.of_nat (List.length pre))
      with (n - 4 * Z.succ (Z.of_nat (List.length pre))) by lia.
    reflexivity.
Qed.

(** C8: for a SETUP packet for endpoint 0 of more than 8 bytes, lying in
    the FIFO in [ws], the reader reads every word of it, in order, and
    stores the last two of them, [w1] and [w2], into the setup packet: its
    eight bytes are the last eight bytes read.  The data area of the
    buffer is not written, and [ep0out] points to it afterwards. *)
Theorem setup_packet_is_last_two_words (m : machine) grstat ws q pre w1 w2 :
  rxfifo m = (grstat, ws) :: q ->
  Z.land grstat USBFS_GRSTAT_EPNUM_Msk = 0 ->
  Z.land grstat USBFS_GRSTAT_RPCKST_Msk = USBFS_GRSTAT_RPCKST_STP ->
  8 < Z.shiftr (Z.land grstat USBFS_GRSTAT_BCOUNT_Msk) USBFS_GRSTAT_BCOUNT_Pos ->
  Z.of_nat (List.length ws) =
    (Z.shiftr (Z.land grstat USBFS_GRSTAT_BCOUNT_Msk) USBFS_GRSTAT_BCOUNT_Pos + 3) / 4 ->
  ws = pre ++ [w1; w2] ->
  (8 <= List.length (usbfs_outbuf m))%nat ->
  exists m',
    usbfs_handle_rxdata m = Ret tt m' /\
    log m' = log m ++ Load GRSTATP grstat :: map (Load DFIFO0) ws /\
    firstn 8 (usbfs_outbuf m') = le32 w1 ++ le32 w2 /\
    firstn 8 (usbfs_outbuf m') =
      skipn (4 * List.length pre) (flat_map le32 ws) /\
    skipn 8 (usbfs_outbuf m') = skipn 8 (usbfs_outbuf m) /\
    rxfifo m' = q /\
    rxwords m' = [] /\
    ep0out (usbfs_state m') = 8 /\
    bytes (usbfs_state m') = bytes (usbfs_state m).
Proof.
  intros Hrx Hep Hstp Hbig Hwords Hws Hbuf.
  set (n := Z.shiftr (Z.land grstat USBFS_GRSTAT_BCOUNT_Msk)
                     USBFS_GRSTAT_BCOUNT_Pos) in *.
  assert (Hlen : Z.of_nat (List.length pre) + 2 = (n + 3) / 4).
  { rewrite <- Hwords, Hws, length_app, Nat2Z.inj_add. reflexivity. }
  pose proof (Z.div_mod (n + 3) 4 ltac:(lia)) as Hdm.
  pose proof (Z.mod_pos_bound (n + 3) 4 ltac:(lia)) as Hmod.
  unfold usbfs_handle_rxdata. unfold bind at 1. unfold load at 1.
  cbn [hw_load]. rewrite Hrx. cbv beta iota. fold n.
  rewrite Hep, Hstp, !Z.eqb_refl. cbn [negb].
  assert (Hnz : (n =? 0) = false) by (apply Z.eqb_neq; lia).
  rewrite Hnz. unfold bind at 1.
  rewrite (drop_stale_words pre (Z.to_nat n) n [w1; w2]);
    [|cbn; exact Hws|lia|lia|intros _; lia].
  unfold push_ep0out, store_outbuf, set_ep0out, put_state, get_state, bind,
    load.
  cbn -[firstn skipn le32 flat_map store32 inside32 Nat.mul Z.add].
  unfold outbuf_v.
  rewrite (inside32_true (usbfs_outbuf m) 0) by lia.
  cbn -[firstn skipn le32 flat_map store32 inside32 Nat.mul Z.add].
  rewrite inside32_true by (unfold store32; rewrite ?poke_length; lia).
  cbn -[firstn skipn le32 flat_map store32 inside32 Nat.mul Z.add].
  unfold store32.
  eexists. split; [reflexivity|].
  cbn [log usbfs_outbuf usbfs_state rxfifo rxwords ep0out bytes].
  assert (Hfirst : firstn 8 (poke (poke (usbfs_outbuf m) (Z.to_nat 0) (le32 w1))
                               (Z.to_nat (0 + 4)) (le32 w2)) = le32 w1 ++ le32 w2).
  { destruct (usbfs_outbuf m) as [|b0 [|b1 [|b2 [|b3 [|b4 [|b5 [|b6 [|b7 rest]]]]]]]];
      simpl in Hbuf; try lia. reflexivity. }
  split.
  { rewrite <- !app_assoc. cbn [app]. rewrite Hws, map_app. reflexivity. }
  split; [exact Hfirst|]. split.
  { rewrite Hfirst, Hws, flat_map_app.
    rewrite skipn_app.
    assert (Hl : List.length (flat_map le32 pre) = (4 * List.length pre)%nat).
    { clear. induction pre as [|w pre IH]; simpl; lia. }
    rewrite <- Hl, skipn_all, Nat.sub_diag.
    cbn [app skipn flat_map]. now rewrite ?app_nil_r. }
  split.
  { destruct (usbfs_outbuf m) as [|b0 [|b1 [|b2 [|b3 [|b4 [|b5 [|b6 [|b7 rest]]]]]]]];
      simpl in Hbuf; try lia. cbn. destruct rest; reflexivity. }
  repeat split.
Qed.

(** The wait for the end of a FIFO flush returns once the controller
    stops showing the flush in progress. *)
Lemma wait_txff_returns (n : nat) : forall m : machine,
  (flush_busy m <= n)%nat ->
  exists m', wait_txff (S n) m = Ret tt m' /\
             usbfs_state m' = usbfs_state m.
Proof.
  induction n as [|n IH]; intros m Hbusy.
  - assert (H0 : flush_busy m = O) by lia.
    cbn [wait_txff]. unfold bind, load. cbn [hw_load]. rewrite H0.
    assert (Hclear : flag_set (Z.land (regs m GRSTCTL) (Z.lnot USBFS_GRSTCTL_TXFF))
                       USBFS_GRSTCTL_TXFF = false)
      by (unfold flag_set; now rewrite land_lnot_mask).
    rewrite Hclear. eexists. split; reflexivity.
  - cbn [wait_txff]. unfold bind at 1. unfold load at 1. cbn [hw_load].
    destruct (flush_busy m) as [|b] eqn:Hb.
    + assert (Hclear : flag_set (Z.land (regs m GRSTCTL) (Z.lnot USBFS_GRSTCTL_TXFF))
                         USBFS_GRSTCTL_TXFF = false)
        by (unfold flag_set; now rewrite land_lnot_mask).
      rewrite Hclear. eexists. split; reflexivity.
    + destruct (flag_set (Z.lor (regs m GRSTCTL) USBFS_GRSTCTL_TXFF)
                  USBFS_GRSTCTL_TXFF).
      * edestruct IH as (m' & Hrun & Hst); [|exists m'; split; [exact Hrun|]].
        -- cbn. lia.
        -- rewrite Hst. reflexivity.
      * eexists. split; reflexivity.
Qed.

Lemma returns_bind {A C : Type} (c : M A) (k : A -> M C) (P : machine -> Prop) :
  returns c (fun _ => True) -> (forall a, returns (k a) P) ->
  returns (bind c k) P.
Proof.
  intros Hc Hk m. destruct (Hc m) as (a & m1 & Hrun & _).
  unfold bind. rewrite Hrun. apply Hk.
Qed.

Lemma returns_store (r : reg) (v : Z) : returns (store r v) (fun _ => True).
Proof. intros m. do 2 eexists. split; [reflexivity|exact I]. Qed.

Lemma returns_load (r : reg) : returns (load r) (fun _ => True).
Proof.
  intros m. unfold load. destruct (hw_load r m) as [v m1].
  do 2 eexists. split; [reflexivity|exact I].
Qed.

Lemma returns_for_each (eps : list nat) (body : nat -> M unit) :
  (forall i, returns (body i) (fun _ => True)) ->
  returns (for_each eps body) (fun _ => True).
Proof.
  intros Hbody. induction eps as [|i eps IH]; simpl.
  - intros m. do 2 eexists. split; [reflexivity|exact I].
  - apply returns_bind; [apply Hbody|intros _; exact IH].
Qed.

Lemma usbfs_txfifos_flush_returns : returns usbfs_txfifos_flush (fun _ => True).
Proof.
  intros m. unfold usbfs_txfifos_flush, set_bits, get_flush_busy, mtimer_udelay.
  unfold bind at 1 2. destruct (load GRSTCTL m) as [v m1| | |] eqn:Hload;
    [|destruct (returns_load GRSTCTL m) as (? & ? & Hr & _); congruence ..].
  unfold store at 1. unfold bind at 1 2.
  match goal with |- context [wait_txff (S ?n) ?m0] =>
    destruct (wait_txff_returns n m0 (le_n _)) as (m2 & Hrun & _); rewrite Hrun
  end.
  do 2 eexists. split; [reflexivity|exact I].
Qed.

Lemma usbfs_ep_reset_returns : returns usbfs_ep_reset (fun _ => True).
Proof.
  unfold usbfs_ep_reset.
  do 2 (apply returns_bind; [apply returns_store|intros _]).
  apply returns_bind.
  { apply returns_for_each. intros i.
    do 2 (apply returns_bind; [apply returns_store|intros _]).
    apply returns_store. }
  intros _.
  do 2 (apply returns_bind; [apply returns_store|intros _]).
  apply returns_for_each. intros i.
  do 2 (apply returns_bind; [apply returns_store|intros _]).
  apply returns_store.
Qed.

(** The bus reset returns, with the transfer state empty. *)
Lemma usbfs_reset_returns :
  returns usbfs_reset (fun m' => bytes (usbfs_state m') = 0).
Proof.
  unfold usbfs_reset.
  apply returns_bind; [apply usbfs_txfifos_flush_returns|intros _].
  apply returns_bind; [apply usbfs_ep_reset_returns|intros _].
  apply returns_bind.
  { unfold clear_bits. apply returns_bind; [apply returns_load|intros x].
    apply returns_store. }
  intros _.
  do 3 (apply returns_bind; [apply returns_store|intros _]).
  intros m. do 2 eexists. split; reflexivity.
Qed.

End ReceiveProperties.

(** * Further properties of the driver *)

Section HandlerProperties.

Context {R : RegisterMap} {B : DfuBridge}.

Lemma configuration1_length :
  List.length usbfs_descriptor_configuration1 = 27%nat.
Proof. reflexivity. Qed.

Lemma configuration1_total :
  configuration1_wTotalLength = 27.
Proof. reflexivity. Qed.

(** X1: GET_DESCRIPTOR answers a device or configuration descriptor of index 0
    and a string descriptor of an index below 5 and fails with -1, leaving
    [*data] alone, on everything else; the length it reports on success is
    the size of the object it hands out. *)
Theorem get_descriptor_result (p : usb_setup_packet) (data : list Z) (m : machine) :
  exists r d,
    usbfs_handle_get_descriptor p data m = Ret (r, d) m /\
    if ((descriptor_type p =? 1) && (descriptor_index p =? 0)) ||
       ((descriptor_type p =? 2) && (descriptor_index p =? 0)) ||
       ((descriptor_type p =? 3) && (descriptor_index p <? 5))
    then 0 < r /\ r = Z.of_nat (List.length d)
    else r = -1 /\ d = data.
Proof.
  unfold usbfs_handle_get_descriptor, ret, descriptor_type, descriptor_index.
  set (t := u8 (Z.shiftr (wValue p) 8)).
  set (i := u8 (Z.land (wValue p) 255)).
  assert (Hi : 0 <= i) by (apply Z.mod_pos_bound; reflexivity).
  destruct (Z.eqb_spec t 1) as [Ht1|Ht1].
  - unfold usbfs_handle_get_descriptor_device.
    destruct (Z.eqb_spec i 0); simpl; eexists _, _; (split; [reflexivity|]).
    + split; reflexivity.
    + rewrite Ht1. simpl. now split.
  - destruct (Z.eqb_spec t 2) as [Ht2|Ht2].
    + unfold usbfs_handle_get_descriptor_configuration.
      destruct (Z.eqb_spec i 0); simpl; eexists _, _; (split; [reflexivity|]).
      * split; reflexivity.
      * rewrite Ht2. simpl. now split.
    + destruct (Z.eqb_spec t 3) as [Ht3|Ht3].
      * unfold usbfs_handle_get_descriptor_string.
        change (Z.of_nat (List.length usbfs_descriptor_string)) with 5.
        rewrite Z.geb_leb.
        destruct (Z.leb_spec 5 i) as [Hge|Hlt];
          eexists _, _; (split; [reflexivity|]); simpl.
        -- destruct (Z.ltb_spec i 5); [lia|]. now split.
        -- destruct (Z.ltb_spec i 5); [|lia].
           assert (Hc : i = 0 \/ i = 1 \/ i = 2 \/ i = 3 \/ i = 4) by lia.
           destruct Hc as [->|[->|[->|[->| ->]]]]; split; reflexivity.
      * simpl. eexists _, _. split; [reflexivity|]. now split.
Qed.

Lemma get_descriptor_bound (p : usb_setup_packet) (data : list Z) (m : machine) :
  exists r d,
    usbfs_handle_get_descriptor p data m = Ret (r, d) m /\
    (r = -1 /\ d = data \/ 0 <= r <= Z.of_nat (List.length d)).
Proof.
  unfold usbfs_handle_get_descriptor, ret.
  set (i := u8 (Z.land (wValue p) 255)).
  assert (Hi : 0 <= i) by (apply Z.mod_pos_bound; reflexivity).
  destruct (_ =? 1).
  { unfold usbfs_handle_get_descriptor_device.
    destruct (i =? 0); cbn [negb]; eexists _, _; (split; [reflexivity|]);
      [right; cbn; lia | now left]. }
  destruct (_ =? 2).
  { unfold usbfs_handle_get_descriptor_configuration.
    destruct (i =? 0); cbn [negb]; eexists _, _; (split; [reflexivity|]);
      [right; rewrite configuration1_total, configuration1_length; lia
      | now left]. }
  destruct (_ =? 3); [|eexists _, _; split; [reflexivity | now left]].
  unfold usbfs_handle_get_descriptor_string.
  change (Z.of_nat (List.length usbfs_descriptor_string)) with 5.
  rewrite Z.geb_leb.
  destruct (Z.leb_spec 5 i) as [Hge|Hlt];
    eexists _, _; (split; [reflexivity|]); [now left|].
  assert (Hc : i = 0 \/ i = 1 \/ i = 2 \/ i = 3 \/ i = 4) by lia.
  destruct Hc as [->|[->|[->|[->| ->]]]]; right; split; vm_compute;
    discriminate.
Qed.

Lemma request_type_bits (p : usb_setup_packet) :
  Z.land (request p) 0x60 = Z.land (bmRequestType p) 0x60.
Proof.
  unfold request. rewrite Z.land_lor_distr_l.
  assert (H : Z.land (Z.shiftl (bRequest p) 8) 0x60 = 0).
  { apply Z.bits_inj'. intros n Hn.
    rewrite Z.land_spec, Z.bits_0, Z.shiftl_spec by exact Hn.
    destruct (Z.ltb_spec n 8).
    - rewrite Z.testbit_neg_r by lia. reflexivity.
    - change 96 with (96 mod 2 ^ 8).
      rewrite Z.mod_pow2_bits_high by lia. apply andb_false_r. }
  rewrite H. apply Z.lor_0_r.
Qed.

Lemma resolve_in (hs : list usb_setup_handler) p h :
  resolve hs p = Some h -> In h hs /\ req h = request p.
Proof.
  induction hs as [|h0 hs IH]; simpl; [discriminate|].
  unfold code_index_match.
  destruct (Z.eqb_spec (req h0) (request p)) as [Hreq|Hreq]; simpl.
  - destruct ((idx h0 =? 255) || (idx h0 =? u8 (wIndex p))).
    + destruct (negb (len h0 =? 255) && negb (len h0 =? wLength p));
        [discriminate|].
      intros [= <-]. split; [now left | exact Hreq].
    + intros H. destruct (IH H). split; [now right | assumption].
  - intros H. destruct (IH H). split; [now right | assumption].
Qed.

(** X2: A standard request never reaches the class bridge: the dispatch
    returns with the state of the bridge and the reboot flag as they were.
    On success the length it reports does not exceed the size of the object
    it hands out, so the data stage does not read past the object. *)
Theorem standard_request_stays_in_driver (p : usb_setup_packet) (data : list Z)
  (m : machine) :
  standard_request p ->
  exists r d m',
    usbfs_setup_handler_run p data m = Ret (r, d) m' /\
    dfu m' = dfu m /\
    usbfs_reboot_on_ack m' = usbfs_reboot_on_ack m /\
    (r = -1 /\ d = data \/ 0 <= r <= Z.of_nat (List.length d)).
Proof.
  unfold standard_request. intros Hstd.
  rewrite <- request_type_bits in Hstd.
  unfold usbfs_setup_handler_run. rewrite scan_resolve.
  destruct (resolve usbfs_setup_handlers p) as [h|] eqn:Hres.
  2:{ exists (-1), data, m. repeat split. now left. }
  apply resolve_in in Hres. destruct Hres as [Hin Hreq].
  rewrite <- Hreq in Hstd.
  simpl in Hin.
  repeat (destruct Hin as [<-|Hin]; [try (simpl in Hstd; discriminate Hstd)|]);
    try contradiction; clear Hstd Hreq; cbn [fn].
  - eexists _, _, m. split; [reflexivity|]. repeat split.
    right. simpl. lia.
  - unfold usbfs_handle_set_address, bind, load, store, ret. cbn.
    eexists _, _, _. split; [reflexivity|]. cbn. repeat split.
    right. lia.
  - destruct (get_descriptor_bound p data m) as (r & d & Hrun & Hcase).
    exists r, d, m. split; [exact Hrun|]. repeat split. exact Hcase.
  - eexists _, _, m. split; [reflexivity|]. repeat split.
    right. simpl. lia.
  - unfold usbfs_handle_set_configuration.
    destruct (negb _); eexists _, _, m; (split; [reflexivity|]); repeat split;
      [now left | right; lia].
  - eexists _, _, m. split; [reflexivity|]. repeat split. now left.
  - unfold usbfs_handle_set_interface0.
    destruct (negb _); eexists _, _, m; (split; [reflexivity|]); repeat split;
      [now left | right; lia].
Qed.

End HandlerProperties.

Section RequestProperties.

Context {R : RegisterMap} {B : DfuBridge}.

(** X3: The dispatch returns for every setup packet, whatever the handlers of
    the class bridge do, and whichever handler runs leaves the transfer
    engine alone: the cursors and the remaining count, the receive buffer,
    the receive FIFO, every register but [DCFG], and the IN packets armed
    so far. *)
Theorem dispatch_leaves_engine_alone (p : usb_setup_packet) (data : list Z)
  (m : machine) :
  exists r d m1,
    usbfs_setup_handler_run p data m = Ret (r, d) m1 /\
    usbfs_state m1 = usbfs_state m /\
    usbfs_outbuf m1 = usbfs_outbuf m /\
    rxfifo m1 = rxfifo m /\
    rxwords m1 = rxwords m /\
    (forall r, r <> DCFG -> regs m1 r = regs m r) /\
    armed_in (log m1) = armed_in (log m).
Proof.
  destruct (setup_handler_run_ok p data m)
    as (r & d & m1 & Hrun & Hst & Hbuf & _ & Hq & Hw & _ & Hregs & Harm).
  exists r, d, m1. auto 10.
Qed.

(** X4: SET_ADDRESS takes effect at once: handling its setup packet writes the
    address field of [DCFG] before the status stage is armed, leaving the
    other bits of the register as they are, then arms the zero-length IN
    packet of the status stage and the OUT endpoint for SETUP packets. *)
Theorem set_address_request (m : machine) :
  bmRequestType (setup_of (usbfs_outbuf m)) = 0 ->
  bRequest (setup_of (usbfs_outbuf m)) = 5 ->
  u8 (wIndex (setup_of (usbfs_outbuf m))) = 0 ->
  wLength (setup_of (usbfs_outbuf m)) = 0 ->
  exists m',
    usbfs_handle_setup m = Ret tt m' /\
    log m' =
      log m ++
      [Load DCFG (regs m DCFG);
       Store DCFG (Z.lor (Z.land (regs m DCFG) (Z.lnot USBFS_DCFG_DAR_Msk))
                         (USBFS_DCFG_DAR (wValue (setup_of (usbfs_outbuf m)))))] ++
      in_packet_events (regs m) 0 [] ++
      prepare_setup_events (regs m) /\
    regs m' DCFG =
      Z.lor (Z.land (regs m DCFG) (Z.lnot USBFS_DCFG_DAR_Msk))
            (USBFS_DCFG_DAR (wValue (setup_of (usbfs_outbuf m)))) /\
    bytes (usbfs_state m') = 0 /\
    dfu m' = dfu m.
Proof.
  intros Htype Hreq Hidx Hlen.
  set (p := setup_of (usbfs_outbuf m)) in *.
  assert (Hrun : forall m0 : machine,
             usbfs_setup_handler_run p [] m0 = usbfs_handle_set_address p [] m0).
  { intros m0. unfold usbfs_setup_handler_run, usbfs_setup_handlers.
    cbn [setup_handler_scan req idx len fn].
    unfold request. rewrite Htype, Hreq, Hidx, Hlen. reflexivity. }
  unfold usbfs_handle_setup, set_bytes, put_state, get_state, get_setup, bind.
  cbn. fold p. rewrite Htype, Hlen. cbn. rewrite Hrun.
  unfold usbfs_handle_set_address, bind, load, store, ret. cbn.
  unfold usbfs_ep0in_transfer_empty. rewrite ep0in_transfer_run. cbn.
  unfold usbfs_ep0out_prepare_setup, set_bits, bind, load, store. cbn.
  eexists. split; [reflexivity|]. cbn. fold p.
  rewrite <- !app_assoc. repeat split.
Qed.

End RequestProperties.

Section SetupProperties.

Context {R : RegisterMap} {B : DfuBridge}.

Lemma fifo_words_app (a b : list event) :
  fifo_words (a ++ b) = fifo_words a ++ fifo_words b.
Proof.
  induction a as [|e a IH]; simpl; [reflexivity|].
  destruct e as [r v|r v]; [exact IH|].
  destruct r; try exact IH. simpl. now rewrite IH.
Qed.

(** X5: A host-to-device request without a data stage is dispatched when its
    setup packet is handled.  If the handler returns 0 the status stage is
    armed: a zero-length IN packet with no word written to the FIFO; any
    other result stalls the IN endpoint.  Either way the OUT endpoint is
    armed for SETUP packets only and the remaining count is zero. *)
Theorem no_data_request (m : machine) r d m1 :
  flag_set (bmRequestType (setup_of (usbfs_outbuf m))) 0x80 = false ->
  wLength (setup_of (usbfs_outbuf m)) = 0 ->
  usbfs_setup_handler_run (setup_of (usbfs_outbuf m)) [] (with_bytes 0 m) =
    Ret (r, d) m1 ->
  exists m',
    usbfs_handle_setup m = Ret tt m' /\
    bytes (usbfs_state m') = 0 /\
    ep0in (usbfs_state m') = ep0in (usbfs_state m) /\
    dfu m' = dfu m1 /\
    usbfs_reboot_on_ack m' = usbfs_reboot_on_ack m1 /\
    fifo_words (log m') = fifo_words (log m1) /\
    log m' =
      log m1 ++
      (if r =? 0 then in_packet_events (regs m1) 0 [] else stall_events (regs m1)) ++
      prepare_setup_events (regs m1).
Proof.
  intros Hdir Hlen Hrun.
  destruct (setup_handler_run_ok (setup_of (usbfs_outbuf m)) [] (with_bytes 0 m))
    as (r' & d' & m1' & Hrun' & Hst & _).
  rewrite Hrun in Hrun'. injection Hrun' as <- <- <-.
  unfold with_bytes in Hrun, Hst. cbn in Hrun, Hst.
  unfold usbfs_handle_setup, set_bytes, put_state, get_state, get_setup, bind.
  cbn. rewrite Hdir, Hlen. cbn. rewrite Hrun.
  destruct (r =? 0).
  - unfold usbfs_ep0in_transfer_empty. rewrite ep0in_transfer_run.
    rewrite Hst. cbn.
    unfold usbfs_ep0out_prepare_setup, set_bits, bind, load, store. cbn.
    eexists. split; [reflexivity|]. cbn. rewrite Hst. cbn.
    repeat split.
    + rewrite !fifo_words_app. cbn. now rewrite !app_nil_r.
    + now rewrite <- !app_assoc.
  - unfold usbfs_handle_setup_stall, usbfs_ep0in_stall,
      usbfs_ep0out_prepare_setup, set_bits, bind, load, store. cbn.
    eexists. split; [reflexivity|]. cbn. rewrite Hst. cbn.
    repeat split.
    + rewrite !fifo_words_app. cbn. now rewrite !app_nil_r.
    + now rewrite <- !app_assoc.
Qed.
(** X6: A request the table has no rule for, arriving with a device-to-host
    direction or without a data stage, is answered with a stall when its
    setup packet is handled: the IN endpoint is stalled, the OUT endpoint is
    armed for SETUP packets only, and nothing else happens: no handler is
    called, nothing is written to the FIFO and the remaining count is
    zero. *)
Theorem unmatched_request_stalls (m : machine) :
  resolve usbfs_setup_handlers (setup_of (usbfs_outbuf m)) = None ->
  flag_set (bmRequestType (setup_of (usbfs_outbuf m))) 0x80 = true \/
  wLength (setup_of (usbfs_outbuf m)) = 0 ->
  exists m',
    usbfs_handle_setup m = Ret tt m' /\
    log m' = log m ++ stall_events (regs m) ++ prepare_setup_events (regs m) /\
    bytes (usbfs_state m') = 0 /\
    ep0in (usbfs_state m') = ep0in (usbfs_state m) /\
    usbfs_outbuf m' = usbfs_outbuf m /\
    dfu m' = dfu m /\
    usbfs_reboot_on_ack m' = usbfs_reboot_on_ack m.
Proof.
  intros Hres Hcase.
  assert (Hrun : forall m0, usbfs_setup_handler_run (setup_of (usbfs_outbuf m)) [] m0 =
                            Ret (-1, []) m0).
  { intros m0. unfold usbfs_setup_handler_run.
    rewrite scan_resolve, Hres. reflexivity. }
  unfold usbfs_handle_setup, set_bytes, put_state, get_state, get_setup, bind.
  cbn -[usbfs_handle_setup_stall].
  assert (Hstall : forall m0 : machine, exists m',
             usbfs_handle_setup_stall m0 = Ret tt m' /\
             log m' = log m0 ++ stall_events (regs m0) ++
                      prepare_setup_events (regs m0) /\
             usbfs_state m' = usbfs_state m0 /\
             usbfs_outbuf m' = usbfs_outbuf m0 /\
             dfu m' = dfu m0 /\
             usbfs_reboot_on_ack m' = usbfs_reboot_on_ack m0).
  { intros m0.
    unfold usbfs_handle_setup_stall, usbfs_ep0in_stall,
      usbfs_ep0out_prepare_setup, set_bits, bind, load, store. cbn.
    eexists. split; [reflexivity|]. cbn. rewrite <- !app_assoc.
    repeat split. }
  destruct (flag_set (bmRequestType (setup_of (usbfs_outbuf m))) 128) eqn:Hdir.
  - rewrite Hrun. cbn -[usbfs_handle_setup_stall].
    match goal with |- context [usbfs_handle_setup_stall ?m0] =>
      destruct (Hstall m0) as (m' & Hs & Hlog & Hst & Hbuf & Hdfu & Hrb) end.
    exists m'. rewrite Hst. cbn in *. auto 10.
  - destruct Hcase as [Hc|Hc]; [discriminate|].
    rewrite Hc. cbn -[usbfs_handle_setup_stall].
    rewrite Hrun. cbn -[usbfs_handle_setup_stall].
    match goal with |- context [usbfs_handle_setup_stall ?m0] =>
      destruct (Hstall m0) as (m' & Hs & Hlog & Hst & Hbuf & Hdfu & Hrb) end.
    exists m'. rewrite Hst. cbn in *. auto 10.
Qed.

End SetupProperties.

Section PackingProperties.

Lemma lor_shiftl_add (a b k : Z) :
  0 <= k -> 0 <= a < 2 ^ k ->
  Z.lor a (Z.shiftl b k) = a + b * 2 ^ k.
Proof.
  intros Hk Ha.
  assert (Hdisj : Z.land a (Z.shiftl b k) = 0).
  { apply Z.bits_inj'. intros n Hn.
    rewrite Z.land_spec, Z.bits_0, Z.shiftl_spec by exact Hn.
    destruct (Z.ltb_spec n k).
    - rewrite (Z.testbit_neg_r b) by lia. apply andb_false_r.
    - rewrite <- (Z.mod_small a (2 ^ k)) by exact Ha.
      rewrite Z.mod_pow2_bits_high by lia. reflexivity. }
  rewrite <- Z.lxor_lor by exact Hdisj.
  rewrite <- Z.add_nocarry_lxor by exact Hdisj.
  now rewrite Z.shiftl_mul_pow2.
Qed.

Lemma le32_word (b0 b1 b2 b3 : Z) :
  is_byte b0 -> is_byte b1 -> is_byte b2 -> is_byte b3 ->
  le32 (Z.lor (Z.lor (Z.lor b0 (Z.shiftl b1 8)) (Z.shiftl b2 16)) (Z.shiftl b3 24))
  = [b0; b1; b2; b3].
Proof.
  unfold is_byte. intros H0 H1 H2 H3.
  rewrite (lor_shiftl_add b0 b1 8) by lia.
  rewrite (lor_shiftl_add _ b2 16) by lia.
  rewrite (lor_shiftl_add _ b3 24) by lia.
  unfold le32. change 255 with (Z.ones 8).
  rewrite !Z.land_ones, !Z.shiftr_div_pow2 by lia.
  change (2 ^ 8) with 256. change (2 ^ 16) with 65536.
  change (2 ^ 24) with 16777216.
  repeat f_equal; Z.div_mod_to_equations; lia.
Qed.

Lemma is_byte_0 : is_byte 0.
Proof. unfold is_byte. lia. Qed.

Lemma le32_word3 (b0 b1 b2 : Z) :
  is_byte b0 -> is_byte b1 -> is_byte b2 ->
  le32 (Z.lor (Z.lor b0 (Z.shiftl b1 8)) (Z.shiftl b2 16)) = [b0; b1; b2; 0].
Proof.
  intros H0 H1 H2. rewrite <- (le32_word b0 b1 b2 0) by auto using is_byte_0.
  now rewrite Z.shiftl_0_l, Z.lor_0_r.
Qed.

Lemma le32_word2 (b0 b1 : Z) :
  is_byte b0 -> is_byte b1 ->
  le32 (Z.lor b0 (Z.shiftl b1 8)) = [b0; b1; 0; 0].
Proof.
  intros H0 H1. rewrite <- (le32_word3 b0 b1 0) by auto using is_byte_0.
  now rewrite Z.shiftl_0_l, Z.lor_0_r.
Qed.

Lemma le32_word1 (b0 : Z) : is_byte b0 -> le32 b0 = [b0; 0; 0; 0].
Proof.
  intros H0. rewrite <- (le32_word2 b0 0) by auto using is_byte_0.
  now rewrite Z.shiftl_0_l, Z.lor_0_r.
Qed.

Lemma pack_words_ind (P : list Z -> Prop) :
  P [] -> (forall b0, P [b0]) -> (forall b0 b1, P [b0; b1]) ->
  (forall b0 b1 b2, P [b0; b1; b2]) ->
  (forall b0 b1 b2 b3 rest, P rest -> P (b0 :: b1 :: b2 :: b3 :: rest)) ->
  forall bs, P bs.
Proof.
  intros H0 H1 H2 H3 H4.
  enough (H : forall n bs, (List.length bs <= n)%nat -> P bs)
    by (intros bs; now apply (H (List.length bs))).
  induction n as [|n IH]; intros [|b0 [|b1 [|b2 [|b3 rest]]]] Hlen;
    simpl in Hlen; auto; try lia.
  apply H4, IH. lia.
Qed.

(** Read back as little-endian bytes, the words [usbfs_ep0in_transfer]
    packs are the bytes it has read, followed by at most three zeros. *)
Lemma pack_words_decode (bs : list Z) :
  Forall is_byte bs ->
  firstn (List.length bs) (flat_map le32 (pack_words bs)) = bs.
Proof.
  induction bs as [|b0|b0 b1|b0 b1 b2|b0 b1 b2 b3 rest IH] using pack_words_ind;
    intros Hb.
  - reflexivity.
  - inversion_clear Hb. cbn [pack_words flat_map].
    rewrite le32_word1 by assumption. reflexivity.
  - inversion_clear Hb as [|? ? ? Hb']. inversion_clear Hb'.
    cbn [pack_words flat_map]. rewrite le32_word2 by assumption. reflexivity.
  - inversion_clear Hb as [|? ? ? Hb']. inversion_clear Hb' as [|? ? ? Hb''].
    inversion_clear Hb''.
    cbn [pack_words flat_map]. rewrite le32_word3 by assumption. reflexivity.
  - inversion_clear Hb as [|? ? ? Hb']. inversion_clear Hb' as [|? ? ? Hb''].
    inversion_clear Hb'' as [|? ? ? Hb']. inversion_clear Hb'.
    cbn [pack_words flat_map]. rewrite le32_word by assumption.
    cbn [List.length app firstn]. rewrite IH by assumption. reflexivity.
Qed.

Lemma pack_words_exact (bs : list Z) :
  Forall is_byte bs ->
  (List.length bs mod 4 = 0)%nat ->
  flat_map le32 (pack_words bs) = bs.
Proof.
  induction bs as [|b0|b0 b1|b0 b1 b2|b0 b1 b2 b3 rest IH] using pack_words_ind;
    intros Hb Hlen; try reflexivity; try discriminate Hlen.
  inversion_clear Hb as [|? ? ? Hb']. inversion_clear Hb' as [|? ? ? Hb''].
  inversion_clear Hb'' as [|? ? ? Hb']. inversion_clear Hb'.
  cbn [pack_words flat_map]. rewrite le32_word by assumption.
  cbn [app]. rewrite IH; [reflexivity | assumption |].
  cbn [List.length] in Hlen.
  change (S (S (S (S (List.length rest))))) with (4 + List.length rest)%nat in Hlen.
  replace (4 + List.length rest)%nat with (List.length rest + 1 * 4)%nat
    in Hlen by lia.
  now rewrite Nat.Div0.mod_add in Hlen.
Qed.

Lemma pack_words_length (bs : list Z) :
  List.length (pack_words bs) = ((List.length bs + 3) / 4)%nat.
Proof.
  induction bs as [|b0|b0 b1|b0 b1 b2|b0 b1 b2 b3 rest IH] using pack_words_ind;
    try reflexivity.
  cbn [pack_words List.length]. rewrite IH.
  replace (S (S (S (S (List.length rest)))) + 3)%nat
    with ((List.length rest + 3) + 1 * 4)%nat by lia.
  rewrite Nat.div_add by lia. lia.
Qed.

Lemma read_bytes_firstn (n : nat) : forall p : list Z,
  (n <= List.length p)%nat -> read_bytes n p = firstn n p.
Proof.
  induction n as [|n IH]; intros [|b p] Hlen; simpl in *; try reflexivity;
    try lia.
  f_equal. apply IH. lia.
Qed.

Lemma fifo_words_stores (ws : list Z) :
  fifo_words (map (Store DFIFO0) ws) = ws.
Proof. induction ws as [|w ws IH]; simpl; [reflexivity | now rewrite IH]. Qed.

Lemma is_byte_firstn (n : nat) (p : list Z) :
  Forall is_byte p -> Forall is_byte (firstn n p).
Proof.
  intros H. apply Forall_forall. intros x Hx.
  rewrite Forall_forall in H. apply H.
  rewrite <- (firstn_skipn n p). apply in_or_app. now left.
Qed.

Lemma is_byte_skipn (n : nat) (p : list Z) :
  Forall is_byte p -> Forall is_byte (skipn n p).
Proof.
  intros H. apply Forall_forall. intros x Hx.
  rewrite Forall_forall in H. apply H.
  rewrite <- (firstn_skipn n p). apply in_or_app. now right.
Qed.

Lemma firstn_add_skipn {A : Type} (a b : nat) : forall l : list A,
  firstn (a + b) l = firstn a l ++ firstn b (skipn a l).
Proof.
  induction a as [|a IH]; intros [|x l]; simpl; try reflexivity.
  - now rewrite firstn_nil.
  - now rewrite IH.
Qed.

Lemma is_byte_check (bs : list Z) :
  forallb (fun b => (0 <=? b) && (b <? 256)) bs = true -> Forall is_byte bs.
Proof.
  intros H. apply Forall_forall. intros b Hin.
  rewrite forallb_forall in H. specialize (H b Hin).
  apply andb_prop in H. destruct H as [H0 H1].
  apply Z.leb_le in H0. apply Z.ltb_lt in H1. split; assumption.
Qed.

End PackingProperties.

Section TransmitProperties.

Context {R : RegisterMap} {B : DfuBridge}.

(** X9: [usbfs_ep0in_transfer] programs a packet of min(remaining, 64) bytes
    and writes it to the FIFO in words: a quarter as many, rounded up,
    which read back as little-endian bytes are the bytes at [ep0in]; a
    packet of no bytes writes no word.  The cursor and the remaining count
    stay as they are. *)
Theorem ep0in_transfer_fifo_round_trip (m : machine) :
  0 <= bytes (usbfs_state m) ->
  Forall is_byte (ep0in (usbfs_state m)) ->
  Z.min (bytes (usbfs_state m)) 64 <= Z.of_nat (List.length (ep0in (usbfs_state m))) ->
  exists m' ws,
    usbfs_ep0in_transfer m = Ret tt m' /\
    usbfs_state m' = usbfs_state m /\
    regs m' (DIEP_LEN 0) =
      Z.lor (USBFS_DIEPLEN_PCNT 1) (Z.min (bytes (usbfs_state m)) 64) /\
    fifo_words (log m') = fifo_words (log m) ++ ws /\
    Z.of_nat (List.length ws) = (Z.min (bytes (usbfs_state m)) 64 + 3) / 4 /\
    firstn (Z.to_nat (Z.min (bytes (usbfs_state m)) 64)) (flat_map le32 ws) =
    firstn (Z.to_nat (Z.min (bytes (usbfs_state m)) 64)) (ep0in (usbfs_state m)).
Proof.
  intros Hpos Hbytes Hlen.
  rewrite ep0in_transfer_run. rewrite min_gtb.
  set (n := Z.min (bytes (usbfs_state m)) 64) in *.
  exists (set_log (log m ++ in_packet_events (regs m) n (ep0in (usbfs_state m)))
       (set_regs
          (upd (DIEP_CTL 0)
             (Z.lor (regs m (DIEP_CTL 0))
                    (Z.lor USBFS_DIEPCTL_EPEN USBFS_DIEPCTL_CNAK))
             (upd (DIEP_LEN 0) (Z.lor (USBFS_DIEPLEN_PCNT 1) n) (regs m))) m)),
    (pack_words (firstn (Z.to_nat n) (ep0in (usbfs_state m)))).
  split; [reflexivity|]. cbn.
  split; [reflexivity|]. split; [reflexivity|].
  assert (Hn : (Z.to_nat n <= List.length (ep0in (usbfs_state m)))%nat) by lia.
  assert (Hl : List.length (firstn (Z.to_nat n) (ep0in (usbfs_state m))) = Z.to_nat n)
    by (rewrite length_firstn; lia).
  split; [|split].
  - unfold in_packet_events. rewrite !fifo_words_app. cbn [fifo_words app].
    now rewrite fifo_words_stores, read_bytes_firstn.
  - rewrite pack_words_length, Hl.
    rewrite Nat2Z.inj_div. f_equal. lia.
  - rewrite <- Hl at 1. rewrite pack_words_decode by now apply is_byte_firstn.
    reflexivity.
Qed.

(** The words of a packet of min(n, 64) bytes from [p], followed by words
    that carry the [n - 64] bytes after it, carry the [n] bytes at [p]. *)
Lemma packets_combine (n : Z) (p ws : list Z) :
  0 < n -> n <= Z.of_nat (List.length p) -> Forall is_byte p ->
  (if n >? 64 then carries (n - 64) (skipn 64 p) ws else ws = []) ->
  carries n p (pack_words (read_bytes (Z.to_nat (Z.min n 64)) p) ++ ws).
Proof.
  intros Hpos Hlen Hb Hrest.
  rewrite read_bytes_firstn by lia.
  assert (Hl : List.length (firstn (Z.to_nat (Z.min n 64)) p) =
               Z.to_nat (Z.min n 64)) by (rewrite length_firstn; lia).
  destruct (Z.gtb_spec n 64) as [Hbig|Hsmall].
  - destruct Hrest as [Hcount Hdata]. unfold carries.
    rewrite Z.min_r in * by lia.
    change (Z.to_nat 64) with 64%nat in *.
    rewrite length_app, pack_words_length, Hl, flat_map_app.
    rewrite pack_words_exact; [|now apply is_byte_firstn | now rewrite Hl].
    split.
    + rewrite Nat2Z.inj_add, Hcount. change (Z.of_nat ((64 + 3) / 4)) with 16.
      Z.div_mod_to_equations. lia.
    + replace (Z.to_nat n) with (64 + Z.to_nat (n - 64))%nat by lia.
      rewrite (firstn_add_skipn 64 _ p), firstn_app, Hl.
      replace (64 + Z.to_nat (n - 64) - 64)%nat with (Z.to_nat (n - 64)) by lia.
      rewrite Hdata. f_equal.
      apply firstn_all2. rewrite Hl. lia.
  - subst ws. rewrite app_nil_r. rewrite Z.min_l in * by lia.
    unfold carries. split.
    + rewrite pack_words_length, Hl, Nat2Z.inj_div. f_equal. lia.
    + rewrite <- Hl at 1. rewrite pack_words_decode by now apply is_byte_firstn.
      reflexivity.
Qed.

Lemma in_complete_words (m : machine) :
  USBFS_DIEPINTF_TF <> 0 ->
  bytes (usbfs_state m) <> 0 ->
  exists m',
    usbfs_handle_ep0 (hw_in_complete m) = Ret tt m' /\
    if bytes (usbfs_state m) >? 64 then
      bytes (usbfs_state m') = bytes (usbfs_state m) - 64 /\
      ep0in (usbfs_state m') = skipn 64 (ep0in (usbfs_state m)) /\
      fifo_words (log m') =
        fifo_words (log m) ++
        pack_words (read_bytes (Z.to_nat (Z.min (bytes (usbfs_state m) - 64) 64))
                      (skipn 64 (ep0in (usbfs_state m))))
    else
      bytes (usbfs_state m') = 0 /\
      fifo_words (log m') = fifo_words (log m).
Proof.
  intros Htf Hbytes.
  unfold usbfs_handle_ep0, hw_in_complete, set_bytes, set_ep0in, put_state,
    get_state, bind, load, store. cbn.
  rewrite ?flag_set_zero, (flag_set_self _ Htf).
  apply Z.eqb_neq in Hbytes. rewrite Hbytes.
  destruct (bytes (usbfs_state m) >? 64) eqn:Hbig.
  - rewrite ep0in_transfer_run. cbn. rewrite min_gtb.
    eexists. split; [reflexivity|]. cbn. repeat split.
    unfold in_packet_events.
    rewrite <- !app_assoc, !fifo_words_app. cbn [fifo_words app].
    now rewrite fifo_words_stores.
  - eexists. split; [reflexivity|]. cbn. repeat split.
    rewrite <- !app_assoc, !fifo_words_app. cbn. now rewrite app_nil_r.
Qed.

Lemma in_stage_words (fuel : nat) : forall (n : Z) (m : machine),
  USBFS_DIEPINTF_TF <> 0 ->
  bytes (usbfs_state m) = n -> 0 < n -> n <= 64 * Z.of_nat fuel ->
  n <= Z.of_nat (List.length (ep0in (usbfs_state m))) ->
  Forall is_byte (ep0in (usbfs_state m)) ->
  exists m' ws,
    in_stage (List.length (chunks fuel n)) m = Ret tt m' /\
    fifo_words (log m') = fifo_words (log m) ++ ws /\
    if n >? 64 then carries (n - 64) (skipn 64 (ep0in (usbfs_state m))) ws
    else ws = [].
Proof.
  induction fuel as [|fuel IH]; intros n m Htf Hb Hpos Hfuel Hlen Hbytes; [lia|].
  destruct (in_complete_words m Htf) as (m1 & Hrun & Hstep); [lia|].
  rewrite Hb in Hstep.
  cbn [chunks]. destruct (n >? 64) eqn:Hbig.
  - destruct Hstep as (Hb1 & Hp1 & Hw1).
    apply Z.gtb_lt in Hbig.
    assert (Hlen1 : n - 64 <= Z.of_nat (List.length (ep0in (usbfs_state m1)))).
    { rewrite Hp1, length_skipn. lia. }
    assert (Hbytes1 : Forall is_byte (ep0in (usbfs_state m1)))
      by (rewrite Hp1; now apply is_byte_skipn).
    destruct (IH (n - 64) m1 Htf Hb1) as (m' & ws & Hrun' & Hw' & Hrest);
      [lia | lia | exact Hlen1 | exact Hbytes1 |].
    cbn [List.length in_stage]. rewrite Hrun.
    eexists m', _. split; [exact Hrun'|].
    split; [rewrite Hw', Hw1, <- app_assoc; reflexivity|].
    rewrite Hp1 in Hrest, Hlen1, Hbytes1.
    now apply packets_combine; [lia | | |].
  - destruct Hstep as (Hb1 & Hw1).
    cbn [List.length in_stage]. rewrite Hrun.
    exists m1, []. split; [reflexivity|]. now rewrite app_nil_r.
Qed.

(** X10: The IN data stage sends the object: over the setup stage and the IN
    completions that follow it, the words written to the FIFO, read back as
    little-endian bytes, are the first [n] bytes of the object the handler
    has handed out, [n] being the lesser of its result and [wLength];
    there are a quarter as many words as bytes, rounded up. *)
Theorem in_data_stage_sends_object (m : machine) r d m1 :
  flag_set (bmRequestType (setup_of (usbfs_outbuf m))) 0x80 = true ->
  usbfs_setup_handler_run (setup_of (usbfs_outbuf m)) [] (with_bytes 0 m) =
    Ret (r, d) m1 ->
  USBFS_DIEPINTF_TF <> 0 ->
  0 < Z.min r (wLength (setup_of (usbfs_outbuf m))) ->
  Z.min r (wLength (setup_of (usbfs_outbuf m))) <= Z.of_nat (List.length d) ->
  Forall is_byte d ->
  exists m' ws,
    in_data_stage
      (List.length (in_packets (Z.min r (wLength (setup_of (usbfs_outbuf m))))))
      m = Ret tt m' /\
    fifo_words (log m') = fifo_words (log m1) ++ ws /\
    carries (Z.min r (wLength (setup_of (usbfs_outbuf m)))) d ws.
Proof.
  intros Hdir Hrun Htf Hpos Hlen Hbytes.
  set (n := Z.min r (wLength (setup_of (usbfs_outbuf m)))) in *.
  destruct (handle_setup_in_run m r d m1 Hdir Hrun)
    as (m0 & Hsetup & Hb0 & Hp0 & _ & _ & Hlog0); [lia|].
  fold n in Hb0, Hlog0.
  assert (Hdiv : 0 <= n / 64) by (apply Z.div_pos; lia).
  pose proof (Z.div_mod n 64 ltac:(lia)) as Hdm.
  pose proof (Z.mod_pos_bound n 64 ltac:(lia)) as Hmod.
  destruct (in_stage_words (S (Z.to_nat (n / 64))) n m0 Htf Hb0 Hpos)
    as (m' & ws & Hstage & Hw & Hrest).
  { rewrite Nat2Z.inj_succ, Z2Nat.id by lia. lia. }
  { now rewrite Hp0. }
  { now rewrite Hp0. }
  rewrite Hp0 in Hrest.
  exists m', (pack_words (read_bytes (Z.to_nat (Z.min n 64)) d) ++ ws).
  split.
  { unfold in_data_stage. rewrite Hsetup. exact Hstage. }
  split.
  { rewrite Hw, Hlog0. unfold in_packet_events.
    rewrite !fifo_words_app. cbn [fifo_words app].
    rewrite fifo_words_stores. cbn [fifo_words]. rewrite app_nil_r.
    now rewrite <- app_assoc. }
  now apply packets_combine.
Qed.

End TransmitProperties.

Section StatusProperties.

Context {R : RegisterMap} {B : DfuBridge}.

(** X7: A device-to-host request whose handler fails is answered with a stall:
    the IN endpoint is stalled and the OUT endpoint armed for SETUP packets
    only; no IN packet is armed, nothing is written to the FIFO, and the
    remaining count is zero with the IN cursor where it was. *)
Theorem failed_in_request_stalls (m : machine) r d m1 :
  flag_set (bmRequestType (setup_of (usbfs_outbuf m))) 0x80 = true ->
  usbfs_setup_handler_run (setup_of (usbfs_outbuf m)) [] (with_bytes 0 m) =
    Ret (r, d) m1 ->
  r < 0 ->
  exists m',
    usbfs_handle_setup m = Ret tt m' /\
    log m' = log m1 ++ stall_events (regs m1) ++ prepare_setup_events (regs m1) /\
    bytes (usbfs_state m') = 0 /\
    ep0in (usbfs_state m') = ep0in (usbfs_state m) /\
    dfu m' = dfu m1 /\
    usbfs_reboot_on_ack m' = usbfs_reboot_on_ack m1.
Proof.
  intros Hdir Hrun Hneg.
  destruct (setup_handler_run_ok (setup_of (usbfs_outbuf m)) [] (with_bytes 0 m))
    as (r' & d' & m1' & Hrun' & Hst & _).
  rewrite Hrun in Hrun'. injection Hrun' as <- <- <-.
  unfold with_bytes in Hrun, Hst. cbn in Hrun, Hst.
  unfold usbfs_handle_setup, set_bytes, put_state, get_state, get_setup, bind.
  cbn. rewrite Hdir, Hrun.
  assert (Hge : (r >=? 0) = false) by (rewrite Z.geb_leb; apply Z.leb_gt; lia).
  rewrite Hge.
  unfold usbfs_handle_setup_stall, usbfs_ep0in_stall,
    usbfs_ep0out_prepare_setup, set_bits, bind, load, store. cbn.
  eexists. split; [reflexivity|]. cbn. rewrite Hst. cbn.
  rewrite <- !app_assoc. repeat split.
Qed.

(** X8: A device-to-host request that has nothing to send, because the handler
    returns 0 or [wLength] is 0, still gets a data stage: one zero-length
    IN packet is armed, with no word written to the FIFO, and the OUT
    endpoint is armed for the status stage. *)
Theorem empty_in_data_stage (m : machine) r d m1 :
  flag_set (bmRequestType (setup_of (usbfs_outbuf m))) 0x80 = true ->
  usbfs_setup_handler_run (setup_of (usbfs_outbuf m)) [] (with_bytes 0 m) =
    Ret (r, d) m1 ->
  0 <= r ->
  Z.min r (wLength (setup_of (usbfs_outbuf m))) = 0 ->
  exists m',
    usbfs_handle_setup m = Ret tt m' /\
    bytes (usbfs_state m') = 0 /\
    armed_in (log m') = armed_in (log m) ++ [Z.lor (USBFS_DIEPLEN_PCNT 1) 0] /\
    fifo_words (log m') = fifo_words (log m1) /\
    log m' = log m1 ++ in_packet_events (regs m1) 0 [] ++
             prepare_out_events (regs m1).
Proof.
  intros Hdir Hrun Hr Hzero.
  destruct (setup_handler_run_ok (setup_of (usbfs_outbuf m)) [] (with_bytes 0 m))
    as (r' & d' & m1' & Hrun' & _ & _ & _ & _ & _ & _ & _ & Harm).
  rewrite Hrun in Hrun'. injection Hrun' as <- <- <-.
  destruct (handle_setup_in_run m r d m1 Hdir Hrun Hr)
    as (m' & Hsetup & Hb & _ & _ & _ & Hlog).
  rewrite Hzero in Hb, Hlog. change (Z.min 0 64) with 0 in Hlog.
  exists m'. split; [exact Hsetup|]. split; [exact Hb|].
  unfold in_packet_events in Hlog |- *. cbn [Z.to_nat read_bytes pack_words map] in *.
  rewrite Hlog. rewrite !armed_in_app, !fifo_words_app, Harm. cbn.
  rewrite !app_nil_r. repeat split.
Qed.

Lemma handle_setup_keeps_flags (m : machine) :
  exists m',
    usbfs_handle_setup m = Ret tt m' /\
    regs m' (DOEP_INTF 0) = regs m (DOEP_INTF 0) /\
    regs m' (DIEP_INTF 0) = regs m (DIEP_INTF 0).
Proof.
  assert (Hstall : forall m0 : machine, exists m',
             usbfs_handle_setup_stall m0 = Ret tt m' /\
             regs m' (DOEP_INTF 0) = regs m0 (DOEP_INTF 0) /\
             regs m' (DIEP_INTF 0) = regs m0 (DIEP_INTF 0)).
  { intros m0.
    unfold usbfs_handle_setup_stall, usbfs_ep0in_stall,
      usbfs_ep0out_prepare_setup, set_bits, bind, load, store. cbn.
    eexists. split; [reflexivity|]. cbn. split; reflexivity. }
  assert (Hout : forall m0 : machine, exists m',
             usbfs_ep0out_prepare_out m0 = Ret tt m' /\
             usbfs_state m' = usbfs_state m0 /\
             regs m' (DOEP_INTF 0) = regs m0 (DOEP_INTF 0) /\
             regs m' (DIEP_INTF 0) = regs m0 (DIEP_INTF 0)).
  { intros m0. unfold usbfs_ep0out_prepare_out, set_bits, bind, load, store.
    cbn. eexists. split; [reflexivity|]. cbn. repeat split. }
  assert (Hset : forall m0 : machine, exists m',
             usbfs_ep0out_prepare_setup m0 = Ret tt m' /\
             regs m' (DOEP_INTF 0) = regs m0 (DOEP_INTF 0) /\
             regs m' (DIEP_INTF 0) = regs m0 (DIEP_INTF 0)).
  { intros m0. unfold usbfs_ep0out_prepare_setup, set_bits, bind, load, store.
    cbn. eexists. split; [reflexivity|]. cbn. split; reflexivity. }
  unfold usbfs_handle_setup, set_bytes, set_ep0in, put_state, get_state,
    get_setup, usbfs_ep0in_transfer_empty.
  unfold bind at 1 2 3. cbn -[usbfs_handle_setup_stall usbfs_ep0out_prepare_out
                              usbfs_ep0out_prepare_setup].
  match goal with |- exists m', _ ?m0 = _ /\ _ =>
    destruct (setup_handler_run_ok (setup_of (usbfs_outbuf m)) [] m0)
      as (r & d & m1 & Hrun & _ & _ & _ & _ & _ & _ & Hregs & _)
  end.
  cbn in Hregs.
  pose proof (Hregs (DOEP_INTF 0) ltac:(discriminate)) as Ho.
  pose proof (Hregs (DIEP_INTF 0) ltac:(discriminate)) as Hi.
  destruct (flag_set _ 128).
  - unfold bind at 1. rewrite Hrun.
    destruct (r >=? 0).
    + unfold bind. cbn -[usbfs_ep0out_prepare_out].
      rewrite ep0in_transfer_run.
      match goal with |- context [usbfs_ep0out_prepare_out ?m0] =>
        destruct (Hout m0) as (m' & Hm' & _ & Ho' & Hi')
      end.
      exists m'. split; [exact Hm'|]. cbn in Ho', Hi'.
      rewrite Ho', Hi'. split; assumption.
    + destruct (Hstall m1) as (m' & Hm' & Ho' & Hi').
      exists m'. split; [exact Hm'|]. rewrite Ho', Hi'. split; assumption.
  - destruct (_ =? 0).
    + unfold bind at 1. rewrite Hrun.
      destruct (r =? 0).
      * unfold bind at 1. rewrite ep0in_transfer_run.
        match goal with |- context [usbfs_ep0out_prepare_setup ?m0] =>
          destruct (Hset m0) as (m' & Hm' & Ho' & Hi')
        end.
        exists m'. split; [exact Hm'|]. cbn in Ho', Hi'.
        rewrite Ho', Hi'. split; assumption.
      * destruct (Hstall m1) as (m' & Hm' & Ho' & Hi').
        exists m'. split; [exact Hm'|]. rewrite Ho', Hi'. split; assumption.
    + destruct (_ <=? _).
      * unfold bind at 1.
        match goal with |- context [usbfs_ep0out_prepare_out ?m0] =>
          destruct (Hout m0) as (m' & Hm' & _ & Ho' & Hi'); rewrite Hm'
        end.
        unfold bind. eexists. split; [reflexivity|]. cbn.
        rewrite Ho', Hi'. split; reflexivity.
      * match goal with |- context [usbfs_handle_setup_stall ?m0] =>
          destruct (Hstall m0) as (m' & Hm' & Ho' & Hi')
        end.
        exists m'. split; [exact Hm'|]. rewrite Ho', Hi'. split; reflexivity.
Qed.

(** X12: Every endpoint 0 event that is handled to the end acknowledges the
    flags it has found: whichever path the handler takes, the interrupt
    flag registers of both directions of endpoint 0 read zero when it
    returns. *)
Theorem ep0_event_acknowledges_flags (m m' : machine) :
  usbfs_handle_ep0 m = Ret tt m' ->
  regs m' (DOEP_INTF 0) = 0 /\ regs m' (DIEP_INTF 0) = 0.
Proof.
  unfold usbfs_handle_ep0.
  unfold bind at 1 2 3 4. unfold load at 1 2. unfold store at 1 2.
  cbn -[usbfs_handle_setup]. rewrite !Z.land_lnot_diag.
  destruct (flag_set (regs m (DOEP_INTF 0)) USBFS_DOEPINTF_STPF).
  { intros Hrun.
    match type of Hrun with usbfs_handle_setup ?m0 = _ =>
      destruct (handle_setup_keeps_flags m0) as (m2 & Hm2 & Ho & Hi)
    end.
    rewrite Hm2 in Hrun. injection Hrun as <-. cbn in Ho, Hi. auto. }
  unfold get_state. unfold bind at 1.
  cbn -[Z.sub].
  destruct (Z.eqb_spec (bytes (usbfs_state m)) 0) as [Hz|Hnz].
  { unfold get_reboot_on_ack, bind, system_reset, store, ret. cbn.
    destruct (usbfs_reboot_on_ack m); [discriminate|].
    intros [= <-]. cbn. auto. }
  destruct (flag_set (regs m (DIEP_INTF 0)) USBFS_DIEPINTF_TF).
  { destruct (_ >? 64).
    - unfold set_ep0in, set_bytes, put_state, get_state, bind. cbn -[Z.sub].
      rewrite ep0in_transfer_run. intros [= <-]. cbn. auto.
    - unfold set_bytes, put_state, get_state, bind. cbn.
      intros [= <-]. cbn. auto. }
  destruct (flag_set (regs m (DOEP_INTF 0)) USBFS_DOEPINTF_TF).
  2:{ intros [= <-]. cbn. auto. }
  unfold bind at 1. unfold load at 1. cbn -[Z.sub].
  unfold bind at 1. cbn -[Z.sub].
  destruct (_ >? _).
  - unfold usbfs_ep0out_prepare_out, set_bytes, set_bits, put_state, get_state,
      bind, load, store. cbn -[Z.sub]. intros [= <-]. cbn. auto.
  - unfold get_outbuf_data, set_bytes, put_state, get_state, get_setup.
    unfold bind at 1 2 3 4 5. cbn -[Z.sub].
    match goal with |- context [usbfs_setup_handler_run ?p ?d0 ?m0] =>
      destruct (setup_handler_run_ok p d0 m0)
        as (r & d & m1 & Hrun & _ & _ & _ & _ & _ & _ & Hregs & _)
    end.
    cbn in Hregs.
    pose proof (Hregs (DOEP_INTF 0) ltac:(discriminate)) as Ho.
    pose proof (Hregs (DIEP_INTF 0) ltac:(discriminate)) as Hi.
    unfold bind at 1. rewrite Hrun.
    unfold usbfs_ep0in_transfer_empty, usbfs_ep0in_stall,
      usbfs_ep0out_prepare_setup, set_bits.
    destruct (r =? 0).
    + unfold bind at 1. rewrite ep0in_transfer_run.
      unfold bind, load, store. cbn -[Z.sub]. intros [= <-]. cbn. auto.
    + unfold bind, load, store. cbn -[Z.sub]. intros [= <-]. cbn. auto.
Qed.

(** X15: The setup packet as the driver sees it through the union with [v[2]]:
    of the two words read from the FIFO, the first holds [bmRequestType]
    in its lowest byte, [bRequest] in the next and [wValue] in its upper
    half, the second [wIndex] in its lower and [wLength] in its upper
    half. *)
Theorem setup_packet_fields_of_words (mem : list Z) (w0 w1 : Z) :
  firstn 8 mem = le32 w0 ++ le32 w1 ->
  0 <= w0 < 2 ^ 32 -> 0 <= w1 < 2 ^ 32 ->
  setup_of mem =
  {| bmRequestType := w0 mod 256;
     bRequest := (w0 / 256) mod 256;
     wValue := w0 / 65536;
     wIndex := w1 mod 65536;
     wLength := w1 / 65536 |}.
Proof.
  intros Hmem H0 H1.
  assert (Hnth : forall i, (i < 8)%nat ->
             byte_at mem i = nth i (le32 w0 ++ le32 w1) 0).
  { intros i Hi. unfold byte_at. rewrite <- Hmem.
    rewrite <- (firstn_skipn 8 mem) at 1.
    apply app_nth1.
    assert (Hlen : List.length (firstn 8 mem) = 8%nat)
      by (rewrite Hmem; reflexivity).
    lia. }
  assert (Hhalf : forall w, 0 <= w < 2 ^ 32 ->
            Z.lor (Z.land w 255) (Z.shiftl (Z.land (Z.shiftr w 8) 255) 8) =
              w mod 65536 /\
            Z.lor (Z.land (Z.shiftr w 16) 255)
                  (Z.shiftl (Z.land (Z.shiftr w 24) 255) 8) = w / 65536).
  { intros w Hw. change 255 with (Z.ones 8).
    rewrite !Z.land_ones, !Z.shiftr_div_pow2 by lia.
    change (2 ^ 32) with 4294967296 in Hw.
    change (2 ^ 8) with 256. change (2 ^ 16) with 65536.
    change (2 ^ 24) with 16777216.
    split; (rewrite lor_shiftl_add;
            [| lia | change (2 ^ 8) with 256; apply Z.mod_pos_bound; lia]);
      change (2 ^ 8) with 256; Z.div_mod_to_equations; lia. }
  unfold setup_of, half_at.
  rewrite !Hnth by lia. cbn [le32 app nth].
  destruct (Hhalf w0 H0) as [_ Hv]. destruct (Hhalf w1 H1) as [Hi Hl].
  rewrite Hv, Hi, Hl.
  change 255 with (Z.ones 8).
  rewrite !Z.land_ones, !Z.shiftr_div_pow2 by lia.
  reflexivity.
Qed.

End StatusProperties.

Section ReceptionProperties.

Context {R : RegisterMap} {B : DfuBridge}.

(** X13: A packet for another endpoint than 0, or of no bytes, is taken from
    the receive FIFO and ignored: its status is popped, no word is read
    from the FIFO data port, and the driver's state and buffer stay as they
    are. *)
Theorem rxdata_ignores_foreign_and_empty (m : machine) grstat ws q :
  rxfifo m = (grstat, ws) :: q ->
  Z.land grstat USBFS_GRSTAT_EPNUM_Msk <> 0 \/
  Z.shiftr (Z.land grstat USBFS_GRSTAT_BCOUNT_Msk) USBFS_GRSTAT_BCOUNT_Pos = 0 ->
  exists m',
    usbfs_handle_rxdata m = Ret tt m' /\
    log m' = log m ++ [Load GRSTATP grstat] /\
    rxfifo m' = q /\
    usbfs_state m' = usbfs_state m /\
    usbfs_outbuf m' = usbfs_outbuf m /\
    regs m' = regs m /\
    dfu m' = dfu m.
Proof.
  intros Hrx Hcase.
  unfold usbfs_handle_rxdata. unfold bind at 1. unfold load at 1.
  cbn [hw_load]. rewrite Hrx. cbv beta iota.
  destruct (Z.eqb_spec (Z.land grstat USBFS_GRSTAT_EPNUM_Msk) 0) as [Hep|Hep];
    cbn [negb].
  - destruct Hcase as [Hc|Hc]; [contradiction|].
    rewrite Hc. cbn. eexists. split; [reflexivity|]. cbn. repeat split.
  - eexists. split; [reflexivity|]. cbn. repeat split.
Qed.

Lemma poke_splice (mem : list Z) : forall (i : nat) (bs : list Z),
  (i + List.length bs <= List.length mem)%nat ->
  poke mem i bs = firstn i mem ++ bs ++ skipn (i + List.length bs) mem.
Proof.
  induction mem as [|x mem IH]; intros i bs Hlen.
  - destruct i, bs; simpl in *; try reflexivity; lia.
  - destruct i as [|i].
    + destruct bs as [|b bs]; [reflexivity|].
      simpl in *. f_equal. apply (IH O bs). lia.
    + simpl in *. f_equal. apply IH. lia.
Qed.

Lemma flat_le32_length (ws : list Z) :
  List.length (flat_map le32 ws) = (4 * List.length ws)%nat.
Proof. induction ws as [|w ws IH]; simpl; lia. Qed.

(** Storing a word in front of a spliced-in run of bytes. *)
Lemma splice_step (mem : list Z) (i : nat) (w : list Z) (bs : list Z) :
  List.length w = 4%nat ->
  (i + 4 + List.length bs <= List.length mem)%nat ->
  let mem1 := firstn i mem ++ w ++ skipn (i + 4) mem in
  firstn (i + 4) mem1 ++ bs ++ skipn (i + 4 + List.length bs) mem1 =
  firstn i mem ++ (w ++ bs) ++ skipn (i + List.length (w ++ bs)) mem.
Proof.
  intros Hw Hlen mem1.
  assert (Hi : List.length (firstn i mem) = i) by (rewrite length_firstn; lia).
  assert (Hfirst : firstn (i + 4) mem1 = firstn i mem ++ w).
  { unfold mem1. rewrite app_assoc.
    rewrite firstn_app, length_app, Hi, Hw, Nat.sub_diag.
    cbn [firstn]. rewrite app_nil_r.
    apply firstn_all2. rewrite length_app, Hi, Hw. lia. }
  assert (Hskip : skipn (i + 4 + List.length bs) mem1 =
                  skipn (i + 4 + List.length bs) mem).
  { unfold mem1. rewrite app_assoc, skipn_app, length_app, Hi, Hw.
    rewrite skipn_all2 by (rewrite length_app, Hi, Hw; lia).
    cbn [app]. rewrite skipn_skipn. f_equal. lia. }
  rewrite Hfirst, Hskip, length_app, Hw, <- !app_assoc.
  replace (i + (4 + List.length bs))%nat with (i + 4 + List.length bs)%nat by lia.
  reflexivity.
Qed.

Lemma le32_length (w : Z) : List.length (le32 w) = 4%nat.
Proof. reflexivity. Qed.

(** The reading loop on a FIFO that holds the words [ws] of the packet in
    front of [rest]. *)
Lemma read_out_words (ws : list Z) : forall fuel n rest (m : machine),
  rxwords m = ws ++ rest ->
  ws <> [] ->
  (List.length ws <= fuel)%nat ->
  4 * Z.of_nat (List.length ws) - 4 < n <= 4 * Z.of_nat (List.length ws) ->
  0 <= ep0out (usbfs_state m) ->
  ep0out (usbfs_state m) + 4 * Z.of_nat (List.length ws) <=
    Z.of_nat (List.length (usbfs_outbuf m)) ->
  exists m',
    read_out fuel n m = Ret tt m' /\
    log m' = log m ++ map (Load DFIFO0) ws /\
    rxwords m' = rest /\
    rxfifo m' = rxfifo m /\
    usbfs_outbuf m' =
      firstn (Z.to_nat (ep0out (usbfs_state m))) (usbfs_outbuf m) ++
      flat_map le32 ws ++
      skipn (Z.to_nat (ep0out (usbfs_state m)) + List.length (flat_map le32 ws))
        (usbfs_outbuf m) /\
    ep0out (usbfs_state m') =
      ep0out (usbfs_state m) + 4 * Z.of_nat (List.length ws) /\
    rx_frame m m'.
Proof.
  induction ws as [|w ws IH]; intros fuel n rest m Hws Hne Hfuel Hn Hoff Hfit;
    [contradiction|].
  cbn [List.length] in *. rewrite Nat2Z.inj_succ in *.
  destruct fuel as [|fuel]; [lia|].
  cbn [read_out]. unfold bind at 1. unfold load at 1. cbn [hw_load].
  rewrite Hws. cbn [app]. cbv beta iota.
  unfold push_ep0out, store_outbuf, set_ep0out, put_state, get_state, bind.
  cbn -[Z.add Z.mul Z.sub Z.of_nat firstn skipn flat_map le32 store32 inside32
        Z.leb read_out].
  rewrite inside32_true by lia.
  cbn -[Z.add Z.mul Z.sub Z.of_nat firstn skipn flat_map le32 store32 inside32
        Z.leb read_out].
  unfold store32. rewrite poke_splice by (rewrite le32_length; lia).
  rewrite le32_length.
  destruct ws as [|w' ws'].
  - cbn [List.length] in *.
    assert (Hlast : (n <=? 4) = true) by (apply Z.leb_le; lia).
    rewrite Hlast. eexists. split; [reflexivity|].
    cbn -[Z.add Z.mul Z.sub Z.of_nat firstn skipn le32].
    rewrite app_nil_r. unfold rx_frame. cbn -[Z.add Z.mul Z.sub Z.of_nat].
    repeat split.
  - cbn [List.length] in Hn, Hfit, Hfuel.
    assert (Hmore : (n <=? 4) = false) by (apply Z.leb_gt; lia).
    rewrite Hmore.
    match goal with |- context [read_out fuel (n - 4) ?m1] =>
      destruct (IH fuel (n - 4) rest m1)
        as (m' & Hrun & Hlog & Hrw & Hrf & Hbuf & Hcur & Hframe)
    end.
    + reflexivity.
    + discriminate.
    + cbn [List.length]. lia.
    + cbn [List.length]. lia.
    + cbn -[Z.add]. lia.
    + cbn -[Z.add Z.mul Z.of_nat firstn skipn le32].
      rewrite !length_app, length_firstn, length_skipn, le32_length. lia.
    + exists m'. split; [exact Hrun|].
      cbn -[Z.add Z.mul Z.sub Z.of_nat firstn skipn flat_map le32 List.length]
        in Hlog, Hrf, Hbuf, Hcur, Hframe.
      split; [rewrite Hlog, <- app_assoc; reflexivity|].
      split; [exact Hrw|]. split; [exact Hrf|].
      split.
      { rewrite Hbuf.
        replace (Z.to_nat (ep0out (usbfs_state m) + 4))
          with (Z.to_nat (ep0out (usbfs_state m)) + 4)%nat by lia.
        change (flat_map le32 (w :: w' :: ws'))
          with (le32 w ++ flat_map le32 (w' :: ws')).
        apply splice_step; [reflexivity|].
        rewrite flat_le32_length. cbn [List.length]. lia. }
      split; [rewrite Hcur; cbn [List.length]; lia|].
      unfold rx_frame in *. cbn in Hframe. exact Hframe.
Qed.

(** X14: An OUT data packet for endpoint 0 is read from the FIFO in whole words,
    a quarter of its byte count rounded up, and stored through [ep0out]:
    the bytes of the words replace the bytes of the buffer from the cursor
    on, and the cursor moves on by four bytes per word, which for a packet
    whose size is no multiple of four is past the end of its data. *)
Theorem rxdata_stores_out_packet (m : machine) grstat ws q :
  rxfifo m = (grstat, ws) :: q ->
  Z.land grstat USBFS_GRSTAT_EPNUM_Msk = 0 ->
  Z.land grstat USBFS_GRSTAT_RPCKST_Msk <> USBFS_GRSTAT_RPCKST_STP ->
  0 < Z.shiftr (Z.land grstat USBFS_GRSTAT_BCOUNT_Msk) USBFS_GRSTAT_BCOUNT_Pos ->
  Z.of_nat (List.length ws) =
    (Z.shiftr (Z.land grstat USBFS_GRSTAT_BCOUNT_Msk) USBFS_GRSTAT_BCOUNT_Pos + 3) / 4 ->
  0 <= ep0out (usbfs_state m) ->
  ep0out (usbfs_state m) + 4 * Z.of_nat (List.length ws) <=
    Z.of_nat (List.length (usbfs_outbuf m)) ->
  exists m',
    usbfs_handle_rxdata m = Ret tt m' /\
    log m' = log m ++ Load GRSTATP grstat :: map (Load DFIFO0) ws /\
    rxfifo m' = q /\
    rxwords m' = [] /\
    usbfs_outbuf m' =
      firstn (Z.to_nat (ep0out (usbfs_state m))) (usbfs_outbuf m) ++
      flat_map le32 ws ++
      skipn (Z.to_nat (ep0out (usbfs_state m)) + 4 * List.length ws)
        (usbfs_outbuf m) /\
    ep0out (usbfs_state m') =
      ep0out (usbfs_state m) + 4 * Z.of_nat (List.length ws) /\
    bytes (usbfs_state m') = bytes (usbfs_state m) /\
    ep0in (usbfs_state m') = ep0in (usbfs_state m).
Proof.
  intros Hrx Hep Hnstp Hpos Hwords Hoff Hfit.
  set (n := Z.shiftr (Z.land grstat USBFS_GRSTAT_BCOUNT_Msk)
                     USBFS_GRSTAT_BCOUNT_Pos) in *.
  pose proof (Z.div_mod (n + 3) 4 ltac:(lia)) as Hdm.
  pose proof (Z.mod_pos_bound (n + 3) 4 ltac:(lia)) as Hmod.
  unfold usbfs_handle_rxdata. unfold bind at 1. unfold load at 1.
  cbn [hw_load]. rewrite Hrx. cbv beta iota. fold n.
  rewrite Hep. cbn [Z.eqb negb].
  assert (Hnz : (n =? 0) = false) by (apply Z.eqb_neq; lia).
  apply Z.eqb_neq in Hnstp. rewrite Hnz, Hnstp.
  match goal with |- context [read_out (Z.to_nat n) n ?m1] =>
    destruct (read_out_words ws (Z.to_nat n) n [] m1)
      as (m' & Hrun & Hlog & Hrw & Hrf & Hbuf & Hcur & Hframe)
  end.
  - cbn. now rewrite app_nil_r.
  - intros ->. cbn in Hwords. lia.
  - lia.
  - lia.
  - exact Hoff.
  - exact Hfit.
  - exists m'. split; [exact Hrun|].
    cbn -[Z.add Z.mul Z.of_nat firstn skipn flat_map le32 List.length]
      in Hlog, Hrf, Hbuf, Hcur, Hframe.
    split; [rewrite Hlog, <- app_assoc; reflexivity|].
    split; [exact Hrf|]. split; [exact Hrw|].
    split; [rewrite Hbuf, flat_le32_length; reflexivity|].
    split; [exact Hcur|].
    destruct Hframe as (_ & _ & Hb & Hi & _). cbn in Hb, Hi. auto.
Qed.

End ReceptionProperties.

Section OutStageProperties.

Context {R : RegisterMap} {B : DfuBridge}.

Lemma out_packet_bytes_nonneg (r : Z) : 0 <= out_packet_bytes r.
Proof. unfold out_packet_bytes, u32. apply Z.mod_pos_bound. reflexivity. Qed.

Lemma out_complete_more (residual : Z) (m : machine) :
  USBFS_DOEPINTF_TF <> 0 ->
  flag_set USBFS_DOEPINTF_TF USBFS_DOEPINTF_STPF = false ->
  out_packet_bytes residual < bytes (usbfs_state m) ->
  exists m',
    usbfs_handle_ep0 (hw_out_complete residual m) = Ret tt m' /\
    bytes (usbfs_state m') = bytes (usbfs_state m) - out_packet_bytes residual /\
    ep0out (usbfs_state m') = ep0out (usbfs_state m) /\
    usbfs_outbuf m' = usbfs_outbuf m /\
    dfu m' = dfu m /\
    usbfs_reboot_on_ack m' = usbfs_reboot_on_ack m /\
    armed_in (log m') = armed_in (log m) /\
    regs m' (DOEP_LEN 0) =
      Z.lor (Z.lor (USBFS_DOEPLEN_STPCNT 3) (USBFS_DOEPLEN_PCNT 1))
            (USBFS_DOEPLEN_TLEN 64).
Proof.
  intros Htf Hstp Hmore.
  pose proof (out_packet_bytes_nonneg residual) as Hpos.
  unfold out_packet_bytes in *.
  unfold usbfs_handle_ep0, hw_out_complete, usbfs_ep0out_prepare_out, set_bits,
    set_bytes, put_state, get_state, bind, load, store. cbn -[Z.sub].
  rewrite Hstp. cbn -[Z.sub].
  assert (Hb : (bytes (usbfs_state m) =? 0) = false) by (apply Z.eqb_neq; lia).
  rewrite Hb, ?flag_set_zero, (flag_set_self _ Htf). cbn -[Z.sub].
  assert (Hgt : (bytes (usbfs_state m) >?
                 u32 (64 - Z.land residual USBFS_DOEPLEN_TLEN_Msk)) = true)
    by (apply Z.gtb_lt; exact Hmore).
  rewrite Hgt. cbn -[Z.sub].
  eexists. split; [reflexivity|]. cbn -[Z.sub].
  repeat split.
  rewrite <- !app_assoc, !armed_in_app. cbn. now rewrite app_nil_r.
Qed.

(** X11: While the OUT packets of a data stage add up to less than the bytes
    that remain, every completed packet takes its bytes off the remaining
    count and arms the OUT endpoint for the next one; no handler is called,
    no IN packet is armed and the buffer is not touched by the endpoint
    handler. *)
Theorem out_stage_counts_down (rs : list Z) : forall m : machine,
  USBFS_DOEPINTF_TF <> 0 ->
  flag_set USBFS_DOEPINTF_TF USBFS_DOEPINTF_STPF = false ->
  fold_right Z.add 0 (map out_packet_bytes rs) < bytes (usbfs_state m) ->
  exists m',
    out_stage rs m = Ret tt m' /\
    bytes (usbfs_state m') =
      bytes (usbfs_state m) - fold_right Z.add 0 (map out_packet_bytes rs) /\
    usbfs_outbuf m' = usbfs_outbuf m /\
    dfu m' = dfu m /\
    usbfs_reboot_on_ack m' = usbfs_reboot_on_ack m /\
    armed_in (log m') = armed_in (log m) /\
    (rs <> [] ->
     regs m' (DOEP_LEN 0) =
       Z.lor (Z.lor (USBFS_DOEPLEN_STPCNT 3) (USBFS_DOEPLEN_PCNT 1))
             (USBFS_DOEPLEN_TLEN 64)).
Proof.
  induction rs as [|r rs IH]; intros m Htf Hstp Hsum.
  - exists m. cbn. repeat split; [lia | congruence].
  - cbn [map fold_right] in Hsum |- *.
    assert (Hrest : 0 <= fold_right Z.add 0 (map out_packet_bytes rs)).
    { clear. induction rs as [|r rs IH]; cbn; [lia|].
      pose proof (out_packet_bytes_nonneg r). lia. }
    destruct (out_complete_more r m Htf Hstp)
      as (m1 & Hrun & Hb1 & _ & Hbuf1 & Hdfu1 & Hrb1 & Harm1 & Hlen1); [lia|].
    destruct (IH m1 Htf Hstp)
      as (m' & Hrun' & Hb' & Hbuf' & Hdfu' & Hrb' & Harm' & Hlen'); [lia|].
    exists m'. cbn [out_stage]. rewrite Hrun.
    split; [exact Hrun'|]. split; [lia|].
    repeat split; try congruence.
    intros _. destruct rs as [|r' rs']; [|apply Hlen'; discriminate].
    cbn in Hrun'. injection Hrun' as <-. exact Hlen1.
Qed.

End OutStageProperties.

Section LifecycleProperties.

Context {R : RegisterMap} {B : DfuBridge}.

Lemma bind_store {C : Type} (r : reg) (v : Z) (k : unit -> M C) (m : machine) :
  bind (store r v) k m = k tt (set_log (log m ++ [Store r v]) (hw_store r v m)).
Proof. reflexivity. Qed.

Lemma bind_assoc {A C D : Type} (c : M A) (f : A -> M C) (g : C -> M D)
  (m : machine) :
  bind (bind c f) g m = bind c (fun x => bind (f x) g) m.
Proof. unfold bind. destruct (c m); reflexivity. Qed.

Lemma bind_outcome {A C : Type} (c : M A) (k : A -> M C) (m : machine) :
  bind c k m =
  match c m with
  | Ret a m' => k a m'
  | SystemReset m' => SystemReset m'
  | Diverge m' => Diverge m'
  | OutOfBounds m' => OutOfBounds m'
  end.
Proof. reflexivity. Qed.

Lemma wait_txff_run (n : nat) : forall m : machine,
  (flush_busy m <= n)%nat ->
  exists m', wait_txff (S n) m = Ret tt m' /\
             regs m' = regs m /\ only_registers m m'.
Proof.
  induction n as [|n IH]; intros m Hbusy.
  - assert (H0 : flush_busy m = O) by lia.
    cbn [wait_txff]. unfold bind, load. cbn [hw_load]. rewrite H0.
    assert (Hclear : flag_set (Z.land (regs m GRSTCTL) (Z.lnot USBFS_GRSTCTL_TXFF))
                       USBFS_GRSTCTL_TXFF = false)
      by (unfold flag_set; now rewrite land_lnot_mask).
    rewrite Hclear. eexists. split; [reflexivity|].
    unfold only_registers. cbn. repeat split.
  - cbn [wait_txff]. unfold bind at 1. unfold load at 1. cbn [hw_load].
    destruct (flush_busy m) as [|b] eqn:Hb.
    + assert (Hclear : flag_set (Z.land (regs m GRSTCTL) (Z.lnot USBFS_GRSTCTL_TXFF))
                         USBFS_GRSTCTL_TXFF = false)
        by (unfold flag_set; now rewrite land_lnot_mask).
      rewrite Hclear. eexists. split; [reflexivity|].
      unfold only_registers. cbn. repeat split.
    + destruct (flag_set (Z.lor (regs m GRSTCTL) USBFS_GRSTCTL_TXFF)
                  USBFS_GRSTCTL_TXFF).
      * edestruct IH as (m' & Hrun & Hregs & Hframe);
          [|exists m'; split; [exact Hrun|]].
        -- cbn. lia.
        -- split; [exact Hregs | exact Hframe].
      * eexists. split; [reflexivity|].
        unfold only_registers. cbn. repeat split.
Qed.

Lemma usbfs_txfifos_flush_run (m : machine) :
  exists m',
    usbfs_txfifos_flush m = Ret tt m' /\
    (forall r, r <> GRSTCTL -> regs m' r = regs m r) /\
    only_registers m m'.
Proof.
  unfold usbfs_txfifos_flush, set_bits, get_flush_busy, mtimer_udelay, ret.
  unfold bind at 1 2. unfold load at 1. cbn [hw_load].
  destruct (flush_busy m) as [|b] eqn:Hb; cbv beta iota;
    unfold store at 1; unfold bind at 1 2;
    match goal with |- context [wait_txff (S ?n) ?m0] =>
      destruct (wait_txff_run n m0 (le_n _)) as (m2 & Hrun & Hregs & Hframe);
      rewrite Hrun
    end;
    (eexists; split; [reflexivity|]);
    unfold only_registers in *; cbn in Hregs, Hframe; rewrite Hregs;
    (split; [intros r Hr; cbn; unfold upd;
             destruct r; try reflexivity; contradiction | exact Hframe]).
Qed.

Lemma usbfs_ep_reset_run (m : machine) :
  exists m',
    usbfs_ep_reset m = Ret tt m' /\
    only_registers m m' /\
    regs m' (DIEP_CTL 0) =
      Z.lor (Z.lor USBFS_DIEPCTL_STALL USBFS_DIEPCTL_EPTYPE_CONTROL)
            USBFS_DIEP0CTL_MPL_64B /\
    regs m' (DOEP_CTL 0) =
      Z.lor (Z.lor USBFS_DOEPCTL_STALL USBFS_DOEPCTL_EPTYPE_CONTROL)
            USBFS_DOEP0CTL_MPL_64B /\
    (forall i, In i [1; 2; 3]%nat ->
       regs m' (DIEP_CTL i) = USBFS_DIEPCTL_SNAK /\
       regs m' (DOEP_CTL i) = USBFS_DOEPCTL_SNAK /\
       regs m' (DIEP_LEN i) = 0 /\ regs m' (DOEP_LEN i) = 0) /\
    regs m' (DIEP_LEN 0) = regs m (DIEP_LEN 0) /\
    regs m' (DOEP_LEN 0) = regs m (DOEP_LEN 0) /\
    (forall r, match r with
               | DIEP_CTL _ | DIEP_INTF _ | DIEP_LEN _
               | DOEP_CTL _ | DOEP_INTF _ | DOEP_LEN _ => True
               | _ => regs m' r = regs m r
               end).
Proof.
  unfold usbfs_ep_reset. cbn [for_each].
  repeat (rewrite ?bind_assoc; rewrite bind_store; cbn).
  eexists. split; [reflexivity|]. unfold only_registers. cbn.
  repeat split;
    try (destruct H as [<-|[<-|[<-|[]]]]; reflexivity).
  intros r. destruct r; try exact I; reflexivity.
Qed.

(** X16: A bus reset brings the device back to its default state: the address
    field of [DCFG] is zero, endpoint 0 is stalled in both directions with
    a packet size of 64 bytes, the endpoints 1 to 3 are set to answer NAK
    with nothing to transfer, the endpoint interrupts are enabled for
    endpoint 0, and nothing remains of a control transfer.  The cursors,
    the receive buffer, the class bridge and the reboot flag are not
    touched, and the OUT endpoint is not armed. *)
Theorem bus_reset_default_state (m : machine) :
  exists m',
    usbfs_reset m = Ret tt m' /\
    bytes (usbfs_state m') = 0 /\
    ep0out (usbfs_state m') = ep0out (usbfs_state m) /\
    ep0in (usbfs_state m') = ep0in (usbfs_state m) /\
    usbfs_outbuf m' = usbfs_outbuf m /\
    dfu m' = dfu m /\
    usbfs_reboot_on_ack m' = usbfs_reboot_on_ack m /\
    regs m' DCFG = Z.land (regs m DCFG) (Z.lnot USBFS_DCFG_DAR_Msk) /\
    Z.land (regs m' DCFG) USBFS_DCFG_DAR_Msk = 0 /\
    regs m' (DIEP_CTL 0) =
      Z.lor (Z.lor USBFS_DIEPCTL_STALL USBFS_DIEPCTL_EPTYPE_CONTROL)
            USBFS_DIEP0CTL_MPL_64B /\
    regs m' (DOEP_CTL 0) =
      Z.lor (Z.lor USBFS_DOEPCTL_STALL USBFS_DOEPCTL_EPTYPE_CONTROL)
            USBFS_DOEP0CTL_MPL_64B /\
    (forall i, In i [1; 2; 3]%nat ->
       regs m' (DIEP_CTL i) = USBFS_DIEPCTL_SNAK /\
       regs m' (DOEP_CTL i) = USBFS_DOEPCTL_SNAK /\
       regs m' (DIEP_LEN i) = 0 /\ regs m' (DOEP_LEN i) = 0) /\
    regs m' DAEPINTEN =
      Z.lor (USBFS_DAEPINTEN_OEPIE 1) (USBFS_DAEPINTEN_IEPIE 1) /\
    regs m' DOEPINTEN = Z.lor USBFS_DOEPINTEN_STPFEN USBFS_DOEPINTEN_TFEN /\
    regs m' DIEPINTEN = USBFS_DIEPINTEN_TFEN /\
    regs m' (DOEP_LEN 0) = regs m (DOEP_LEN 0).
Proof.
  destruct (usbfs_txfifos_flush_run m) as (m1 & Hflush & Hregs1 & Hf1).
  destruct (usbfs_ep_reset_run m1)
    as (m2 & Hep & Hf2 & Hi0 & Ho0 & Hrest & _ & Hlen & Hregs2).
  unfold usbfs_reset. unfold bind at 1. rewrite Hflush.
  unfold bind at 1. rewrite Hep.
  unfold clear_bits, set_bytes, put_state, get_state, bind, load, store.
  cbn. eexists. split; [reflexivity|]. cbn.
  unfold only_registers in Hf1, Hf2.
  destruct Hf1 as (Hs1 & Hb1 & _ & Hr1 & Hd1 & _).
  destruct Hf2 as (Hs2 & Hb2 & _ & Hr2 & Hd2 & _).
  pose proof (Hregs2 DCFG) as Hdcfg. cbn in Hdcfg.
  rewrite Hdcfg, (Hregs1 DCFG) by discriminate.
  rewrite Hs2, Hs1, Hb2, Hb1, Hr2, Hr1, Hd2, Hd1, Hlen.
  rewrite (Hregs1 (DOEP_LEN 0)) by discriminate.
  repeat split; auto; try apply land_lnot_mask; now apply Hrest.
Qed.

(** X17: A suspend ends the interrupt handler: with the suspend flag among the
    flags read last, and no endpoint event, the handler acknowledges the
    suspend and returns.  Wake-up, bus reset and enumeration flagged in the
    same interrupt are neither handled nor acknowledged: no other register
    is written, and the transfer state is as it was. *)
Theorem suspend_ends_interrupt (flags : Z) (m : machine) :
  flag_set flags USBFS_GINTF_SP = true ->
  flag_set flags (Z.lor USBFS_GINTF_OEPIF USBFS_GINTF_IEPIF) = false ->
  exists m',
    usbfs_irq_events flags m = Ret tt m' /\
    log m' = log m ++ [Store GINTF USBFS_GINTF_SP] /\
    regs m' GINTF = Z.land (regs m GINTF) (Z.lnot USBFS_GINTF_SP) /\
    (forall r, r <> GINTF -> regs m' r = regs m r) /\
    usbfs_state m' = usbfs_state m /\
    usbfs_outbuf m' = usbfs_outbuf m.
Proof.
  intros Hsp Hep.
  unfold usbfs_irq_events, usbfs_irq_lifecycle, usbfs_suspend, bind, ret,
    store.
  rewrite Hep, Hsp. cbn.
  eexists. split; [reflexivity|]. cbn. repeat split.
  intros r Hr. destruct r; try reflexivity. contradiction.
Qed.

Lemma handle_setup_returns (m : machine) :
  exists m', usbfs_handle_setup m = Ret tt m'.
Proof.
  assert (Hstall : forall m0 : machine, exists m',
             usbfs_handle_setup_stall m0 = Ret tt m').
  { intros m0.
    unfold usbfs_handle_setup_stall, usbfs_ep0in_stall,
      usbfs_ep0out_prepare_setup, set_bits, bind, load, store. cbn.
    eexists. reflexivity. }
  assert (Hout : forall m0 : machine, exists m',
             usbfs_ep0out_prepare_out m0 = Ret tt m').
  { intros m0. unfold usbfs_ep0out_prepare_out, set_bits, bind, load, store.
    cbn. eexists. reflexivity. }
  assert (Hset : forall m0 : machine, exists m',
             usbfs_ep0out_prepare_setup m0 = Ret tt m').
  { intros m0. unfold usbfs_ep0out_prepare_setup, set_bits, bind, load, store.
    cbn. eexists. reflexivity. }
  unfold usbfs_handle_setup, set_bytes, set_ep0in, put_state, get_state,
    get_setup, usbfs_ep0in_transfer_empty.
  unfold bind at 1 2 3. cbn -[usbfs_handle_setup_stall usbfs_ep0out_prepare_out
                              usbfs_ep0out_prepare_setup].
  match goal with |- exists m', _ ?m0 = _ =>
    destruct (setup_handler_run_ok (setup_of (usbfs_outbuf m)) [] m0)
      as (r & d & m1 & Hrun & _)
  end.
  destruct (flag_set _ 128).
  - unfold bind at 1. rewrite Hrun.
    destruct (r >=? 0); [|apply Hstall].
    unfold bind. cbn -[usbfs_ep0out_prepare_out].
    rewrite ep0in_transfer_run. apply Hout.
  - destruct (_ =? 0).
    + unfold bind at 1. rewrite Hrun.
      destruct (r =? 0); [|apply Hstall].
      unfold bind at 1. rewrite ep0in_transfer_run. apply Hset.
    + destruct (_ <=? _); [|apply Hstall].
      unfold bind at 1.
      match goal with |- context [usbfs_ep0out_prepare_out ?m0] =>
        destruct (Hout m0) as (m' & Hm'); rewrite Hm'
      end.
      unfold bind. eexists. reflexivity.
Qed.

(** An endpoint 0 event is handled to the end, or ends in the system
    reset; the latter only if the reboot was asked for and nothing remains
    of a transfer. *)
Lemma handle_ep0_outcome (m : machine) :
  (exists m', usbfs_handle_ep0 m = Ret tt m') \/
  (exists m', usbfs_handle_ep0 m = SystemReset m' /\
              usbfs_reboot_on_ack m = true /\
              bytes (usbfs_state m) = 0 /\
              regs m' DBG_KEY = DBG_KEY_UNLOCK /\
              regs m' DBG_CMD = DBG_CMD_RESET).
Proof.
  unfold usbfs_handle_ep0.
  unfold bind at 1 2 3 4. unfold load at 1 2. unfold store at 1 2.
  cbn -[usbfs_handle_setup].
  destruct (flag_set (regs m (DOEP_INTF 0)) USBFS_DOEPINTF_STPF).
  { left. apply handle_setup_returns. }
  unfold get_state. unfold bind at 1.
  cbn -[Z.sub].
  destruct (Z.eqb_spec (bytes (usbfs_state m)) 0) as [Hz|Hnz].
  { unfold get_reboot_on_ack, bind, system_reset, store, ret. cbn.
    destruct (usbfs_reboot_on_ack m) eqn:Hr.
    - right. eexists. split; [reflexivity|]. cbn. auto.
    - left. eexists. reflexivity. }
  left.
  destruct (flag_set (regs m (DIEP_INTF 0)) USBFS_DIEPINTF_TF).
  { destruct (_ >? 64).
    - unfold set_ep0in, set_bytes, put_state, get_state, bind. cbn -[Z.sub].
      rewrite ep0in_transfer_run. eexists. reflexivity.
    - unfold set_bytes, put_state, get_state, bind. cbn. eexists. reflexivity. }
  destruct (flag_set (regs m (DOEP_INTF 0)) USBFS_DOEPINTF_TF);
    [|eexists; reflexivity].
  unfold bind at 1. unfold load at 1. cbn -[Z.sub].
  unfold bind at 1. cbn -[Z.sub].
  destruct (_ >? _).
  - unfold usbfs_ep0out_prepare_out, set_bytes, set_bits, put_state, get_state,
      bind, load, store. cbn -[Z.sub]. eexists. reflexivity.
  - unfold get_outbuf_data, set_bytes, put_state, get_state, get_setup.
    unfold bind at 1 2 3 4 5. cbn -[Z.sub].
    match goal with |- context [usbfs_setup_handler_run ?p ?d0 ?m0] =>
      destruct (setup_handler_run_ok p d0 m0) as (r & d & m1 & Hrun & _)
    end.
    unfold bind at 1. rewrite Hrun.
    unfold usbfs_ep0in_transfer_empty, usbfs_ep0in_stall,
      usbfs_ep0out_prepare_setup, set_bits.
    destruct (r =? 0).
    + unfold bind at 1. rewrite ep0in_transfer_run.
      unfold bind, load, store. cbn -[Z.sub]. eexists. reflexivity.
    + unfold bind, load, store. cbn -[Z.sub]. eexists. reflexivity.
Qed.

Lemma usbfs_enumdone_returns : returns usbfs_enumdone (fun _ => True).
Proof.
  intros m.
  unfold usbfs_enumdone, usbfs_ep0out_prepare_setup, set_bits, bind, load,
    store, ret. cbn.
  destruct (_ =? _); do 2 eexists; (split; [reflexivity | exact I]).
Qed.

Lemma returns_ret (a : unit) : returns (ret a) (fun _ => True).
Proof. intros m. do 2 eexists. split; [reflexivity | exact I]. Qed.

Lemma lifecycle_returns (flags : Z) :
  returns (usbfs_irq_lifecycle flags) (fun _ => True).
Proof.
  unfold usbfs_irq_lifecycle.
  destruct (flag_set flags USBFS_GINTF_SP).
  { apply returns_bind; [apply returns_ret | intros _; apply returns_store]. }
  apply returns_bind.
  { destruct (flag_set flags USBFS_GINTF_WKUPIF); [|apply returns_ret].
    apply returns_bind; [apply returns_ret | intros _; apply returns_store]. }
  intros _. apply returns_bind.
  { destruct (flag_set flags USBFS_GINTF_RST); [|apply returns_ret].
    apply returns_bind; [|intros _; apply returns_store].
    intros m. destruct (usbfs_reset_returns m) as (a & m' & Hrun & _).
    exists a, m'. auto. }
  intros _.
  destruct (flag_set flags USBFS_GINTF_ENUMF); [|apply returns_ret].
  apply returns_bind; [apply usbfs_enumdone_returns | intros _; apply returns_store].
Qed.

(** X18: The interrupt handler comes to an end on every machine: the receive
    loop runs once per waiting packet and the wait for the FIFO flush ends
    with the flush.  It ends in one of three ways.  It returns; or it
    triggers the system reset, which it does only if the reboot had been
    asked for before the interrupt and nothing remained of a control
    transfer, and then the unlock key and the reset command have been
    written to the debug unit; or, still in the receive loop and with
    nothing but the receive registers read, it stores a received packet
    through [ep0out] past the end of the buffer. *)
Theorem irq_handler_returns_or_resets (m : machine) :
  USBFS_GINTF_RXFNEIF <> 0 ->
  0 <= USBFS_GRSTAT_BCOUNT_Msk ->
  (exists m', USBFS_IRQHandler m = Ret tt m') \/
  (exists m', USBFS_IRQHandler m = SystemReset m' /\
              usbfs_reboot_on_ack m = true /\
              bytes (usbfs_state m) = 0 /\
              regs m' DBG_KEY = DBG_KEY_UNLOCK /\
              regs m' DBG_CMD = DBG_CMD_RESET) \/
  (exists m' evs, USBFS_IRQHandler m = OutOfBounds m' /\
                  log m' = log m ++ evs /\
                  forallb is_rx_access evs = true).
Proof.
  intros Hflag Hmask.
  destruct (irq_drain_cases m Hflag Hmask)
    as [(flags & m1 & evs & Hirq & _ & _ & _ & _ & _ & _ & F)
       |(m1 & evs & Hirq & L & A)].
  2:{ right. right. exists m1, evs. auto. }
  rewrite Hirq. clear Hirq.
  destruct F as (_ & _ & Hb & _ & _ & Hr & _).
  rewrite <- Hb, <- Hr. clear Hb Hr evs.
  unfold usbfs_irq_events.
  set (endpoints := if flag_set flags (Z.lor USBFS_GINTF_OEPIF USBFS_GINTF_IEPIF)
                    then usbfs_handle_endpoints else ret tt).
  assert (Hep : (exists m', endpoints m1 = Ret tt m') \/
                (exists m', endpoints m1 = SystemReset m' /\
                            usbfs_reboot_on_ack m1 = true /\
                            bytes (usbfs_state m1) = 0 /\
                            regs m' DBG_KEY = DBG_KEY_UNLOCK /\
                            regs m' DBG_CMD = DBG_CMD_RESET)).
  { subst endpoints.
    destruct (flag_set flags _); [|left; eexists; reflexivity].
    unfold usbfs_handle_endpoints, bind, load. cbn [hw_load].
    destruct (flag_set (regs m1 DAEPINT) 65537); [|left; eexists; reflexivity].
    match goal with |- context [usbfs_handle_ep0 ?m0] =>
      destruct (handle_ep0_outcome m0)
        as [(m2 & Hep)|(m2 & Hep & Hre & Hby & Hkey & Hcmd)]; rewrite Hep
    end.
    - left. eexists. reflexivity.
    - right. exists m2. cbn in Hre, Hby. repeat split; assumption. }
  rewrite bind_outcome.
  destruct Hep as [(m2 & Hep)|(m2 & Hep & Hconds)]; rewrite Hep.
  - left. destruct (lifecycle_returns flags m2) as ([] & m' & Hrun & _).
    exists m'. exact Hrun.
  - right. left. exists m2. split; [reflexivity | exact Hconds].
Qed.

End LifecycleProperties.

Section FifoProperties.

Lemma lor_high_low (hi lo : Z) :
  0 <= hi -> 0 <= lo < 2 ^ 16 ->
  fifo_start (Z.lor (Z.shiftl hi 16) lo) = lo /\
  fifo_depth (Z.lor (Z.shiftl hi 16) lo) = hi.
Proof.
  intros Hhi Hlo. unfold fifo_start, fifo_depth.
  rewrite Z.lor_comm, lor_shiftl_add by lia.
  change 65535 with (Z.ones 16).
  rewrite Z.land_ones, Z.shiftr_div_pow2 by lia.
  change (2 ^ 16) with 65536 in *.
  split; Z.div_mod_to_equations; lia.
Qed.

(** X19: [usbfs_allocate_buffers] rounds every size up to whole words and lays
    the receive FIFO and the four transmit FIFOs out back to back: the
    receive FIFO has its words from address 0, and each transmit FIFO
    starts where the region before it ends and has the depth asked for.
    This holds as long as the regions together stay below 65536 words. *)
Theorem allocate_buffers_layout (rx tx0 tx1 tx2 tx3 : Z) :
  0 <= rx -> 0 <= tx0 -> 0 <= tx1 -> 0 <= tx2 -> 0 <= tx3 ->
  (rx + 3) / 4 + (tx0 + 3) / 4 + (tx1 + 3) / 4 + (tx2 + 3) / 4 + (tx3 + 3) / 4
    < 65536 ->
  exists v0 v1 v2 v3,
    usbfs_allocate_buffers rx tx0 tx1 tx2 tx3 =
      [(GRFLEN, (rx + 3) / 4); (DIEP0TFLEN, v0); (DIEP1TFLEN, v1);
       (DIEP2TFLEN, v2); (DIEP3TFLEN, v3)] /\
    fifo_start v0 = (rx + 3) / 4 /\
    fifo_depth v0 = (tx0 + 3) / 4 /\
    fifo_start v1 = fifo_start v0 + fifo_depth v0 /\
    fifo_depth v1 = (tx1 + 3) / 4 /\
    fifo_start v2 = fifo_start v1 + fifo_depth v1 /\
    fifo_depth v2 = (tx2 + 3) / 4 /\
    fifo_start v3 = fifo_start v2 + fifo_depth v2 /\
    fifo_depth v3 = (tx3 + 3) / 4.
Proof.
  intros Hrx H0 H1 H2 H3 Hsum.
  assert (Hw : forall x, 0 <= x -> 0 <= (x + 3) / 4)
    by (intros x Hx; apply Z.div_pos; lia).
  pose proof (Hw rx Hrx). pose proof (Hw tx0 H0). pose proof (Hw tx1 H1).
  pose proof (Hw tx2 H2). pose proof (Hw tx3 H3).
  assert (Hround : forall x, 0 <= x -> (x + 3) / 4 < 65536 ->
                             Z.shiftr (u32 (x + 3)) 2 = (x + 3) / 4).
  { intros x Hx Hlt. unfold u32.
    rewrite Z.mod_small, Z.shiftr_div_pow2 by
      (change (2 ^ 32) with 4294967296; try (Z.div_mod_to_equations; lia); lia).
    reflexivity. }
  assert (Hsmall : forall x, 0 <= x < 65536 -> u32 x = x)
    by (intros x Hx; apply Z.mod_small; change (2 ^ 32) with 4294967296; lia).
  assert (Hhigh : forall x, 0 <= x < 65536 -> u32 (Z.shiftl x 16) = Z.shiftl x 16).
  { intros x Hx. apply Z.mod_small. rewrite Z.shiftl_mul_pow2 by lia.
    change (2 ^ 32) with 4294967296. change (2 ^ 16) with 65536. lia. }
  unfold usbfs_allocate_buffers.
  rewrite !Hround by lia.
  set (r := (rx + 3) / 4) in *. set (a := (tx0 + 3) / 4) in *.
  set (b := (tx1 + 3) / 4) in *. set (c := (tx2 + 3) / 4) in *.
  set (d := (tx3 + 3) / 4) in *.
  rewrite !Hhigh by lia.
  rewrite (Hsmall (r + a)) by lia. rewrite (Hsmall (r + a + b)) by lia.
  rewrite (Hsmall (r + a + b + c)) by lia.
  change (2 ^ 16) with 65536 in *.
  destruct (lor_high_low a r) as [S0 D0]; [lia | change (2 ^ 16) with 65536; lia |].
  destruct (lor_high_low b (r + a)) as [S1 D1];
    [lia | change (2 ^ 16) with 65536; lia |].
  destruct (lor_high_low c (r + a + b)) as [S2 D2];
    [lia | change (2 ^ 16) with 65536; lia |].
  destruct (lor_high_low d (r + a + b + c)) as [S3 D3];
    [lia | change (2 ^ 16) with 65536; lia |].
  eexists _, _, _, _. split; [reflexivity|].
  rewrite S0, D0, S1, D1, S2, D2, S3, D3. repeat split.
Qed.

End FifoProperties.

Section EnumerationProperties.

Context {R : RegisterMap} {B : DfuBridge}.

(** X20: A bus reset and the end of enumeration reported in one interrupt
    are handled in that order, after an optional wake-up: the reset brings
    endpoint 0 to its default state, and the enumeration, at full speed,
    arms the OUT endpoint for SETUP packets on top of it, so the device
    ends up at address 0 with nothing left of a transfer and ready for the
    first setup packet; the reset is acknowledged before the enumeration
    is. *)
Theorem reset_then_enumeration (flags : Z) (m : machine) :
  flag_set flags (Z.lor USBFS_GINTF_OEPIF USBFS_GINTF_IEPIF) = false ->
  flag_set flags USBFS_GINTF_SP = false ->
  flag_set flags USBFS_GINTF_RST = true ->
  flag_set flags USBFS_GINTF_ENUMF = true ->
  Z.land (regs m DSTAT) USBFS_DSTAT_ES_Msk = USBFS_DSTAT_ES_FULL ->
  exists m' evs,
    usbfs_irq_events flags m = Ret tt m' /\
    bytes (usbfs_state m') = 0 /\
    Z.land (regs m' DCFG) USBFS_DCFG_DAR_Msk = 0 /\
    regs m' (DOEP_LEN 0) =
      Z.lor (Z.lor (USBFS_DOEPLEN_STPCNT 3) (USBFS_DOEPLEN_PCNT 0))
            (USBFS_DOEPLEN_TLEN 0) /\
    regs m' (DOEP_CTL 0) =
      Z.lor (Z.lor (Z.lor USBFS_DOEPCTL_STALL USBFS_DOEPCTL_EPTYPE_CONTROL)
                   USBFS_DOEP0CTL_MPL_64B)
            (Z.lor USBFS_DOEPCTL_EPEN USBFS_DOEPCTL_STALL) /\
    regs m' (DIEP_CTL 0) =
      Z.lor (Z.lor USBFS_DIEPCTL_STALL USBFS_DIEPCTL_EPTYPE_CONTROL)
            USBFS_DIEP0CTL_MPL_64B /\
    usbfs_outbuf m' = usbfs_outbuf m /\
    dfu m' = dfu m /\
    log m' =
      evs ++
      [Load DCFG (regs m DCFG);
       Store DCFG (Z.land (regs m DCFG) (Z.lnot USBFS_DCFG_DAR_Msk));
       Store DAEPINTEN
         (Z.lor (USBFS_DAEPINTEN_OEPIE 1) (USBFS_DAEPINTEN_IEPIE 1));
       Store DOEPINTEN (Z.lor USBFS_DOEPINTEN_STPFEN USBFS_DOEPINTEN_TFEN);
       Store DIEPINTEN USBFS_DIEPINTEN_TFEN;
       Store GINTF USBFS_GINTF_RST;
       Load DCTL (regs m DCTL);
       Store DCTL (Z.lor (regs m DCTL) USBFS_DCTL_CGINAK);
       Load DSTAT (regs m DSTAT);
       Store (DOEP_LEN 0)
         (Z.lor (Z.lor (USBFS_DOEPLEN_STPCNT 3) (USBFS_DOEPLEN_PCNT 0))
                (USBFS_DOEPLEN_TLEN 0));
       Load (DOEP_CTL 0)
         (Z.lor (Z.lor USBFS_DOEPCTL_STALL USBFS_DOEPCTL_EPTYPE_CONTROL)
                USBFS_DOEP0CTL_MPL_64B);
       Store (DOEP_CTL 0)
         (Z.lor (Z.lor (Z.lor USBFS_DOEPCTL_STALL USBFS_DOEPCTL_EPTYPE_CONTROL)
                       USBFS_DOEP0CTL_MPL_64B)
                (Z.lor USBFS_DOEPCTL_EPEN USBFS_DOEPCTL_STALL));
       Store GINTF USBFS_GINTF_ENUMF].
Proof.
  intros Hep Hsp Hrst Henum Hfull.
  assert (Hwake : exists m0,
            (if flag_set flags USBFS_GINTF_WKUPIF
             then bind usbfs_wakeup (fun _ => store GINTF USBFS_GINTF_WKUPIF)
             else ret tt) m = Ret tt m0 /\
            only_registers m m0 /\
            (forall r, r <> GINTF -> regs m0 r = regs m r)).
  { destruct (flag_set flags USBFS_GINTF_WKUPIF).
    - unfold usbfs_wakeup, bind, ret, store. cbn.
      eexists. split; [reflexivity|]. unfold only_registers. cbn.
      repeat split. intros r Hr. destruct r; try reflexivity. contradiction.
    - exists m. unfold only_registers. repeat split. }
  destruct Hwake as (m0 & Hwake & Hf0 & Hregs0).
  destruct (usbfs_txfifos_flush_run m0) as (m1 & Hflush & Hregs1 & Hf1).
  destruct (usbfs_ep_reset_run m1)
    as (m2 & Hepr & Hf2 & Hi0 & Ho0 & _ & _ & Hlen & Hregs2).
  unfold usbfs_irq_events, usbfs_irq_lifecycle.
  rewrite Hep, Hsp, Hrst, Henum.
  unfold bind at 1. cbn [ret].
  rewrite bind_outcome, Hwake.
  unfold usbfs_reset.
  rewrite !bind_assoc. rewrite bind_outcome, Hflush.
  rewrite !bind_assoc, bind_outcome, Hepr.
  unfold only_registers in Hf0, Hf1, Hf2.
  destruct Hf0 as (Hs0 & Hb0 & _ & _ & Hd0 & _).
  destruct Hf1 as (Hs1 & Hb1 & _ & _ & Hd1 & _).
  destruct Hf2 as (Hs2 & Hb2 & _ & _ & Hd2 & _).
  pose proof (Hregs2 DCFG) as Hdcfg. cbn in Hdcfg.
  pose proof (Hregs2 DCTL) as Hdctl. cbn in Hdctl.
  pose proof (Hregs2 DSTAT) as Hdstat. cbn in Hdstat.
  rewrite (Hregs1 DCTL), (Hregs0 DCTL) in Hdctl by discriminate.
  rewrite (Hregs1 DSTAT), (Hregs0 DSTAT) in Hdstat by discriminate.
  unfold clear_bits, set_bytes, put_state, get_state, usbfs_enumdone,
    usbfs_ep0out_prepare_setup, set_bits, bind, load, store, ret.
  cbn. rewrite Hdstat, Hfull, Z.eqb_refl. cbn.
  rewrite <- !app_assoc. cbn [app].
  eexists _, (log m2). split; [reflexivity|]. cbn.
  rewrite ?Hdcfg, ?Hdctl, ?Hdstat, ?Ho0, ?Hi0, ?Hb2, ?Hb1, ?Hb0, ?Hd2, ?Hd1, ?Hd0.
  split; [reflexivity|]. split; [apply land_lnot_mask|].
  repeat (split; [reflexivity|]).
  rewrite (Hregs1 DCFG), (Hregs0 DCFG) by discriminate. reflexivity.
Qed.

End EnumerationProperties.

Section OverflowProperties.

Context {R : RegisterMap} {B : DfuBridge}.



End OverflowProperties.

(** * The driver on concrete machines *)

Ltac by_computation := vm_compute; first [reflexivity | discriminate | lia].

(** An upload of 64 bytes: the one packet of 64 bytes is all that is ever
    armed, however many IN completions follow. *)
Lemma full_packet_stage_has_no_zlp :
  ~ in_stage_ends_with_zlp (R := gd32vf103) (B := counting_bridge).
Proof.
  intros Hclaim.
  destruct (Hclaim (test_upload 64) 64 (repeat 0xA5 64)
              (set_bridge (B := counting_bridge) 1%nat false
                 (with_bytes 0 (test_upload 64))))
    as (k & m' & Hstage & Hlast);
    [by_computation | by_computation | by_computation | by_computation
    | by_computation |].
  pose proof (in_data_stage_single (R := gd32vf103) (test_upload 64) 64
                (repeat 0xA5 64)
                (set_bridge (B := counting_bridge) 1%nat false
                   (with_bytes 0 (test_upload 64))) k m'
                ltac:(by_computation) ltac:(by_computation)
                ltac:(by_computation) ltac:(by_computation)
                ltac:(by_computation) ltac:(by_computation)
                ltac:(by_computation) Hstage) as Harm.
  rewrite Harm in Hlast. vm_compute in Hlast. discriminate Hlast.
Qed.

(** DFU_DNLOAD of 100 bytes on the counting bridge: a call of the handler
    would count one, and handling the setup packet leaves the count at
    zero. *)
Lemma setup_does_not_call_out_handler :
  ~ setup_calls_out_handler (R := gd32vf103) (B := counting_bridge).
Proof.
  intros Hclaim.
  destruct (Hclaim (test_dnload 100)) as (r & d & m1 & m' & Hrun & Hsetup & Hdfu);
    [by_computation | by_computation | by_computation |].
  apply final_ret in Hrun. apply final_ret in Hsetup.
  rewrite <- Hrun, <- Hsetup in Hdfu.
  vm_compute in Hdfu. discriminate Hdfu.
Qed.

(** A DFU_DNLOAD of 2000 bytes arriving while 100 bytes of an OUT data
    stage remain: the remaining count is written, it is zero afterwards. *)
Lemma oversized_setup_resets_count :
  ~ oversized_leaves_state_unwritten (R := gd32vf103) (B := counting_bridge).
Proof.
  intros Hclaim.
  destruct (Hclaim test_oversized_mid_transfer) as (m' & Hrun & Hst & _);
    [by_computation | by_computation | by_computation |].
  apply final_ret in Hrun. rewrite <- Hrun in Hst.
  vm_compute in Hst. discriminate Hst.
Qed.

Lemma in_data_stage_packets_witness :
  exists k m',
    in_data_stage (R := gd32vf103) k (test_upload 100) = Ret tt m' /\
    bytes (usbfs_state m') = 0 /\
    armed_in (log m') = [Z.lor (Z.shiftl 1 19) 64; Z.lor (Z.shiftl 1 19) 36].
Proof.
  destruct (in_data_stage_packets (R := gd32vf103) (test_upload 100)
              100 (repeat 0xA5 100)
              (set_bridge (B := counting_bridge) 1%nat false
                 (with_bytes 0 (test_upload 100))))
    as (m' & Hstage & Hb & Harm & _);
    [by_computation | by_computation | by_computation | by_computation
    | by_computation |].
  eexists _, m'. split; [exact Hstage|]. split; [exact Hb|].
  rewrite Harm. by_computation.
Defined.

Lemma out_data_stage_witness :
  (exists m',
      usbfs_handle_setup (R := gd32vf103) (test_dnload 100) = Ret tt m' /\
      bytes (usbfs_state m') = 100 /\ dfu m' = 0%nat) /\
  (exists m',
      usbfs_handle_ep0 (R := gd32vf103)
        (hw_out_complete (R := gd32vf103) 0 (with_bytes 100 (test_dnload 100))) =
        Ret tt m' /\
      bytes (usbfs_state m') = 36 /\ dfu m' = 0%nat) /\
  (exists m',
      usbfs_handle_ep0 (R := gd32vf103)
        (hw_out_complete (R := gd32vf103) 28 (with_bytes 36 (test_dnload 100))) =
        Ret tt m' /\
      bytes (usbfs_state m') = 0 /\ dfu m' = 1%nat).
Proof.
  destruct (out_data_stage (R := gd32vf103) (B := counting_bridge))
    as (Hsetup & Hmore & Hlast).
  split; [|split].
  - destruct (Hsetup (test_dnload 100)) as (m' & Hrun & Hb & _ & Hdfu & _);
      [by_computation | by_computation | by_computation |].
    exists m'. split; [exact Hrun|].
    rewrite Hb, Hdfu. split; by_computation.
  - destruct (Hmore (hw_out_complete (R := gd32vf103) 0
                       (with_bytes 100 (test_dnload 100))))
      as (m' & Hrun & Hb & _ & Hdfu & _);
      [by_computation | by_computation | by_computation | by_computation
      | by_computation |].
    exists m'. split; [exact Hrun|].
    rewrite Hb, Hdfu. split; by_computation.
  - destruct (Hlast (hw_out_complete (R := gd32vf103) 28
                       (with_bytes 36 (test_dnload 100))))
      as (r & d & m1 & m' & Hcall & Hrun & Hb & _ & Hdfu & _);
      [by_computation | by_computation | by_computation | by_computation
      | by_computation |].
    exists m'. split; [exact Hrun|]. split; [exact Hb|].
    apply final_ret in Hcall. rewrite Hdfu, <- Hcall. by_computation.
Defined.

Lemma oversized_out_rejected_witness :
  exists m',
    usbfs_handle_setup (R := gd32vf103) (test_dnload 2000) = Ret tt m' /\
    bytes (usbfs_state m') = 0 /\
    usbfs_outbuf m' = usbfs_outbuf (test_dnload 2000) /\
    dfu m' = 0%nat.
Proof.
  destruct (oversized_out_rejected (R := gd32vf103) (test_dnload 2000))
    as (m' & Hrun & _ & Hst & Hbuf & _ & _ & Hdfu & _);
    [by_computation | by_computation | by_computation |].
  exists m'. split; [exact Hrun|]. split; [now rewrite Hst|].
  split; [exact Hbuf|]. rewrite Hdfu. by_computation.
Defined.

Lemma in_stage_armed_min_witness :
  (exists m',
      usbfs_handle_setup (R := gd32vf103)
        (with_setup get_descriptor_configuration_255 test_idle) = Ret tt m' /\
      bytes (usbfs_state m') = 27) /\
  (exists m',
      usbfs_handle_setup (R := gd32vf103)
        (with_setup get_descriptor_device_64 test_idle) = Ret tt m' /\
      bytes (usbfs_state m') = 18 /\
      ep0in (usbfs_state m') = usbfs_descriptor_device).
Proof.
  destruct (in_stage_armed_min (R := gd32vf103) (B := counting_bridge))
    as (Hmin & _ & Hdev).
  split.
  - destruct (Hmin (with_setup get_descriptor_configuration_255 test_idle)
                27 (usbfs_descriptor_configuration1 (B := counting_bridge))
                (with_bytes 0 (with_setup get_descriptor_configuration_255 test_idle)))
      as (m' & Hrun & Hb & _);
      [by_computation | by_computation | by_computation |].
    exists m'. split; [exact Hrun|]. rewrite Hb. by_computation.
  - destruct (Hdev (with_setup get_descriptor_device_64 test_idle))
      as (m' & Hrun & Hb & Hin & _); [by_computation|].
    exists m'. split; [exact Hrun|]. split; [exact Hb | exact Hin].
Defined.


Lemma setup_packet_is_last_two_words_witness :
  exists m',
    usbfs_handle_rxdata (R := gd32vf103) test_stale_setup = Ret tt m' /\
    firstn 8 (usbfs_outbuf m') = le32 0x01000680 ++ le32 0x00400000 /\
    setup_of (usbfs_outbuf m') = get_descriptor_device_64.
Proof.
  destruct (setup_packet_is_last_two_words (R := gd32vf103) test_stale_setup
              (setup_status 16)
              [0x11111111; 0x22222222; 0x01000680; 0x00400000] []
              [0x11111111; 0x22222222] 0x01000680 0x00400000)
    as (m' & Hrun & _ & Hfirst & _);
    [by_computation | by_computation | by_computation | by_computation
    | by_computation | by_computation | by_computation |].
  exists m'. split; [exact Hrun|]. split; [exact Hfirst|].
  assert (Hsetup : forall mem, firstn 8 mem = le32 0x01000680 ++ le32 0x00400000 ->
                               setup_of mem = get_descriptor_device_64).
  { intros mem Hmem.
    destruct mem as [|b0 [|b1 [|b2 [|b3 [|b4 [|b5 [|b6 [|b7 rest]]]]]]]];
      try discriminate Hmem.
    injection Hmem as -> -> -> -> -> -> -> ->. reflexivity. }
  now apply Hsetup.
Defined.

Lemma reboot_on_ack_resets_witness :
  (exists m',
      usbfs_handle_ep0 (R := gd32vf103) test_reboot_pending = SystemReset m' /\
      regs m' DBG_KEY = 0x4B5A6978 /\ regs m' DBG_CMD = 1) /\
  (exists m',
      usbfs_handle_ep0 (R := gd32vf103) (hw_in_complete (R := gd32vf103) test_idle) =
      Ret tt m').
Proof.
  split.
  - destruct (proj1 (reboot_on_ack_resets (R := gd32vf103) test_reboot_pending
                       ltac:(by_computation) ltac:(by_computation))
                ltac:(by_computation))
      as (m' & Hrun & _ & Hkey & Hcmd & _).
    exists m'. split; [exact Hrun|]. rewrite Hkey, Hcmd. split; by_computation.
  - destruct (proj2 (reboot_on_ack_resets (R := gd32vf103)
                       (hw_in_complete (R := gd32vf103) test_idle)
                       ltac:(by_computation) ltac:(by_computation))
                ltac:(by_computation))
      as (m' & Hrun & _).
    exists m'. exact Hrun.
Defined.

(** The download of [example_dnload]: the handler is called once, when the
    hundredth byte has arrived, with the bytes of both packets in the
    buffer, and the only IN packet armed is the empty acknowledgement. *)
Lemma example_dnload_runs :
  exists m,
    example_dnload = Ret tt m /\
    bytes (usbfs_state m) = 0 /\
    dfu m = 1%nat /\
    firstn 100 (skipn 8 (usbfs_outbuf m)) =
      flat_map le32 (repeat 0x04030201 16 ++ repeat 0x08070605 9) /\
    armed_in (log m) = [Z.shiftl 1 19].
Proof.
  exists (final example_dnload).
  split; [by_computation|]. split; [by_computation|].
  split; [by_computation|]. split; by_computation.
Qed.

(** ** The further properties on concrete machines *)

Lemma standard_request_stays_in_driver_witness :
  standard_request get_descriptor_device_64 /\
  exists r d m',
    usbfs_setup_handler_run (R := gd32vf103) get_descriptor_device_64 []
      test_idle = Ret (r, d) m' /\
    dfu m' = dfu test_idle /\
    usbfs_reboot_on_ack m' = usbfs_reboot_on_ack test_idle /\
    (r = -1 /\ d = [] \/ 0 <= r <= Z.of_nat (List.length d)).
Proof.
  split; [reflexivity|].
  apply (standard_request_stays_in_driver (R := gd32vf103)
           get_descriptor_device_64 [] test_idle).
  reflexivity.
Defined.

Lemma no_data_request_witness :
  exists m',
    usbfs_handle_setup (R := gd32vf103) (with_setup dfu_detach_packet test_idle) =
      Ret tt m' /\
    bytes (usbfs_state m') = 0 /\
    dfu m' = 1%nat /\
    usbfs_reboot_on_ack m' = true.
Proof.
  destruct (no_data_request (R := gd32vf103)
              (with_setup dfu_detach_packet test_idle) 0 []
              (set_bridge (B := counting_bridge) 1%nat true
                 (with_bytes 0 (with_setup dfu_detach_packet test_idle))))
    as (m' & Hrun & Hb & _ & Hdfu & Hre & _);
    [by_computation | by_computation | by_computation |].
  exists m'. split; [exact Hrun|]. split; [exact Hb|].
  rewrite Hdfu, Hre. split; by_computation.
Defined.

Lemma unmatched_request_stalls_witness :
  exists m',
    usbfs_handle_setup (R := gd32vf103) (with_setup get_interface_packet test_idle) =
      Ret tt m' /\
    bytes (usbfs_state m') = 0 /\
    dfu m' = dfu (with_setup get_interface_packet test_idle).
Proof.
  destruct (unmatched_request_stalls (R := gd32vf103)
              (with_setup get_interface_packet test_idle))
    as (m' & Hrun & _ & Hb & _ & _ & Hdfu & _);
    [by_computation | left; by_computation |].
  exists m'. split; [exact Hrun|]. split; [exact Hb | exact Hdfu].
Defined.

Lemma ep0in_transfer_fifo_round_trip_witness :
  exists m' ws,
    usbfs_ep0in_transfer (R := gd32vf103) test_send_device = Ret tt m' /\
    fifo_words (log m') = fifo_words (log test_send_device) ++ ws /\
    List.length ws = 5%nat /\
    firstn 18 (flat_map le32 ws) = usbfs_descriptor_device.
Proof.
  destruct (ep0in_transfer_fifo_round_trip (R := gd32vf103) test_send_device)
    as (m' & ws & Hrun & _ & _ & Hw & Hcount & Hdata);
    [by_computation | apply is_byte_check; by_computation | by_computation |].
  exists m', ws. split; [exact Hrun|]. split; [exact Hw|].
  split.
  - apply Nat2Z.inj. rewrite Hcount. by_computation.
  - assert (E : Z.to_nat (Z.min (bytes (usbfs_state test_send_device)) 64) = 18%nat)
      by by_computation.
    rewrite E in Hdata. rewrite Hdata. by_computation.
Defined.

Lemma in_data_stage_sends_object_witness :
  exists k m' ws,
    in_data_stage (R := gd32vf103) k (test_upload 100) = Ret tt m' /\
    List.length ws = 25%nat /\
    firstn 100 (flat_map le32 ws) = repeat 0xA5 100.
Proof.
  destruct (in_data_stage_sends_object (R := gd32vf103) (test_upload 100)
              100 (repeat 0xA5 100)
              (set_bridge (B := counting_bridge) 1%nat false
                 (with_bytes 0 (test_upload 100))))
    as (m' & ws & Hstage & _ & Hcount & Hdata);
    [by_computation | by_computation | by_computation | by_computation
    | by_computation | apply is_byte_check; by_computation |].
  eexists _, m', ws. split; [exact Hstage|].
  assert (E : Z.min 100 (wLength (setup_of (usbfs_outbuf (test_upload 100)))) = 100)
    by by_computation.
  rewrite E in Hcount, Hdata.
  split.
  - apply Nat2Z.inj. rewrite Hcount. by_computation.
  - change (Z.to_nat 100) with 100%nat in Hdata. rewrite Hdata. by_computation.
Defined.

Lemma out_stage_counts_down_witness :
  exists m',
    out_stage (R := gd32vf103) [0; 0] (with_bytes 200 (test_dnload 200)) =
      Ret tt m' /\
    bytes (usbfs_state m') = 72 /\
    dfu m' = 0%nat.
Proof.
  destruct (out_stage_counts_down (R := gd32vf103) [0; 0]
              (with_bytes 200 (test_dnload 200)))
    as (m' & Hrun & Hb & _ & Hdfu & _);
    [by_computation | by_computation | by_computation |].
  exists m'. split; [exact Hrun|].
  rewrite Hb, Hdfu. split; by_computation.
Defined.

Lemma rxdata_ignores_foreign_and_empty_witness :
  exists m',
    usbfs_handle_rxdata (R := gd32vf103) test_foreign_packet = Ret tt m' /\
    rxfifo m' = [] /\
    usbfs_outbuf m' = usbfs_outbuf test_foreign_packet.
Proof.
  destruct (rxdata_ignores_foreign_and_empty (R := gd32vf103) test_foreign_packet
              (Z.lor (out_status 4) 1) [0xdeadbeef] [])
    as (m' & Hrun & _ & Hq & _ & Hbuf & _);
    [by_computation | left; by_computation |].
  exists m'. split; [exact Hrun|]. split; [exact Hq | exact Hbuf].
Defined.

Lemma rxdata_stores_out_packet_witness :
  exists m',
    usbfs_handle_rxdata (R := gd32vf103) test_out_packet = Ret tt m' /\
    firstn 8 (usbfs_outbuf m') = [1; 2; 3; 4; 5; 6; 0; 0] /\
    ep0out (usbfs_state m') = 8.
Proof.
  destruct (rxdata_stores_out_packet (R := gd32vf103) test_out_packet
              (out_status 6) [0x04030201; 0x00000605] [])
    as (m' & Hrun & _ & _ & _ & Hbuf & Hcur & _);
    [by_computation | by_computation | by_computation | by_computation
    | by_computation | by_computation | by_computation |].
  exists m'. split; [exact Hrun|].
  rewrite Hbuf, Hcur. split; by_computation.
Defined.

Lemma suspend_ends_interrupt_witness :
  exists m',
    usbfs_irq_events (R := gd32vf103)
      (Z.lor (Z.shiftl 1 11) (Z.shiftl 1 12)) test_idle = Ret tt m' /\
    log m' = log test_idle ++ [Store GINTF (Z.shiftl 1 11)].
Proof.
  destruct (suspend_ends_interrupt (R := gd32vf103)
              (Z.lor (Z.shiftl 1 11) (Z.shiftl 1 12)) test_idle)
    as (m' & Hrun & Hlog & _); [by_computation | by_computation |].
  exists m'. split; [exact Hrun | exact Hlog].
Defined.

Lemma irq_handler_returns_or_resets_witness :
  (exists m', USBFS_IRQHandler (R := gd32vf103) test_two_waiting = Ret tt m') \/
  (exists m', USBFS_IRQHandler (R := gd32vf103) test_two_waiting = SystemReset m' /\
              usbfs_reboot_on_ack test_two_waiting = true /\
              bytes (usbfs_state test_two_waiting) = 0 /\
              regs m' DBG_KEY = 0x4B5A6978 /\
              regs m' DBG_CMD = 1) \/
  (exists m' evs,
      USBFS_IRQHandler (R := gd32vf103) test_two_waiting = OutOfBounds m' /\
      log m' = log test_two_waiting ++ evs /\
      forallb is_rx_access evs = true).
Proof.
  apply (irq_handler_returns_or_resets (R := gd32vf103) test_two_waiting);
    by_computation.
Defined.

Lemma set_address_request_witness :
  exists m',
    usbfs_handle_setup (R := gd32vf103)
      (with_setup set_address_high_index test_idle) = Ret tt m' /\
    regs m' DCFG = Z.shiftl 7 4 /\
    bytes (usbfs_state m') = 0.
Proof.
  destruct (set_address_request (R := gd32vf103)
              (with_setup set_address_high_index test_idle))
    as (m' & Hrun & _ & Hdcfg & Hb & _);
    [by_computation | by_computation | by_computation | by_computation |].
  exists m'. split; [exact Hrun|]. split; [|exact Hb].
  rewrite Hdcfg. by_computation.
Defined.

Lemma allocate_buffers_layout_witness :
  exists v0 v1 v2 v3,
    usbfs_allocate_buffers USBFS_FIFO_RXSIZE USBFS_FIFO_TX0SIZE
      USBFS_FIFO_TX1SIZE USBFS_FIFO_TX2SIZE USBFS_FIFO_TX3SIZE =
      [(GRFLEN, 128); (DIEP0TFLEN, v0); (DIEP1TFLEN, v1);
       (DIEP2TFLEN, v2); (DIEP3TFLEN, v3)] /\
    (fifo_start v0, fifo_depth v0) = (128, 32) /\
    (fifo_start v1, fifo_depth v1) = (160, 0) /\
    (fifo_start v2, fifo_depth v2) = (160, 0) /\
    (fifo_start v3, fifo_depth v3) = (160, 0).
Proof.
  destruct (allocate_buffers_layout USBFS_FIFO_RXSIZE USBFS_FIFO_TX0SIZE
              USBFS_FIFO_TX1SIZE USBFS_FIFO_TX2SIZE USBFS_FIFO_TX3SIZE)
    as (v0 & v1 & v2 & v3 & Hrun & S0 & D0 & S1 & D1 & S2 & D2 & S3 & D3);
    [by_computation | by_computation | by_computation | by_computation
    | by_computation | by_computation |].
  exists v0, v1, v2, v3. split; [exact Hrun|].
  rewrite S3, D3, S2, D2, S1, D1, S0, D0. repeat split.
Defined.

Lemma failed_in_request_stalls_witness :
  exists m',
    usbfs_handle_setup (R := gd32vf103)
      (with_setup get_descriptor_qualifier test_idle) = Ret tt m' /\
    bytes (usbfs_state m') = 0 /\
    log m' =
      [Load (DIEP_CTL 0) 0; Store (DIEP_CTL 0) (Z.shiftl 1 21);
       Store (DOEP_LEN 0) (Z.shiftl 3 29);
       Load (DOEP_CTL 0) 0;
       Store (DOEP_CTL 0) (Z.lor (Z.shiftl 1 31) (Z.shiftl 1 21))].
Proof.
  destruct (failed_in_request_stalls (R := gd32vf103)
              (with_setup get_descriptor_qualifier test_idle) (-1) []
              (with_bytes 0 (with_setup get_descriptor_qualifier test_idle)))
    as (m' & Hrun & Hlog & Hb & _);
    [by_computation | by_computation | by_computation |].
  exists m'. split; [exact Hrun|]. split; [exact Hb|].
  rewrite Hlog. by_computation.
Defined.

Lemma empty_in_data_stage_witness :
  exists m',
    usbfs_handle_setup (R := gd32vf103)
      (with_setup get_descriptor_device_0 test_idle) = Ret tt m' /\
    bytes (usbfs_state m') = 0 /\
    armed_in (log m') = [Z.shiftl 1 19].
Proof.
  destruct (empty_in_data_stage (R := gd32vf103)
              (with_setup get_descriptor_device_0 test_idle) 18
              usbfs_descriptor_device
              (with_bytes 0 (with_setup get_descriptor_device_0 test_idle)))
    as (m' & Hrun & Hb & Harm & _);
    [by_computation | by_computation | by_computation | by_computation |].
  exists m'. split; [exact Hrun|]. split; [exact Hb|].
  rewrite Harm. by_computation.
Defined.

Lemma ep0_event_acknowledges_flags_witness :
  regs (final (usbfs_handle_ep0 (R := gd32vf103)
                 (hw_in_complete (R := gd32vf103) (test_upload 100))))
       (DOEP_INTF 0) = 0 /\
  regs (final (usbfs_handle_ep0 (R := gd32vf103)
                 (hw_in_complete (R := gd32vf103) (test_upload 100))))
       (DIEP_INTF 0) = 0.
Proof.
  apply (ep0_event_acknowledges_flags (R := gd32vf103)
           (hw_in_complete (R := gd32vf103) (test_upload 100))).
  by_computation.
Defined.

Lemma setup_packet_fields_of_words_witness :
  setup_of (usbfs_outbuf (with_setup get_descriptor_device_64 test_idle)) =
  {| bmRequestType := 0x01000680 mod 256;
     bRequest := (0x01000680 / 256) mod 256;
     wValue := 0x01000680 / 65536;
     wIndex := 0x00400000 mod 65536;
     wLength := 0x00400000 / 65536 |}.
Proof.
  apply (setup_packet_fields_of_words
           (usbfs_outbuf (with_setup get_descriptor_device_64 test_idle))
           0x01000680 0x00400000);
    [by_computation | split; by_computation | split; by_computation].
Defined.

Lemma reset_then_enumeration_witness :
  exists m',
    usbfs_irq_events (R := gd32vf103)
      (Z.lor (Z.shiftl 1 12) (Z.shiftl 1 13))
      (set_regs (upd DSTAT (Z.shiftl 3 1) (regs test_idle))
         (with_bytes 100 test_idle)) = Ret tt m' /\
    bytes (usbfs_state m') = 0 /\
    regs m' (DOEP_LEN 0) = Z.shiftl 3 29.
Proof.
  destruct (reset_then_enumeration (R := gd32vf103)
              (Z.lor (Z.shiftl 1 12) (Z.shiftl 1 13))
              (set_regs (upd DSTAT (Z.shiftl 3 1) (regs test_idle))
                 (with_bytes 100 test_idle)))
    as (m' & evs & Hrun & Hb & _ & Hlen & _);
    [by_computation | by_computation | by_computation | by_computation
    | by_computation |].
  exists m'. split; [exact Hrun|]. split; [exact Hb|].
  rewrite Hlen. by_computation.
Defined.

